(** * crtmon: domain tracker, notification batcher and sink delivery

    A shallow embedding of the deduplication core of crtmon
    ([tracking.go]) and of its notification layer ([send.go]), together
    with the properties the specification states about them, and of the
    code around them: the certificate pipeline ([main.go]), the
    resolution cache, the blacklist handlers of the admin server
    ([stats.go]) and the enumeration helpers.

    Conventions of the embedding:
    - Go's [int] and [time.Duration] are 64-bit integers; they are carried
      in [Z] and every arithmetic step that can leave the 64-bit range is
      wrapped ([int_wrap]) or saturated ([Sub]) as Go does.
    - A [time.Time] is the number of nanoseconds since the Unix epoch.
      One clock reading [now] is taken per tracker operation (the source
      calls [time.Now] several times within one locked operation).
    - [Format("2006-01-02")] is injective on civil days, so a date string
      is represented by the number of its civil day in the process-local
      zone, a fixed offset [tz] from UTC; the empty string (the zero value
      of [LastHighHitDate]) is [None].
    - A [nil] map or slice reads like an empty one in every operation that
      is modelled, so both are the empty map or list.
    - The tracker's mutex makes every operation atomic; an operation is a
      function from the state before to the state after. *)

From Stdlib Require Import ZArith Ascii String List Lia.
From stdpp Require Import base tactics option list gmap strings fin_maps fin_sets.

Local Open Scope string_scope.
Local Open Scope Z_scope.
Local Open Scope list_scope.

(** ** Go primitives *)

Definition min_int : Z := - 2 ^ 63.
Definition max_int : Z := 2 ^ 63 - 1.

(** Two's complement wrap-around of a 64-bit signed result. *)
Definition int_wrap (z : Z) : Z := (z + 2 ^ 63) mod 2 ^ 64 - 2 ^ 63.

(** [x++] on an [int]. *)
Definition incr (x : Z) : Z := int_wrap (x + 1).

(** [time.Duration] constants, in nanoseconds. *)
Definition Nanosecond : Z := 1.
Definition Second : Z := 1000000000 * Nanosecond.
Definition Hour : Z := 3600 * Second.
Definition Day : Z := 24 * Hour.

(** [t.Sub(u)]: the difference as a [Duration], saturated at the ends of
    the 64-bit range. [time.Since(u)] is [Sub now u]. *)
Definition Sub (t u : Z) : Z := Z.max min_int (Z.min max_int (t - u)).

(** The zero [time.Time], January 1 of year 1, 00:00 UTC. *)
Definition zero_time : Z := - 62135596800 * Second.

(** Civil day (days since 1970-01-01) of an instant in the zone [tz]
    nanoseconds east of UTC: what [Format("2006-01-02")] prints. *)
Definition day_of (tz t : Z) : Z := (t + tz) / Day.

(** [strings.HasPrefix], [strings.HasSuffix], [strings.TrimSuffix]. *)
Definition HasPrefix (s pre : string) : bool := String.prefix pre s.

Definition HasSuffix (s suf : string) : bool :=
  let n := String.length s in
  let m := String.length suf in
  (m <=? n)%nat && String.eqb (substring (n - m) m s) suf.

Definition TrimSuffix (s suf : string) : string :=
  if HasSuffix s suf
  then substring 0 (String.length s - String.length suf) s
  else s.

(** [strings.ToLower] restricted to ASCII, byte by byte; used where a
    concrete lower-casing function is needed. *)
Definition lower_ascii (c : ascii) : ascii :=
  let n := nat_of_ascii c in
  if ((65 <=? n) && (n <=? 90))%nat then ascii_of_nat (n + 32) else c.

Fixpoint ToLowerASCII (s : string) : string :=
  match s with
  | EmptyString => EmptyString
  | String c s' => String (lower_ascii c) (ToLowerASCII s')
  end.

(** [IsWildcardDomain] (enumeration helpers). *)
Definition IsWildcardDomain (domain : string) : bool := HasPrefix domain "*.".

(** [strings.TrimPrefix] *)
Definition TrimPrefix (s pre : string) : string :=
  if HasPrefix s pre
  then substring (String.length pre) (String.length s - String.length pre) s
  else s.

(** [ExtractBaseDomain] *)
Definition ExtractBaseDomain (domain : string) : string :=
  if IsWildcardDomain domain then TrimPrefix domain "*." else domain.

(** [triggerEnumeration]: the scanner it runs and what it passes to it
    (the scanners themselves, external programs, are not modelled). *)
Inductive scan : Type :=
| Puredns (baseDomain target : string)
| Feroxbuster (domain target : string).

Definition triggerEnumeration (domain target : string) : scan :=
  if IsWildcardDomain domain
  then let baseDomain := ExtractBaseDomain domain in Puredns baseDomain target
  else Feroxbuster domain target.

(** ** The tracking entry

    [DomainEntry] of [tracking.go]. The three fields of reference type
    (the [DailyHits] map and the two slices) are parameters: the tracker
    model instantiates them with values, the aliasing model with
    references into a heap. *)

Record DomainEntryOf (M L S : Type) : Type := mkDomainEntry {
  Domain : string;
  HitCount : Z;
  FirstSeen : Z;
  LastSeen : Z;
  LastNotified : Z;
  Resolved : bool;
  Blacklisted : bool;
  BlacklistedDate : Z;
  DailyHits : M;
  HighHitDays : Z;
  LastHighHitDate : option Z;
  HttpStatusCode : Z;
  ResponseSize : Z;
  ResponseLineCount : Z;
  ResponseWordCount : Z;
  RiskLabels : L;
  RiskScore : Z;
  CertIssuer : string;
  PreviousIssuer : string;
  StatusCodeHistory : S;
  IsDuplicate : bool
}.
Arguments mkDomainEntry {M L S}.
Arguments Domain {M L S} _.
Arguments HitCount {M L S} _.
Arguments FirstSeen {M L S} _.
Arguments LastSeen {M L S} _.
Arguments LastNotified {M L S} _.
Arguments Resolved {M L S} _.
Arguments Blacklisted {M L S} _.
Arguments BlacklistedDate {M L S} _.
Arguments DailyHits {M L S} _.
Arguments HighHitDays {M L S} _.
Arguments LastHighHitDate {M L S} _.
Arguments HttpStatusCode {M L S} _.
Arguments ResponseSize {M L S} _.
Arguments ResponseLineCount {M L S} _.
Arguments ResponseWordCount {M L S} _.
Arguments RiskLabels {M L S} _.
Arguments RiskScore {M L S} _.
Arguments CertIssuer {M L S} _.
Arguments PreviousIssuer {M L S} _.
Arguments StatusCodeHistory {M L S} _.
Arguments IsDuplicate {M L S} _.

Section Assign.
Context {M L S : Type}.
Implicit Type entry : DomainEntryOf M L S.

Definition set_HitCount (v : Z) entry : DomainEntryOf M L S :=
  mkDomainEntry (Domain entry) v (FirstSeen entry) (LastSeen entry)
  (LastNotified entry) (Resolved entry) (Blacklisted entry) (BlacklistedDate
  entry) (DailyHits entry) (HighHitDays entry) (LastHighHitDate entry)
  (HttpStatusCode entry) (ResponseSize entry) (ResponseLineCount entry)
  (ResponseWordCount entry) (RiskLabels entry) (RiskScore entry) (CertIssuer
  entry) (PreviousIssuer entry) (StatusCodeHistory entry) (IsDuplicate
  entry).
Definition set_LastSeen (v : Z) entry : DomainEntryOf M L S :=
  mkDomainEntry (Domain entry) (HitCount entry) (FirstSeen entry) v
  (LastNotified entry) (Resolved entry) (Blacklisted entry) (BlacklistedDate
  entry) (DailyHits entry) (HighHitDays entry) (LastHighHitDate entry)
  (HttpStatusCode entry) (ResponseSize entry) (ResponseLineCount entry)
  (ResponseWordCount entry) (RiskLabels entry) (RiskScore entry) (CertIssuer
  entry) (PreviousIssuer entry) (StatusCodeHistory entry) (IsDuplicate
  entry).
Definition set_LastNotified (v : Z) entry : DomainEntryOf M L S :=
  mkDomainEntry (Domain entry) (HitCount entry) (FirstSeen entry) (LastSeen
  entry) v (Resolved entry) (Blacklisted entry) (BlacklistedDate entry)
  (DailyHits entry) (HighHitDays entry) (LastHighHitDate entry)
  (HttpStatusCode entry) (ResponseSize entry) (ResponseLineCount entry)
  (ResponseWordCount entry) (RiskLabels entry) (RiskScore entry) (CertIssuer
  entry) (PreviousIssuer entry) (StatusCodeHistory entry) (IsDuplicate
  entry).
Definition set_Resolved (v : bool) entry : DomainEntryOf M L S :=
  mkDomainEntry (Domain entry) (HitCount entry) (FirstSeen entry) (LastSeen
  entry) (LastNotified entry) v (Blacklisted entry) (BlacklistedDate entry)
  (DailyHits entry) (HighHitDays entry) (LastHighHitDate entry)
  (HttpStatusCode entry) (ResponseSize entry) (ResponseLineCount entry)
  (ResponseWordCount entry) (RiskLabels entry) (RiskScore entry) (CertIssuer
  entry) (PreviousIssuer entry) (StatusCodeHistory entry) (IsDuplicate
  entry).
Definition set_Blacklisted (v : bool) entry : DomainEntryOf M L S :=
  mkDomainEntry (Domain entry) (HitCount entry) (FirstSeen entry) (LastSeen
  entry) (LastNotified entry) (Resolved entry) v (BlacklistedDate entry)
  (DailyHits entry) (HighHitDays entry) (LastHighHitDate entry)
  (HttpStatusCode entry) (ResponseSize entry) (ResponseLineCount entry)
  (ResponseWordCount entry) (RiskLabels entry) (RiskScore entry) (CertIssuer
  entry) (PreviousIssuer entry) (StatusCodeHistory entry) (IsDuplicate
  entry).
Definition set_BlacklistedDate (v : Z) entry : DomainEntryOf M L S :=
  mkDomainEntry (Domain entry) (HitCount entry) (FirstSeen entry) (LastSeen
  entry) (LastNotified entry) (Resolved entry) (Blacklisted entry) v
  (DailyHits entry) (HighHitDays entry) (LastHighHitDate entry)
  (HttpStatusCode entry) (ResponseSize entry) (ResponseLineCount entry)
  (ResponseWordCount entry) (RiskLabels entry) (RiskScore entry) (CertIssuer
  entry) (PreviousIssuer entry) (StatusCodeHistory entry) (IsDuplicate
  entry).
Definition set_DailyHits (v : M) entry : DomainEntryOf M L S :=
  mkDomainEntry (Domain entry) (HitCount entry) (FirstSeen entry) (LastSeen
  entry) (LastNotified entry) (Resolved entry) (Blacklisted entry)
  (BlacklistedDate entry) v (HighHitDays entry) (LastHighHitDate entry)
  (HttpStatusCode entry) (ResponseSize entry) (ResponseLineCount entry)
  (ResponseWordCount entry) (RiskLabels entry) (RiskScore entry) (CertIssuer
  entry) (PreviousIssuer entry) (StatusCodeHistory entry) (IsDuplicate
  entry).
Definition set_HighHitDays (v : Z) entry : DomainEntryOf M L S :=
  mkDomainEntry (Domain entry) (HitCount entry) (FirstSeen entry) (LastSeen
  entry) (LastNotified entry) (Resolved entry) (Blacklisted entry)
  (BlacklistedDate entry) (DailyHits entry) v (LastHighHitDate entry)
  (HttpStatusCode entry) (ResponseSize entry) (ResponseLineCount entry)
  (ResponseWordCount entry) (RiskLabels entry) (RiskScore entry) (CertIssuer
  entry) (PreviousIssuer entry) (StatusCodeHistory entry) (IsDuplicate
  entry).
Definition set_LastHighHitDate (v : option Z) entry : DomainEntryOf M L S :=
  mkDomainEntry (Domain entry) (HitCount entry) (FirstSeen entry) (LastSeen
  entry) (LastNotified entry) (Resolved entry) (Blacklisted entry)
  (BlacklistedDate entry) (DailyHits entry) (HighHitDays entry) v
  (HttpStatusCode entry) (ResponseSize entry) (ResponseLineCount entry)
  (ResponseWordCount entry) (RiskLabels entry) (RiskScore entry) (CertIssuer
  entry) (PreviousIssuer entry) (StatusCodeHistory entry) (IsDuplicate
  entry).
Definition set_HttpStatusCode (v : Z) entry : DomainEntryOf M L S :=
  mkDomainEntry (Domain entry) (HitCount entry) (FirstSeen entry) (LastSeen
  entry) (LastNotified entry) (Resolved entry) (Blacklisted entry)
  (BlacklistedDate entry) (DailyHits entry) (HighHitDays entry)
  (LastHighHitDate entry) v (ResponseSize entry) (ResponseLineCount entry)
  (ResponseWordCount entry) (RiskLabels entry) (RiskScore entry) (CertIssuer
  entry) (PreviousIssuer entry) (StatusCodeHistory entry) (IsDuplicate
  entry).
Definition set_ResponseSize (v : Z) entry : DomainEntryOf M L S :=
  mkDomainEntry (Domain entry) (HitCount entry) (FirstSeen entry) (LastSeen
  entry) (LastNotified entry) (Resolved entry) (Blacklisted entry)
  (BlacklistedDate entry) (DailyHits entry) (HighHitDays entry)
  (LastHighHitDate entry) (HttpStatusCode entry) v (ResponseLineCount entry)
  (ResponseWordCount entry) (RiskLabels entry) (RiskScore entry) (CertIssuer
  entry) (PreviousIssuer entry) (StatusCodeHistory entry) (IsDuplicate
  entry).
Definition set_ResponseLineCount (v : Z) entry : DomainEntryOf M L S :=
  mkDomainEntry (Domain entry) (HitCount entry) (FirstSeen entry) (LastSeen
  entry) (LastNotified entry) (Resolved entry) (Blacklisted entry)
  (BlacklistedDate entry) (DailyHits entry) (HighHitDays entry)
  (LastHighHitDate entry) (HttpStatusCode entry) (ResponseSize entry) v
  (ResponseWordCount entry) (RiskLabels entry) (RiskScore entry) (CertIssuer
  entry) (PreviousIssuer entry) (StatusCodeHistory entry) (IsDuplicate
  entry).
Definition set_ResponseWordCount (v : Z) entry : DomainEntryOf M L S :=
  mkDomainEntry (Domain entry) (HitCount entry) (FirstSeen entry) (LastSeen
  entry) (LastNotified entry) (Resolved entry) (Blacklisted entry)
  (BlacklistedDate entry) (DailyHits entry) (HighHitDays entry)
  (LastHighHitDate entry) (HttpStatusCode entry) (ResponseSize entry)
  (ResponseLineCount entry) v (RiskLabels entry) (RiskScore entry)
  (CertIssuer entry) (PreviousIssuer entry) (StatusCodeHistory entry)
  (IsDuplicate entry).
Definition set_RiskLabels (v : L) entry : DomainEntryOf M L S :=
  mkDomainEntry (Domain entry) (HitCount entry) (FirstSeen entry) (LastSeen
  entry) (LastNotified entry) (Resolved entry) (Blacklisted entry)
  (BlacklistedDate entry) (DailyHits entry) (HighHitDays entry)
  (LastHighHitDate entry) (HttpStatusCode entry) (ResponseSize entry)
  (ResponseLineCount entry) (ResponseWordCount entry) v (RiskScore entry)
  (CertIssuer entry) (PreviousIssuer entry) (StatusCodeHistory entry)
  (IsDuplicate entry).
Definition set_RiskScore (v : Z) entry : DomainEntryOf M L S :=
  mkDomainEntry (Domain entry) (HitCount entry) (FirstSeen entry) (LastSeen
  entry) (LastNotified entry) (Resolved entry) (Blacklisted entry)
  (BlacklistedDate entry) (DailyHits entry) (HighHitDays entry)
  (LastHighHitDate entry) (HttpStatusCode entry) (ResponseSize entry)
  (ResponseLineCount entry) (ResponseWordCount entry) (RiskLabels entry) v
  (CertIssuer entry) (PreviousIssuer entry) (StatusCodeHistory entry)
  (IsDuplicate entry).
Definition set_CertIssuer (v : string) entry : DomainEntryOf M L S :=
  mkDomainEntry (Domain entry) (HitCount entry) (FirstSeen entry) (LastSeen
  entry) (LastNotified entry) (Resolved entry) (Blacklisted entry)
  (BlacklistedDate entry) (DailyHits entry) (HighHitDays entry)
  (LastHighHitDate entry) (HttpStatusCode entry) (ResponseSize entry)
  (ResponseLineCount entry) (ResponseWordCount entry) (RiskLabels entry)
  (RiskScore entry) v (PreviousIssuer entry) (StatusCodeHistory entry)
  (IsDuplicate entry).
Definition set_PreviousIssuer (v : string) entry : DomainEntryOf M L S :=
  mkDomainEntry (Domain entry) (HitCount entry) (FirstSeen entry) (LastSeen
  entry) (LastNotified entry) (Resolved entry) (Blacklisted entry)
  (BlacklistedDate entry) (DailyHits entry) (HighHitDays entry)
  (LastHighHitDate entry) (HttpStatusCode entry) (ResponseSize entry)
  (ResponseLineCount entry) (ResponseWordCount entry) (RiskLabels entry)
  (RiskScore entry) (CertIssuer entry) v (StatusCodeHistory entry)
  (IsDuplicate entry).
Definition set_StatusCodeHistory (v : S) entry : DomainEntryOf M L S :=
  mkDomainEntry (Domain entry) (HitCount entry) (FirstSeen entry) (LastSeen
  entry) (LastNotified entry) (Resolved entry) (Blacklisted entry)
  (BlacklistedDate entry) (DailyHits entry) (HighHitDays entry)
  (LastHighHitDate entry) (HttpStatusCode entry) (ResponseSize entry)
  (ResponseLineCount entry) (ResponseWordCount entry) (RiskLabels entry)
  (RiskScore entry) (CertIssuer entry) (PreviousIssuer entry) v (IsDuplicate
  entry).
Definition set_IsDuplicate (v : bool) entry : DomainEntryOf M L S :=
  mkDomainEntry (Domain entry) (HitCount entry) (FirstSeen entry) (LastSeen
  entry) (LastNotified entry) (Resolved entry) (Blacklisted entry)
  (BlacklistedDate entry) (DailyHits entry) (HighHitDays entry)
  (LastHighHitDate entry) (HttpStatusCode entry) (ResponseSize entry)
  (ResponseLineCount entry) (ResponseWordCount entry) (RiskLabels entry)
  (RiskScore entry) (CertIssuer entry) (PreviousIssuer entry)
  (StatusCodeHistory entry) v.
End Assign.

Abbreviation DomainEntry := (DomainEntryOf (gmap Z Z) (list string) (list Z)).

(** ** The notification batcher ([send.go])

    [go n.send(target, domains)] hands the detached batch to a new
    goroutine and [add] returns; [flush] calls [n.send] itself, on the
    goroutine of the timer. The model records each hand-over, in order,
    with the way it was launched. A timer is a handle; [armed] holds the
    timers that were created by [time.AfterFunc] and have neither fired
    nor been stopped. *)

Module Notifier.

Definition batchDelay : Z := 5 * Second.
Definition maxBatchSize : nat := 25.

Inductive launch : Type := Go | Call.

Record dispatch : Type := mkDispatch {
  how : launch;
  to_target : string;
  batch : list string
}.

Record notificationBuffer : Type := mkBuffer {
  pending : gmap string (list string);
  timers : gmap string nat;
  armed : gset nat;
  next_timer : nat;
  sent : list dispatch
}.

Definition empty_buffer : notificationBuffer :=
  mkBuffer ∅ ∅ ∅ 0%nat [].

Definition add (target domain : string) (n : notificationBuffer)
  : notificationBuffer :=
  let buf := default [] (pending n !! target) ++ [domain] in
  let pending1 := <[target := buf]> (pending n) in
  if bool_decide (maxBatchSize ≤ length buf)%nat then
    let domains := buf in
    let pending2 := delete target pending1 in
    match timers n !! target with
    | Some timer =>
        mkBuffer pending2 (delete target (timers n)) (armed n ∖ {[timer]})
                 (next_timer n) (sent n ++ [mkDispatch Go target domains])
    | None =>
        mkBuffer pending2 (timers n) (armed n)
                 (next_timer n) (sent n ++ [mkDispatch Go target domains])
    end
  else
    match timers n !! target with
    | Some _ => mkBuffer pending1 (timers n) (armed n) (next_timer n) (sent n)
    | None =>
        mkBuffer pending1 (<[target := next_timer n]> (timers n))
                 (armed n ∪ {[next_timer n]}) (S (next_timer n)) (sent n)
    end.

Definition flush (target : string) (n : notificationBuffer)
  : notificationBuffer :=
  match pending n !! target with
  | None => n
  | Some [] => n
  | Some domains =>
      mkBuffer (delete target (pending n)) (delete target (timers n))
               (armed n) (next_timer n)
               (sent n ++ [mkDispatch Call target domains])
  end.

(** The timer [timer] armed for [target] fires: it leaves [armed] and
    runs its function, [n.flush(target)]. *)
Definition fire (target : string) (timer : nat) (n : notificationBuffer)
  : notificationBuffer :=
  flush target
    (mkBuffer (pending n) (timers n) (armed n ∖ {[timer]}) (next_timer n)
              (sent n)).

(** [sendToDiscord(domain, target)] called for a list of discoveries of
    one target, in order. *)
Definition add_all (target : string) (items : list string)
  (n : notificationBuffer) : notificationBuffer :=
  foldl (fun acc domain => add target domain acc) n items.

(** What happens to the buffer over time: a discovery is added, or a
    timer fires and runs [flush] for its target. *)
Inductive event : Type :=
| Added (target domain : string)
| Fired (target : string) (timer : nat).

Definition apply_event (n : notificationBuffer) (ev : event)
  : notificationBuffer :=
  match ev with
  | Added target domain => add target domain n
  | Fired target timer => fire target timer n
  end.

Definition run (evs : list event) (n : notificationBuffer)
  : notificationBuffer :=
  foldl apply_event n evs.

(** The discoveries added for a target, in order. *)
Definition added (target : string) (evs : list event) : list string :=
  omap (fun ev =>
          match ev with
          | Added t domain =>
              if bool_decide (t = target) then Some domain else None
          | Fired _ _ => None
          end) evs.

(** The discoveries handed over for a target so far, batch after batch. *)
Definition handed_over (target : string) (n : notificationBuffer)
  : list string :=
  concat (omap (fun d =>
                  if bool_decide (to_target d = target)
                  then Some (batch d) else None) (sent n)).

(** The buffer of a target, as [n.pending[target]] reads. *)
Definition buffered (target : string) (n : notificationBuffer) : list string :=
  default [] (pending n !! target).

(** Every target has a buffer exactly when it has a timer, a buffer
    holds between 1 and [maxBatchSize - 1] items, and every batch
    handed over holds [maxBatchSize] items if it was launched by [add]
    and between 1 and [maxBatchSize - 1] if by [flush]. *)
Definition well_formed (n : notificationBuffer) : Prop :=
  (∀ target, is_Some (pending n !! target) ↔ is_Some (timers n !! target))
  ∧ (∀ target buf, pending n !! target = Some buf ->
                   (0 < length buf < maxBatchSize)%nat)
  ∧ (∀ d, d ∈ sent n ->
          match how d with
          | Go => length (batch d) = maxBatchSize
          | Call => (0 < length (batch d) < maxBatchSize)%nat
          end).

End Notifier.

(** ** Delivery to the sinks ([sendDiscord], [sendToTelegram])

    The remote end is an oracle [respond]: the answer [http.Post] gets on
    the attempt with a given index. An answer is a transport error (no
    response) or an HTTP status. The trace lists the requests and the
    sleeps in the order they happen; logging is left out, the [outcome]
    tells which return was taken. The request body is marshalled once,
    before the loop ([None] when [json.Marshal] fails). *)

Module Sink.

Definition rateLimitWait : Z := 2 * Second.
Definition maxRetries : nat := 3.

Definition StatusOK : Z := 200.
Definition StatusNoContent : Z := 204.
Definition StatusTooManyRequests : Z := 429.

Inductive response : Type :=
| TransportError
| Status (code : Z).

Inductive event (body : Type) : Type :=
| Post (url : string) (jsonData : body)
| Sleep (d : Z)
| NewDomainWebhook (domain : string)
| GoEnumerate (domain target : string).
Arguments Post {body}.
Arguments Sleep {body}.
Arguments NewDomainWebhook {body}.
Arguments GoEnumerate {body}.

Inductive outcome : Type :=
| NotAttempted
| Delivered
| TransportFailed
| Rejected (code : Z)
| RetriesExhausted.

Record config : Type := mkConfig {
  notifyDiscord : bool;
  webhookURL : string;
  notifyTelegram : bool;
  telegramToken : string;
  telegramChatID : string;
  newDomainsWebhook : bool;
  enumEnabled : bool
}.

Section Delivery.
Context {body : Type}.
Variable cfg : config.

Definition after_discord_success (target : string) (domains : list string)
  : list (event body) :=
  (if newDomainsWebhook cfg then map NewDomainWebhook domains else [])
  ++ (if enumEnabled cfg
      then map (fun domain => GoEnumerate domain target) domains else []).

(** The loop [for attempt := 0; attempt < maxRetries; attempt++] of
    [sendDiscord], entered with [attempt] and [remaining = maxRetries -
    attempt]. *)
Fixpoint discordLoop (respond : nat -> response) (jsonData : body)
  (target : string) (domains : list string) (remaining attempt : nat)
  : list (event body) * outcome :=
  match remaining with
  | O => ([], RetriesExhausted)
  | S remaining' =>
      match respond attempt with
      | TransportError => ([Post (webhookURL cfg) jsonData], TransportFailed)
      | Status code =>
          if bool_decide (code = StatusOK) || bool_decide (code = StatusNoContent)
          then (Post (webhookURL cfg) jsonData
                  :: after_discord_success target domains, Delivered)
          else if bool_decide (code = StatusTooManyRequests)
          then
            let '(evs, out) :=
              discordLoop respond jsonData target domains remaining' (S attempt) in
            (Post (webhookURL cfg) jsonData
               :: Sleep (rateLimitWait * (Z.of_nat attempt + 1)) :: evs, out)
          else ([Post (webhookURL cfg) jsonData], Rejected code)
      end
  end.

Definition sendDiscord (respond : nat -> response) (jsonData : option body)
  (target : string) (domains : list string) : list (event body) * outcome :=
  match jsonData with
  | None => ([], NotAttempted)
  | Some data => discordLoop respond data target domains maxRetries 0%nat
  end.

Definition telegramURL : string :=
  "https://api.telegram.org/bot" +:+ telegramToken cfg +:+ "/sendMessage".

Fixpoint telegramLoop (respond : nat -> response) (jsonData : body)
  (remaining attempt : nat) : list (event body) * outcome :=
  match remaining with
  | O => ([], RetriesExhausted)
  | S remaining' =>
      match respond attempt with
      | TransportError => ([Post telegramURL jsonData], TransportFailed)
      | Status code =>
          if bool_decide (code = StatusOK)
          then ([Post telegramURL jsonData], Delivered)
          else if bool_decide (code = StatusTooManyRequests)
          then
            let '(evs, out) :=
              telegramLoop respond jsonData remaining' (S attempt) in
            (Post telegramURL jsonData
               :: Sleep (rateLimitWait * (Z.of_nat attempt + 1)) :: evs, out)
          else ([Post telegramURL jsonData], Rejected code)
      end
  end.

Definition sendToTelegram (respond : nat -> response) (jsonData : option body)
  : list (event body) * outcome :=
  if bool_decide (telegramToken cfg = "") || bool_decide (telegramChatID cfg = "")
  then ([], NotAttempted)
  else match jsonData with
       | None => ([], NotAttempted)
       | Some data => telegramLoop respond data maxRetries 0%nat
       end.

(** [n.send(target, domains)]: every enabled sink gets the batch, then
    enumeration is triggered when enabled. *)
Definition send (discord telegram : nat -> response)
  (discordData telegramData : option body)
  (target : string) (domains : list string) : list (event body) :=
  (if notifyDiscord cfg && negb (bool_decide (webhookURL cfg = ""))
   then (sendDiscord discord discordData target domains).1 else [])
  ++ (if notifyTelegram cfg
      then (sendToTelegram telegram telegramData).1 else [])
  ++ (if enumEnabled cfg
      then map (fun domain => GoEnumerate domain target) domains else []).

End Delivery.

(** The requests of a trace. *)
Definition is_post {body : Type} (e : event body) : bool :=
  match e with Post _ _ => true | _ => false end.

Definition posts {body : Type} (evs : list (event body)) : list (event body) :=
  List.filter is_post evs.

(** The statuses each sink takes for a success. *)
Definition discord_ok (code : Z) : bool :=
  bool_decide (code = StatusOK) || bool_decide (code = StatusNoContent).

Definition telegram_ok (code : Z) : bool := bool_decide (code = StatusOK).

(** [k] rate-limited rounds starting at attempt [from]: a request, then
    a sleep of [rateLimitWait] times the number of the attempt. *)
Definition rounds {body : Type} (url : string) (data : body) (from k : nat)
  : list (event body) :=
  flat_map
    (fun attempt =>
       [Post url data; Sleep (rateLimitWait * (Z.of_nat attempt + 1))])
    (seq from k).

(** The shape the two loops share, to state their properties once. *)
Fixpoint retryLoop {body : Type} (ok : Z -> bool) (url : string)
  (success : list (event body)) (respond : nat -> response) (data : body)
  (remaining attempt : nat) : list (event body) * outcome :=
  match remaining with
  | O => ([], RetriesExhausted)
  | S remaining' =>
      match respond attempt with
      | TransportError => ([Post url data], TransportFailed)
      | Status code =>
          if ok code then (Post url data :: success, Delivered)
          else if bool_decide (code = StatusTooManyRequests)
          then
            let '(evs, out) :=
              retryLoop ok url success respond data remaining' (S attempt) in
            (Post url data
               :: Sleep (rateLimitWait * (Z.of_nat attempt + 1)) :: evs, out)
          else ([Post url data], Rejected code)
      end
  end.

(** What a delivery owes, given the answers [respond] of the sink:
    - at most [maxRetries] requests, all with the same body;
    - if the first [k] answers are 429 and attempt [k] is within the
      budget, the trace starts with [k] rate-limited rounds and the
      request of attempt [k]; a transport error or a status that is
      neither a success nor 429 ends the delivery there; a success ends
      it with the follow-up actions; a 429 is followed by the sleep of
      [rateLimitWait * (k + 1)];
    - if all [maxRetries] answers are 429 the trace is exactly these
      rounds and the delivery is given up. *)
Definition retry_contract {body : Type} (ok : Z -> bool) (url : string)
  (data : body) (success : list (event body)) (respond : nat -> response)
  (result : list (event body) * outcome) : Prop :=
  (length (posts result.1) ≤ maxRetries)%nat
  ∧ (∀ e, e ∈ posts result.1 -> e = Post url data)
  ∧ (∀ k, (k < maxRetries)%nat ->
       (∀ j, (j < k)%nat -> respond j = Status StatusTooManyRequests) ->
       match respond k with
       | TransportError =>
           result = (rounds url data 0 k ++ [Post url data], TransportFailed)
       | Status code =>
           if ok code
           then result
                = (rounds url data 0 k ++ Post url data :: success, Delivered)
           else if bool_decide (code = StatusTooManyRequests)
           then ∃ rest,
               result.1
               = rounds url data 0 k
                 ++ Post url data
                 :: Sleep (rateLimitWait * (Z.of_nat k + 1)) :: rest
           else result
                = (rounds url data 0 k ++ [Post url data], Rejected code)
       end)
  ∧ ((∀ j, (j < maxRetries)%nat -> respond j = Status StatusTooManyRequests) ->
     result = (rounds url data 0 maxRetries, RetriesExhausted)).

(** The time a trace spends asleep, and the enumerations it starts. *)
Definition sleep_of {body : Type} (e : event body) : Z :=
  match e with Sleep d => d | _ => 0 end.

Definition total_sleep {body : Type} (evs : list (event body)) : Z :=
  foldr (fun e acc => sleep_of e + acc) 0 evs.

Definition is_enumerate {body : Type} (e : event body) : bool :=
  match e with GoEnumerate _ _ => true | _ => false end.

Definition enumerations {body : Type} (evs : list (event body)) : nat :=
  length (List.filter is_enumerate evs).

Definition is_delivered (out : outcome) : bool :=
  match out with Delivered => true | _ => false end.

End Sink.

(** ** Entries behind pointers: what a getter's copy shares

    [dt.domains] is a [map[string]*DomainEntry]; the getters return
    [&copy] for [copy := *entry]. The struct assignment copies the scalar
    fields and the headers of the map and of the two slices, not what
    these refer to. This model keeps the structs, the maps and the
    backing arrays of the slices in a heap, so that the sharing between
    an entry and its copy is visible. *)

Module Aliasing.

Definition loc : Type := nat.

(** A slice header; [nil_slice] is the nil slice. *)
Inductive slice : Type :=
| nil_slice
| Slice (arr : loc) (off len cap : nat).

Abbreviation EntryCell := (DomainEntryOf (option loc) slice slice).

Record heap : Type := mkHeap {
  structs : gmap loc EntryCell;
  hash_maps : gmap loc (gmap Z Z);
  string_arrays : gmap loc (list string);
  int_arrays : gmap loc (list Z);
  next : loc
}.

Definition empty_heap : heap := mkHeap ∅ ∅ ∅ ∅ 0%nat.

Definition new_struct (c : EntryCell) (h : heap) : loc * heap :=
  (next h,
   mkHeap (<[next h := c]> (structs h)) (hash_maps h) (string_arrays h)
          (int_arrays h) (S (next h))).

Definition new_map (m : gmap Z Z) (h : heap) : loc * heap :=
  (next h,
   mkHeap (structs h) (<[next h := m]> (hash_maps h)) (string_arrays h)
          (int_arrays h) (S (next h))).

(** What a slice header denotes in a heap. *)
Definition slice_elems {A : Type} (arrays : gmap loc (list A)) (s : slice)
  : list A :=
  match s with
  | nil_slice => []
  | Slice arr off len _ => take len (drop off (default [] (arrays !! arr)))
  end.

(** The entry a struct denotes: its fields with the references followed. *)
Definition view (h : heap) (c : EntryCell) : DomainEntry :=
  mkDomainEntry (Domain c) (HitCount c) (FirstSeen c) (LastSeen c)
    (LastNotified c) (Resolved c) (Blacklisted c) (BlacklistedDate c)
    (match DailyHits c with
     | None => ∅
     | Some m => default ∅ (hash_maps h !! m)
     end)
    (HighHitDays c) (LastHighHitDate c) (HttpStatusCode c) (ResponseSize c)
    (ResponseLineCount c) (ResponseWordCount c)
    (slice_elems (string_arrays h) (RiskLabels c))
    (RiskScore c) (CertIssuer c) (PreviousIssuer c)
    (slice_elems (int_arrays h) (StatusCodeHistory c)) (IsDuplicate c).

(** The tracker's own reading of the entry of a key. *)
Definition internal (h : heap) (domains : gmap string loc) (d : string)
  : option DomainEntry :=
  p ← domains !! d; c ← structs h !! p; Some (view h c).

Section Getters.
Variable tz : Z.
Variable ToLower : string -> string.

(** The branch of [ShouldNotifyDomain] for a hostname without entry: the
    map literal and the struct literal are allocated, the pointer is
    stored under the key. *)
Definition ShouldNotifyDomain_unseen (now : Z) (domain : string)
  (h : heap) (domains : gmap string loc) : heap * gmap string loc :=
  let d := ToLower (TrimSuffix domain ".") in
  let today := day_of tz now in
  let '(m, h1) := new_map {[ today := 1 ]} h in
  let '(p, h2) :=
    new_struct
      (mkDomainEntry d 1 now now now false false zero_time (Some m) 0 None
                     0 0 0 0 nil_slice 0 "" "" nil_slice false) h1 in
  (h2, <[d := p]> domains).

(** [GetDomainInfo]: [copy := *entry; return &copy]. *)
Definition GetDomainInfo (domain : string) (h : heap)
  (domains : gmap string loc) : option loc * heap :=
  let d := ToLower (TrimSuffix domain ".") in
  match domains !! d with
  | Some entry =>
      match structs h !! entry with
      | Some copy => let '(q, h') := new_struct copy h in (Some q, h')
      | None => (None, h)
      end
  | None => (None, h)
  end.

(** [GetAllDomains]: a fresh map of pointers to copies. *)
Definition GetAllDomains (h : heap) (domains : gmap string loc)
  : gmap string loc * heap :=
  foldr
    (fun kv acc =>
       match structs acc.2 !! kv.2 with
       | Some copy =>
           let '(q, h') := new_struct copy acc.2 in (<[kv.1 := q]> acc.1, h')
       | None => acc
       end)
    (∅, h) (map_to_list domains).

End Getters.

(** What the holder of a returned pointer can do with it. A store into a
    nil map or beyond the length of a slice panics: the heap is left as
    it is. *)
Inductive mutation : Type :=
| AssignHitCount (v : Z)
| AssignBlacklisted (b : bool)
| AssignRiskScore (v : Z)
| MapStore (date : Z) (count : Z)
| MapDelete (date : Z)
| LabelStore (i : nat) (label : string)
| StatusStore (i : nat) (code : Z).

Definition put_struct (q : loc) (c : EntryCell) (h : heap) : heap :=
  mkHeap (<[q := c]> (structs h)) (hash_maps h) (string_arrays h)
         (int_arrays h) (next h).

Definition mutate (q : loc) (mu : mutation) (h : heap) : heap :=
  match structs h !! q with
  | None => h
  | Some c =>
      match mu with
      | AssignHitCount v => put_struct q (set_HitCount v c) h
      | AssignBlacklisted b => put_struct q (set_Blacklisted b c) h
      | AssignRiskScore v => put_struct q (set_RiskScore v c) h
      | MapStore date count =>
          match DailyHits c with
          | Some m =>
              mkHeap (structs h)
                     (<[m := <[date := count]> (default ∅ (hash_maps h !! m))]>
                        (hash_maps h))
                     (string_arrays h) (int_arrays h) (next h)
          | None => h
          end
      | MapDelete date =>
          match DailyHits c with
          | Some m =>
              mkHeap (structs h)
                     (<[m := delete date (default ∅ (hash_maps h !! m))]>
                        (hash_maps h))
                     (string_arrays h) (int_arrays h) (next h)
          | None => h
          end
      | LabelStore i label =>
          match RiskLabels c with
          | Slice arr off len _ =>
              if bool_decide (i < len)%nat
              then mkHeap (structs h) (hash_maps h)
                     (<[arr := <[(off + i)%nat := label]>
                                 (default [] (string_arrays h !! arr))]>
                        (string_arrays h))
                     (int_arrays h) (next h)
              else h
          | nil_slice => h
          end
      | StatusStore i code =>
          match StatusCodeHistory c with
          | Slice arr off len _ =>
              if bool_decide (i < len)%nat
              then mkHeap (structs h) (hash_maps h) (string_arrays h)
                     (<[arr := <[(off + i)%nat := code]>
                                 (default [] (int_arrays h !! arr))]>
                        (int_arrays h))
                     (next h)
              else h
          | nil_slice => h
          end
      end
  end.

End Aliasing.

(** ** The domain tracker ([tracking.go])

    [domains] is the table in memory, [disk] the table held by the file
    at [filePath]. [save] marshals the table and replaces the file
    (write to a temporary file, then rename); its error result is dropped
    by every caller, and the model follows the run in which the file
    system accepts the write. An entry is reached through its pointer in
    the table, so a change to the entry is a change of the table at its
    key ([put]). *)

Record DomainTracker : Type := mkTracker {
  domains : gmap string DomainEntry;
  disk : gmap string DomainEntry
}.

Definition empty_tracker : DomainTracker := mkTracker ∅ ∅.

Definition save (dt : DomainTracker) : DomainTracker :=
  mkTracker (domains dt) (domains dt).

Definition put (d : string) (entry : DomainEntry) (dt : DomainTracker)
  : DomainTracker :=
  mkTracker (<[d := entry]> (domains dt)) (disk dt).

(** [t.AddDate(0, 0, n)] in a zone of fixed offset. *)
Definition AddDate_days (t n : Z) : Z := t + n * Day.

(** The calls a client can make, for traces of operations. *)
Inductive op : Type :=
| OpShouldNotifyDomain (domain : string)
| OpRecordDomainResolution (domain : string) (resolved : bool)
| OpForceNotifyDomain (domain : string)
| OpRecordDomainMetadata (domain : string)
    (statusCode responseSize lineCount wordCount : Z)
| OpRecordDomainIssuer (domain issuer : string)
| OpClearOldEntries (maxAge : Z).

(** Proof steps used throughout. *)
Ltac split_all := repeat match goal with |- _ ∧ _ => split end.

Ltac case_ifs :=
  repeat match goal with
         | |- context [if ?b then _ else _] => destruct b eqn:?; simpl
         end.

Section Tracker.
Variable tz : Z.
Variable ToLower : string -> string.
Implicit Type entry : DomainEntry.
Implicit Type dt : DomainTracker.

Definition normalize (domain : string) : string :=
  ToLower (TrimSuffix domain ".").

(** [addRiskLabel] *)
Definition addRiskLabel entry (label : string) : DomainEntry :=
  if bool_decide (label ∈ RiskLabels entry) then entry
  else set_RiskLabels (RiskLabels entry ++ [label]) entry.

(** [calculateRisk]; the pair carries the entry and the local [score]. *)
Definition calculateRisk entry : DomainEntry :=
  let score := 0 in
  let '(entry, score) :=
    if IsWildcardDomain (Domain entry)
    then (addRiskLabel entry "wildcard", score + 30) else (entry, score) in
  let '(entry, score) :=
    if bool_decide (3 ≤ length (StatusCodeHistory entry))%nat then
      let uniqueStatuses : gset Z := list_to_set (StatusCodeHistory entry) in
      if bool_decide (3 ≤ size uniqueStatuses)%nat
      then (addRiskLabel entry "status-anomaly", score + 20)
      else (entry, score)
    else (entry, score) in
  let '(entry, score) :=
    if bool_decide (50 < HitCount entry) || bool_decide (2 ≤ HighHitDays entry)
    then (addRiskLabel entry "high-frequency", score + 25)
    else (entry, score) in
  let score :=
    if bool_decide (PreviousIssuer entry ≠ "") then score + 15 else score in
  let '(entry, score) :=
    if bool_decide (0 < ResponseSize entry) then
      if bool_decide (ResponseSize entry < 100)
         || bool_decide (1000000 < ResponseSize entry)
      then (addRiskLabel entry "response-anomaly", score + 10)
      else (entry, score)
    else (entry, score) in
  let score := if bool_decide (100 < score) then 100 else score in
  let entry := set_RiskScore score entry in
  if bool_decide (100 < HitCount entry) && bool_decide (ResponseSize entry < 500)
  then set_IsDuplicate true entry
  else entry.

(** [updateDailyHits], the part that works on the entry. *)
Definition updateDailyHits_entry (now : Z) entry : DomainEntry :=
  let today := day_of tz now in
  let count := incr (default 0 (DailyHits entry !! today)) in
  let entry := set_DailyHits (<[today := count]> (DailyHits entry)) entry in
  if bool_decide (10 < count) then
    if bool_decide (LastHighHitDate entry ≠ Some today) then
      let yesterday := day_of tz (AddDate_days now (-1)) in
      let entry :=
        if bool_decide (LastHighHitDate entry = Some yesterday)
        then set_HighHitDays (incr (HighHitDays entry)) entry
        else set_HighHitDays 1 entry in
      let entry := set_LastHighHitDate (Some today) entry in
      if bool_decide (3 ≤ HighHitDays entry)
      then set_BlacklistedDate now (set_Blacklisted true entry)
      else entry
    else entry
  else entry.

(** [updateDailyHits]: the entry of key [d], then [dt.save()]. *)
Definition updateDailyHits (now : Z) (d : string) entry dt : DomainTracker :=
  save (put d (updateDailyHits_entry now entry) dt).

(** The struct literal of a first sighting. *)
Definition first_entry (now : Z) (d : string) : DomainEntry :=
  mkDomainEntry d 1 now now now false false zero_time
                {[ day_of tz now := 1 ]} 0 None 0 0 0 0 [] 0 "" "" [] false.

(** [ShouldNotifyDomain] *)
Definition ShouldNotifyDomain (now : Z) (domain : string) dt
  : bool * DomainTracker :=
  let d := normalize domain in
  match domains dt !! d with
  | None => (true, put d (first_entry now d) dt)
  | Some entry =>
      if Blacklisted entry then
        (false, put d (set_LastSeen now (set_HitCount (incr (HitCount entry)) entry)) dt)
      else
        let timeSinceNotified := Sub now (LastNotified entry) in
        let today := day_of tz now in
        let lastNotifiedDate := day_of tz (LastNotified entry) in
        if bool_decide (7 * 24 * Hour ≤ timeSinceNotified)
           && bool_decide (today ≠ lastNotifiedDate)
        then
          (true,
           updateDailyHits now d
             (set_LastNotified now
                (set_LastSeen now (set_HitCount (incr (HitCount entry)) entry)))
             dt)
        else
          (false,
           updateDailyHits now d
             (set_LastSeen now (set_HitCount (incr (HitCount entry)) entry)) dt)
  end.

(** [RecordDomainResolution] *)
Definition RecordDomainResolution (now : Z) (domain : string)
  (resolved : bool) dt : DomainTracker :=
  let d := normalize domain in
  let entry :=
    match domains dt !! d with
    | Some entry => entry
    | None =>
        mkDomainEntry d 0 now now zero_time false false zero_time ∅
                      0 None 0 0 0 0 [] 0 "" "" [] false
    end in
  save (put d (set_Resolved resolved entry) dt).

(** [GetDomainHitCount] and [IsBlacklisted] *)
Definition GetDomainHitCount (domain : string) dt : Z :=
  match domains dt !! normalize domain with
  | Some entry => HitCount entry
  | None => 0
  end.

Definition IsBlacklisted (domain : string) dt : bool :=
  match domains dt !! normalize domain with
  | Some entry => Blacklisted entry
  | None => false
  end.

(** [ClearOldEntries]: the number of entries removed and the tracker. *)
Definition ClearOldEntries (now maxAge : Z) dt : nat * DomainTracker :=
  let kept :=
    filter (fun kv => ¬ (maxAge < Sub now (LastSeen kv.2))) (domains dt) in
  let removed := (size (domains dt) - size kept)%nat in
  (removed,
   if bool_decide (0 < removed)%nat
   then save (mkTracker kept (disk dt))
   else mkTracker kept (disk dt)).

(** [ForceNotifyDomain] *)
Definition ForceNotifyDomain (now : Z) (domain : string) dt : DomainTracker :=
  let d := normalize domain in
  match domains dt !! d with
  | None => save (put d (first_entry now d) dt)
  | Some entry =>
      save
        (updateDailyHits now d
           (set_LastNotified now
              (set_LastSeen now (set_HitCount (incr (HitCount entry)) entry)))
           dt)
  end.

(** [RecordDomainMetadata] *)
Definition RecordDomainMetadata (domain : string)
  (statusCode responseSize lineCount wordCount : Z) dt : DomainTracker :=
  let d := normalize domain in
  match domains dt !! d with
  | Some entry =>
      let history := StatusCodeHistory entry ++ [statusCode] in
      let history :=
        if bool_decide (10 < length history)%nat
        then drop (length history - 10) history else history in
      let entry := set_StatusCodeHistory history entry in
      let entry := set_HttpStatusCode statusCode entry in
      let entry := set_ResponseSize responseSize entry in
      let entry := set_ResponseLineCount lineCount entry in
      let entry := set_ResponseWordCount wordCount entry in
      save (put d (calculateRisk entry) dt)
  | None => dt
  end.

(** [RecordDomainIssuer] *)
Definition RecordDomainIssuer (domain issuer : string) dt : DomainTracker :=
  let d := normalize domain in
  match domains dt !! d with
  | Some entry =>
      let entry :=
        if bool_decide (CertIssuer entry ≠ "")
           && bool_decide (CertIssuer entry ≠ issuer)
        then addRiskLabel (set_PreviousIssuer (CertIssuer entry) entry)
                          "issuer-change"
        else entry in
      let entry := set_CertIssuer issuer entry in
      save (put d (calculateRisk entry) dt)
  | None => dt
  end.

(** One call at clock reading [now], and a trace of calls. *)
Definition step (now : Z) (o : op) dt : DomainTracker :=
  match o with
  | OpShouldNotifyDomain domain => (ShouldNotifyDomain now domain dt).2
  | OpRecordDomainResolution domain resolved =>
      RecordDomainResolution now domain resolved dt
  | OpForceNotifyDomain domain => ForceNotifyDomain now domain dt
  | OpRecordDomainMetadata domain statusCode responseSize lineCount wordCount =>
      RecordDomainMetadata domain statusCode responseSize lineCount wordCount dt
  | OpRecordDomainIssuer domain issuer => RecordDomainIssuer domain issuer dt
  | OpClearOldEntries maxAge => (ClearOldEntries now maxAge dt).2
  end.

Fixpoint run (trace : list (Z * op)) dt : DomainTracker :=
  match trace with
  | [] => dt
  | (now, o) :: rest => run rest (step now o dt)
  end.

(** The entry after a list of hits at the given clock readings, each
    counted by [updateDailyHits]. *)
Definition hits (times : list Z) entry : DomainEntry :=
  foldl (fun e now => updateDailyHits_entry now e) entry times.

(** The risk score as the specification words it. *)
Definition risk_spec entry : Z :=
  Z.min 100
    (0
     + (if HasPrefix (Domain entry) "*." then 30 else 0)
     + (if bool_decide (3 ≤ length (StatusCodeHistory entry))%nat
           && bool_decide
                (3 ≤ length (remove_dups (StatusCodeHistory entry)))%nat
        then 20 else 0)
     + (if bool_decide (50 < HitCount entry ∨ 2 ≤ HighHitDays entry)
        then 25 else 0)
     + (if bool_decide (PreviousIssuer entry = "") then 0 else 15)
     + (if bool_decide ((0 < ResponseSize entry ∧ ResponseSize entry < 100)
                        ∨ 1000000 < ResponseSize entry)
        then 10 else 0)).

(** What one call can do to an entry that stays in the table, and the
    entries a call can create. *)
Inductive entry_step (now : Z) : DomainEntry -> DomainEntry -> Prop :=
| es_seen entry :
    entry_step now entry
      (set_LastSeen now (set_HitCount (incr (HitCount entry)) entry))
| es_notified entry :
    entry_step now entry
      (updateDailyHits_entry now
         (set_LastNotified now
            (set_LastSeen now (set_HitCount (incr (HitCount entry)) entry))))
| es_suppressed entry :
    entry_step now entry
      (updateDailyHits_entry now
         (set_LastSeen now (set_HitCount (incr (HitCount entry)) entry)))
| es_resolved entry resolved :
    entry_step now entry (set_Resolved resolved entry)
| es_metadata entry history statusCode responseSize lineCount wordCount :
    entry_step now entry
      (calculateRisk
         (set_ResponseWordCount wordCount
            (set_ResponseLineCount lineCount
               (set_ResponseSize responseSize
                  (set_HttpStatusCode statusCode
                     (set_StatusCodeHistory history entry))))))
| es_issuer_changed entry issuer :
    entry_step now entry
      (calculateRisk
         (set_CertIssuer issuer
            (addRiskLabel (set_PreviousIssuer (CertIssuer entry) entry)
                          "issuer-change")))
| es_issuer_same entry issuer :
    entry_step now entry (calculateRisk (set_CertIssuer issuer entry)).

Inductive born (now : Z) (d : string) : DomainEntry -> Prop :=
| born_first : born now d (first_entry now d)
| born_resolution resolved :
    born now d
      (set_Resolved resolved
         (mkDomainEntry d 0 now now zero_time false false zero_time ∅
                        0 None 0 0 0 0 [] 0 "" "" [] false)).

(** The key [d] has an entry before every call of the trace and after
    the last one: no sweep has evicted it. *)
Fixpoint tracked_throughout (d : string) (trace : list (Z * op)) dt : Prop :=
  match trace with
  | [] => is_Some (domains dt !! d)
  | (now, o) :: rest =>
      is_Some (domains dt !! d) ∧ tracked_throughout d rest (step now o dt)
  end.

(** Every call of the trace happens between [lo] and [hi], and every
    sweep keeps what was seen in the last [keep] nanoseconds. *)
Definition sweep_keeps (keep : Z) (o : op) : Prop :=
  match o with
  | OpClearOldEntries maxAge => keep ≤ maxAge
  | _ => True
  end.

Definition within (lo hi keep : Z) (trace : list (Z * op)) : Prop :=
  Forall (fun c => lo ≤ c.1 ∧ c.1 ≤ hi ∧ sweep_keeps keep c.2) trace.

(** The fields no risk computation writes. *)
Definition same_tracking (e e' : DomainEntry) : Prop :=
  Domain e' = Domain e ∧ HitCount e' = HitCount e
  ∧ FirstSeen e' = FirstSeen e ∧ LastSeen e' = LastSeen e
  ∧ LastNotified e' = LastNotified e ∧ Blacklisted e' = Blacklisted e
  ∧ BlacklistedDate e' = BlacklistedDate e ∧ DailyHits e' = DailyHits e
  ∧ HighHitDays e' = HighHitDays e ∧ LastHighHitDate e' = LastHighHitDate e
  ∧ StatusCodeHistory e' = StatusCodeHistory e
  ∧ PreviousIssuer e' = PreviousIssuer e ∧ ResponseSize e' = ResponseSize e.

(** [entry.DailyHits[date]] as Go reads it: zero when the key is absent. *)
Definition count_on (e : DomainEntry) (date : Z) : Z :=
  default 0 (DailyHits e !! date).

(** The escalation state, the part of an entry the blacklist rule owns. *)
Definition same_escalation (e e' : DomainEntry) : Prop :=
  HighHitDays e' = HighHitDays e ∧ LastHighHitDate e' = LastHighHitDate e
  ∧ Blacklisted e' = Blacklisted e ∧ BlacklistedDate e' = BlacklistedDate e.

(** The streak a day [date] gets when its count first exceeds 10. *)
Definition streak_on (e : DomainEntry) (date : Z) : Z :=
  if bool_decide (LastHighHitDate e = Some (date - 1))
  then incr (HighHitDays e) else 1.

(** Labels are only appended, and stay free of duplicates. *)
Definition labels_grow (e e' : DomainEntry) : Prop :=
  RiskLabels e `prefix_of` RiskLabels e'
  ∧ (NoDup (RiskLabels e) -> NoDup (RiskLabels e')).

(** A call that counts a sighting of the key [d]: [ShouldNotifyDomain]
    or [ForceNotifyDomain] for a hostname that normalizes to [d]. *)
Definition is_sighting (d : string) (o : op) : bool :=
  match o with
  | OpShouldNotifyDomain domain | OpForceNotifyDomain domain =>
      bool_decide (normalize domain = d)
  | _ => false
  end.

Definition sightings (d : string) (trace : list (Z * op)) : nat :=
  length (List.filter (fun c => is_sighting d c.2) trace).

Definition is_sweep (o : op) : bool :=
  match o with
  | OpClearOldEntries _ => true
  | _ => false
  end.

(** The hostname a call names, if it names one. *)
Definition op_domain (o : op) : option string :=
  match o with
  | OpShouldNotifyDomain domain | OpForceNotifyDomain domain
  | OpRecordDomainResolution domain _
  | OpRecordDomainMetadata domain _ _ _ _
  | OpRecordDomainIssuer domain _ => Some domain
  | OpClearOldEntries _ => None
  end.

(** The part of an entry that [updateDailyHits] reads and writes. *)
Definition escalation entry : gmap Z Z * Z * option Z * bool * Z :=
  (DailyHits entry, HighHitDays entry, LastHighHitDate entry,
   Blacklisted entry, BlacklistedDate entry).

(** A call that creates the entry of key [d] when the table has none:
    [ShouldNotifyDomain], [ForceNotifyDomain] or [RecordDomainResolution]
    for a hostname that normalizes to [d]. *)
Definition creates (d : string) (o : op) : bool :=
  match o with
  | OpShouldNotifyDomain domain | OpForceNotifyDomain domain
  | OpRecordDomainResolution domain _ => bool_decide (normalize domain = d)
  | _ => false
  end.

(** What each call does to the entry of the hostname it names, read off
    the bodies of the operations. *)

(** [ShouldNotifyDomain] on an existing entry. *)
Definition seen_entry (now : Z) entry : DomainEntry :=
  if Blacklisted entry then
    set_LastSeen now (set_HitCount (incr (HitCount entry)) entry)
  else if bool_decide (7 * 24 * Hour ≤ Sub now (LastNotified entry))
          && bool_decide (day_of tz now ≠ day_of tz (LastNotified entry))
  then
    updateDailyHits_entry now
      (set_LastNotified now
         (set_LastSeen now (set_HitCount (incr (HitCount entry)) entry)))
  else
    updateDailyHits_entry now
      (set_LastSeen now (set_HitCount (incr (HitCount entry)) entry)).

(** [ForceNotifyDomain] on an existing entry. *)
Definition forced_entry (now : Z) entry : DomainEntry :=
  updateDailyHits_entry now
    (set_LastNotified now
       (set_LastSeen now (set_HitCount (incr (HitCount entry)) entry))).

(** The history kept by [RecordDomainMetadata]. *)
Definition push_status (history : list Z) (statusCode : Z) : list Z :=
  let history := history ++ [statusCode] in
  if bool_decide (10 < length history)%nat
  then drop (length history - 10) history else history.

(** [RecordDomainMetadata] on an existing entry. *)
Definition probed_entry (statusCode responseSize lineCount wordCount : Z)
  entry : DomainEntry :=
  calculateRisk
    (set_ResponseWordCount wordCount
       (set_ResponseLineCount lineCount
          (set_ResponseSize responseSize
             (set_HttpStatusCode statusCode
                (set_StatusCodeHistory
                   (push_status (StatusCodeHistory entry) statusCode)
                   entry))))).

(** [RecordDomainIssuer] on an existing entry. *)
Definition issued_entry (issuer : string) entry : DomainEntry :=
  calculateRisk
    (set_CertIssuer issuer
       (if bool_decide (CertIssuer entry ≠ "")
           && bool_decide (CertIssuer entry ≠ issuer)
        then addRiskLabel (set_PreviousIssuer (CertIssuer entry) entry)
                          "issuer-change"
        else entry)).

(** The entry [RecordDomainResolution] creates for an unknown hostname,
    before it sets [Resolved]. *)
Definition resolution_entry (now : Z) (d : string) : DomainEntry :=
  mkDomainEntry d 0 now now zero_time false false zero_time ∅
                0 None 0 0 0 0 [] 0 "" "" [] false.

(** The entry of key [d] after a call, from its entry before. *)
Definition after_op (now : Z) (o : op) (d : string)
  (before : option DomainEntry) : option DomainEntry :=
  match o with
  | OpShouldNotifyDomain domain =>
      if bool_decide (normalize domain = d)
      then Some (match before with
                 | Some entry => seen_entry now entry
                 | None => first_entry now d
                 end)
      else before
  | OpRecordDomainResolution domain resolved =>
      if bool_decide (normalize domain = d)
      then Some (set_Resolved resolved
                   (match before with
                    | Some entry => entry
                    | None => resolution_entry now d
                    end))
      else before
  | OpForceNotifyDomain domain =>
      if bool_decide (normalize domain = d)
      then Some (match before with
                 | Some entry => forced_entry now entry
                 | None => first_entry now d
                 end)
      else before
  | OpRecordDomainMetadata domain statusCode responseSize lineCount wordCount =>
      if bool_decide (normalize domain = d)
      then probed_entry statusCode responseSize lineCount wordCount <$> before
      else before
  | OpRecordDomainIssuer domain issuer =>
      if bool_decide (normalize domain = d)
      then issued_entry issuer <$> before
      else before
  | OpClearOldEntries maxAge =>
      entry ← before;
      if bool_decide (maxAge < Sub now (LastSeen entry))
      then None else Some entry
  end.

End Tracker.

(** * Sample runs

    The process runs in UTC ([tz = 0]) and hostnames are ASCII. Day 20000
    after the epoch starts at [sample_start]. *)

Definition sample_start : Z := 20000 * Day.

Definition sample_host : string := "A.Example.COM.".

(** The tracker after the first sighting of [sample_host]. *)
Definition sample_tracker : DomainTracker :=
  (ShouldNotifyDomain 0 ToLowerASCII sample_start sample_host empty_tracker).2.

(** Eleven sightings an hour apart on each of three consecutive days. *)
Definition noisy_trace : list (Z * op) :=
  flat_map
    (fun day =>
       map (fun i =>
              (sample_start + Z.of_nat day * Day + Z.of_nat i * Hour,
               OpShouldNotifyDomain "noisy.example.com"))
           (seq 0 11))
    (seq 0 3).

Definition noisy_tracker : DomainTracker :=
  run 0 ToLowerASCII noisy_trace empty_tracker.

(** An hour-spaced list of [n] clock readings on the day [day] after
    [sample_start], from the hour [from] on. *)
Definition hours_on (day : Z) (from n : nat) : list Z :=
  map (fun i => sample_start + day * Day + Z.of_nat i * Hour) (seq from n).

(** Three status codes, then ten times the same one. *)
Definition probe_trace : list (Z * op) :=
  (sample_start, OpShouldNotifyDomain "probe.example.com")
  :: map (fun code =>
            (sample_start,
             OpRecordDomainMetadata "probe.example.com" code 5000 10 100))
         ([200; 404; 500] ++ replicate 10 200).

Definition sample_config : Sink.config :=
  Sink.mkConfig true "https://discord.example/hook" true "token" "chat"
                false false.

(** The sink of scenario E: 429 twice, then 200. *)
Definition busy_sink (attempt : nat) : Sink.response :=
  match attempt with
  | 0%nat | 1%nat => Sink.Status 429
  | _ => Sink.Status 200
  end.

(** The heap and the table after the first sighting of [sample_host]. *)
Definition sample_heap : Aliasing.heap * gmap string Aliasing.loc :=
  Aliasing.ShouldNotifyDomain_unseen 0 ToLowerASCII sample_start sample_host
    Aliasing.empty_heap ∅.

(** * The resolution cache

    [ResolveDomain] and its cache (the DNS check made before a
    notification). A call reads the clock twice: [since] is the reading
    of [time.Since], [stored] the one that stamps a new cache entry. The
    resolver is a function of the call: [lookup d] tells whether
    [LookupHost] returned no error for [d]. *)

Module Resolver.

Record cacheEntry : Type := mkCacheEntry {
  resolves : bool;
  timestamp : Z
}.

Section Cache.
Variable ToLower : string -> string.

(** [ResolveDomain]: the answer, whether the resolver was asked, and the
    cache. *)
Definition ResolveDomain (since stored : Z) (lookup : string -> bool)
  (domain : string) (resolveCache : gmap string cacheEntry)
  : bool * bool * gmap string cacheEntry :=
  let d := normalize ToLower domain in
  let cached :=
    match resolveCache !! d with
    | Some entry =>
        if bool_decide (Sub since (timestamp entry) < Hour)
        then Some (resolves entry) else None
    | None => None
    end in
  match cached with
  | Some answer => (answer, false, resolveCache)
  | None =>
      let answer := lookup d in
      (answer, true, <[d := mkCacheEntry answer stored]> resolveCache)
  end.

Definition ClearResolveCache (resolveCache : gmap string cacheEntry)
  : gmap string cacheEntry := ∅.

Definition ClearResolveCacheEntry (domain : string)
  (resolveCache : gmap string cacheEntry) : gmap string cacheEntry :=
  delete (normalize ToLower domain) resolveCache.

Definition GetResolveCacheSize (resolveCache : gmap string cacheEntry) : Z :=
  Z.of_nat (size resolveCache).

End Cache.
End Resolver.

(** * The certificate pipeline

    [processEntry] of [main.go]: every hostname of a certificate is
    matched against the targets, counted, passed through the tracker
    and the resolver, and handed to the batcher. The state is the
    tracker, the resolution cache, the per-target counters of the
    statistics and the calls [go sendToDiscord(domain, target)] started
    so far, in program order. *)

Module Pipeline.

Record CertEntry : Type := mkCertEntry {
  Domains : list string;
  Issuer : string
}.

Record settings : Type := mkSettings {
  targets : list string;
  notifyDiscord : bool;
  notifyTelegram : bool
}.

(** The clock readings of the calls made for one hostname. *)
Record readings : Type := mkReadings {
  at_sighting : Z;
  at_cache_check : Z;
  at_cache_store : Z;
  at_record : Z
}.

Record world : Type := mkWorld {
  tracker : DomainTracker;
  resolveCache : gmap string Resolver.cacheEntry;
  targetActivity : gmap string Z;
  launched : list (string * string)
}.

(** What the pipeline is given for one hostname: the resolver of the
    moment, the issuer of the certificate, the clock and the hostname. *)
Record sighting : Type := mkSighting {
  s_lookup : string -> bool;
  s_issuer : string;
  s_clock : readings;
  s_domain : string
}.

Section Process.
Variable tz : Z.
Variable ToLower : string -> string.

(** The test of the inner loop: [d == t || strings.HasSuffix(d, "."+t)]. *)
Definition matches (d target : string) : bool :=
  let t := normalize ToLower target in
  bool_decide (d = t) || HasSuffix d ("." +:+ t).

(** [st.RecordDiscovery(target)] *)
Definition RecordDiscovery (target : string) (activity : gmap string Z)
  : gmap string Z :=
  <[target := incr (default 0 (activity !! target))]> activity.

(** The body of the outer loop: the inner loop stops at the first target
    that matches. *)
Definition processDomain (cfg : settings) (lookup : string -> bool)
  (issuer : string) (clock : readings) (domain : string) (w : world)
  : world :=
  let d := normalize ToLower domain in
  match List.find (matches d) (targets cfg) with
  | None => w
  | Some target =>
      let activity := RecordDiscovery target (targetActivity w) in
      let '(notify, dt) :=
        ShouldNotifyDomain tz ToLower (at_sighting clock) domain (tracker w) in
      if negb notify then
        let dt :=
          if bool_decide (issuer ≠ "")
          then RecordDomainIssuer ToLower domain issuer dt else dt in
        mkWorld dt (resolveCache w) activity (launched w)
      else
        let dt :=
          if bool_decide (issuer ≠ "")
          then RecordDomainIssuer ToLower domain issuer dt else dt in
        let '(answer, _, cache) :=
          Resolver.ResolveDomain ToLower (at_cache_check clock)
            (at_cache_store clock) lookup domain (resolveCache w) in
        if negb answer then
          mkWorld (RecordDomainResolution ToLower (at_record clock) domain
                     false dt)
                  cache activity (launched w)
        else
          let dt :=
            RecordDomainResolution ToLower (at_record clock) domain true dt in
          mkWorld dt cache activity
                  (if notifyDiscord cfg || notifyTelegram cfg
                   then launched w ++ [(domain, target)] else launched w)
  end.

(** The pipeline over a feed of hostnames. *)
Definition pipeline (cfg : settings) (feed : list sighting) (w : world)
  : world :=
  foldl (fun w s =>
           processDomain cfg (s_lookup s) (s_issuer s) (s_clock s)
                         (s_domain s) w)
        w feed.

(** [processEntry]: [env i] is the resolver and the clock for the
    hostname at index [i] of the certificate. *)
Definition processEntry (cfg : settings)
  (env : nat -> (string -> bool) * readings) (entry : CertEntry) (w : world)
  : world :=
  pipeline cfg
    (imap (fun i domain => mkSighting (env i).1 (Issuer entry) (env i).2 domain)
          (Domains entry))
    w.

(** The clock of a hostname is in order when the cache is read no
    earlier than the hostname was sighted and the answer of the resolver
    is stored less than seven days minus an hour after the sighting (the
    lookup itself gives up after five seconds). *)
Definition in_order (clock : readings) : Prop :=
  at_sighting clock ≤ at_cache_check clock
  ∧ at_cache_store clock ≤ at_sighting clock + (7 * Day - Hour).

(** Every cached answer belongs to a tracked hostname and was stored
    less than seven days minus an hour after the hostname was last
    notified. *)
Definition cache_behind_cooldown (w : world) : Prop :=
  ∀ d ce,
    resolveCache w !! d = Some ce ->
    ∃ e, domains (tracker w) !! d = Some e
         ∧ Resolver.timestamp ce ≤ LastNotified e + (7 * Day - Hour).

End Process.
End Pipeline.

(** * The blacklist handlers of the admin server

    [addBlacklist] and [removeBlacklist] of [stats.go], as functions of
    the request and the tracker that return the HTTP status and the
    tracker. They read the entry from the snapshot of [GetAllDomains]
    under the hostname as it was sent, write it back under the same key
    and save. *)

Module Admin.

Definition StatusOK : Z := 200.
Definition StatusBadRequest : Z := 400.
Definition StatusNotFound : Z := 404.

(** [addBlacklist]; [req] is the [domain] of the decoded body, [None]
    when the body does not decode. *)
Definition addBlacklist (now : Z) (req : option string) (dt : DomainTracker)
  : Z * DomainTracker :=
  match req with
  | None => (StatusBadRequest, dt)
  | Some domain =>
      if bool_decide (domain = "") then (StatusBadRequest, dt)
      else
        let allDomains := domains dt in
        match allDomains !! domain with
        | None => (StatusNotFound, dt)
        | Some entry =>
            let entry := set_Blacklisted true entry in
            let entry := set_BlacklistedDate now entry in
            (StatusOK, save (put domain entry dt))
        end
  end.

(** [removeBlacklist]; [domain] is the query parameter, empty when it is
    missing. *)
Definition removeBlacklist (domain : string) (dt : DomainTracker)
  : Z * DomainTracker :=
  if bool_decide (domain = "") then (StatusBadRequest, dt)
  else
    let allDomains := domains dt in
    match allDomains !! domain with
    | None => (StatusNotFound, dt)
    | Some entry =>
        let entry := set_Blacklisted false entry in
        let entry := set_BlacklistedDate zero_time entry in
        (StatusOK, save (put domain entry dt))
    end.

End Admin.

(** * Chunks of scan results

    [chunkResults] (enumeration results sent in parts). The loop may not
    terminate, so it runs on fuel; a slice expression out of bounds
    panics. *)

Inductive outcome (A : Type) : Type :=
| Returned (a : A)
| Panicked
| Running.
Arguments Returned {A} a.
Arguments Panicked {A}.
Arguments Running {A}.

Fixpoint chunkLoop (fuel : nat) (results : list string) (chunkSize i : Z)
  (chunks : list (list string)) : outcome (list (list string)) :=
  match fuel with
  | O => Running
  | S fuel =>
      let len := Z.of_nat (length results) in
      if bool_decide (i < len) then
        let end_ := int_wrap (i + chunkSize) in
        let end_ := if bool_decide (len < end_) then len else end_ in
        if bool_decide (0 ≤ i ∧ i ≤ end_) then
          chunkLoop fuel results chunkSize (int_wrap (i + chunkSize))
            (chunks ++ [take (Z.to_nat (end_ - i)) (drop (Z.to_nat i) results)])
        else Panicked
      else Returned chunks
  end.

Definition chunkResults (fuel : nat) (results : list string) (chunkSize : Z)
  : outcome (list (list string)) :=
  if bool_decide (length results = 0%nat) then Returned []
  else chunkLoop fuel results chunkSize 0 [].

(** * The scheduler of the daily summary

    The loop of [StartDailySummaryScheduler] ([tracking.go]), one round
    per tick of its hourly ticker. [now] is the clock reading taken at
    the tick, [since] the reading of [time.Since] and [after] the
    reading that stamps [lastSummarySent] once the summary was sent. *)

Definition Minute : Z := 60 * Second.

Section Scheduler.
Variable tz : Z.

(** [now.Hour()] and [now.Minute()] in the local zone. *)
Definition clock_Hour (now : Z) : Z := ((now + tz) mod Day) / Hour.
Definition clock_Minute (now : Z) : Z := ((now + tz) mod Hour) / Minute.

(** One round: whether [GenerateAndSendDailySummary] ran, and
    [lastSummarySent]. *)
Definition summaryTick (now since after lastSummarySent : Z) : bool * Z :=
  if bool_decide (clock_Hour now = 0) && bool_decide (0 ≤ clock_Minute now)
     && bool_decide (clock_Minute now < 5)
  then
    if bool_decide (12 * Hour < Sub since lastSummarySent)
    then (true, after)
    else (false, lastSummarySent)
  else (false, lastSummarySent).

(** The rounds of the loop from tick number [first] on; [readings k]
    are the three clock readings of the round of tick [k], and the
    result lists, round by round, whether the summary was sent. *)
Fixpoint summaryLoop (readings : nat -> Z * Z * Z) (first rounds : nat)
  (lastSummarySent : Z) : list bool * Z :=
  match rounds with
  | O => ([], lastSummarySent)
  | S rounds =>
      let '(now, since, after) := readings first in
      let '(sent, lastSummarySent) :=
        summaryTick now since after lastSummarySent in
      let '(log, lastSummarySent) :=
        summaryLoop readings (S first) rounds lastSummarySent in
      (sent :: log, lastSummarySent)
  end.

End Scheduler.

(** * The root of a hostname

    [extractRootDomain] ([message.go]): the last two labels of a
    hostname. *)

(** [strings.Split(s, ".")]: the substrings between the dots. *)
Fixpoint Split_dot (s : string) : list string :=
  match s with
  | EmptyString => [EmptyString]
  | String c rest =>
      if Ascii.eqb c "."
      then EmptyString :: Split_dot rest
      else match Split_dot rest with
           | part :: parts => String c part :: parts
           | [] => [String c EmptyString]
           end
  end.

Definition extractRootDomain (domain : string) : string :=
  let parts := Split_dot domain in
  if bool_decide (2 ≤ length parts)%nat
  then default "" (parts !! (length parts - 2)%nat)
       +:+ "." +:+ default "" (parts !! (length parts - 1)%nat)
  else domain.

(** [strings.Join(parts, ".")] *)
Fixpoint Join_dot (parts : list string) : string :=
  match parts with
  | [] => ""
  | [part] => part
  | part :: rest => part +:+ "." +:+ Join_dot rest
  end.

(** ** Sample runs of the pipeline, the resolver and the handlers *)

(** The targets as a targets file may spell them, Discord switched on. *)
Definition sample_settings : Pipeline.settings :=
  Pipeline.mkSettings ["Example.com."; "example.org"] true false.

(** A hostname sighted at [t]: the cache is read a second later and the
    answer stored and recorded two seconds later. *)
Definition sample_clock (t : Z) : Pipeline.readings :=
  Pipeline.mkReadings t (t + Second) (t + 2 * Second) (t + 2 * Second).

Definition empty_world : Pipeline.world :=
  Pipeline.mkWorld empty_tracker ∅ ∅ [].

(** A resolver that finds every name, and one that finds none. *)
Definition resolvable (d : string) : bool := true.
Definition nxdomain (d : string) : bool := false.

(** [sample_host] on a certificate of issuer ["R3"], sighted at [t]. *)
Definition sample_sighting (lookup : string -> bool) (t : Z)
  : Pipeline.sighting :=
  Pipeline.mkSighting lookup "R3" (sample_clock t) sample_host.

(** The world after [sample_host] was sighted, resolved and handed over. *)
Definition sample_world : Pipeline.world :=
  Pipeline.pipeline 0 ToLowerASCII sample_settings
    [sample_sighting resolvable sample_start] empty_world.

(** Ten sightings of the blacklisted hostname on the day after its third
    high-hit day, and the time of the eleventh. *)
Definition day_after : list Z := hours_on 3 0 10.
Definition eleventh : Z := sample_start + 3 * Day + 10 * Hour.

(** Sixty-five scan results. *)
Definition sample_results : list string :=
  map (fun i => String (ascii_of_nat (48 + i)) "") (seq 0 65).

(** The entry of [sample_host] in [sample_world]. *)
Definition sample_entry : DomainEntry :=
  set_Resolved true
    (issued_entry "R3" (first_entry 0 sample_start "a.example.com")).

(** The noisy hostname one sighting before it is blacklisted, and the
    time of that sighting. *)
Definition noisy_before : DomainTracker :=
  run 0 ToLowerASCII (take 32 noisy_trace) empty_tracker.
Definition noisy_last : Z := sample_start + 2 * Day + 10 * Hour.

(** A tracker with one entry flagged as duplicate. *)
Definition duplicate_tracker : DomainTracker :=
  put "dup.example.com"
    (set_IsDuplicate true (first_entry 0 sample_start "dup.example.com"))
    empty_tracker.

(** A certificate for hostnames outside the targets. *)
Definition foreign_cert : Pipeline.CertEntry :=
  Pipeline.mkCertEntry ["evilexample.com"; "Example.net."] "R3".

(** A ticker started seventeen minutes past the hour, every tick read a
    second late. *)
Definition late_start : Z := sample_start + 17 * Minute.
Definition late_readings (k : nat) : Z * Z * Z :=
  let now := late_start + Z.of_nat k * Hour + Second in (now, now, now).

(** A late flush leaves a timer without record. Twenty-five discoveries
    fill a batch for ["acme.com"] while the timer armed by the first one
    (timer 0) has expired and its [flush] still waits for the lock; the
    next discovery arms timer 1; then the late [flush] runs; twenty-four
    more discoveries follow. *)
Definition acme_items (prefix : string) (k : nat) : list string :=
  map (fun i => prefix +:+ String (ascii_of_nat (97 + i)) ".acme.com")
      (seq 0 k).

Definition orphan_events : list Notifier.event :=
  map (Notifier.Added "acme.com") (acme_items "a" 25)
  ++ [Notifier.Added "acme.com" "late.acme.com"; Notifier.Fired "acme.com" 0]
  ++ map (Notifier.Added "acme.com") (acme_items "b" 24).

Definition orphan_state : Notifier.notificationBuffer :=
  Notifier.run orphan_events Notifier.empty_buffer.

(** The tracker after the first sighting of the noisy hostname. *)
Definition noisy_first : DomainTracker :=
  (ShouldNotifyDomain 0 ToLowerASCII sample_start "noisy.example.com"
     empty_tracker).2.

(** * Properties of the tracker

    The zone offset and the lower-casing function are arbitrary. *)

Section TrackerFacts.
Variable tz : Z.
Variable ToLower : string -> string.
Implicit Types entry e : DomainEntry.
Implicit Type dt : DomainTracker.

Local Abbreviation normalize := (normalize ToLower).
Local Abbreviation updateDailyHits_entry := (updateDailyHits_entry tz).
Local Abbreviation updateDailyHits := (updateDailyHits tz).
Local Abbreviation first_entry := (first_entry tz).
Local Abbreviation hits := (hits tz).
Local Abbreviation ShouldNotifyDomain := (ShouldNotifyDomain tz ToLower).
Local Abbreviation ForceNotifyDomain := (ForceNotifyDomain tz ToLower).
Local Abbreviation RecordDomainResolution := (RecordDomainResolution ToLower).
Local Abbreviation RecordDomainMetadata := (RecordDomainMetadata ToLower).
Local Abbreviation RecordDomainIssuer := (RecordDomainIssuer ToLower).
Local Abbreviation step := (step tz ToLower).
Local Abbreviation run := (run tz ToLower).
Local Abbreviation tracked_throughout := (tracked_throughout tz ToLower).
Local Abbreviation entry_step := (entry_step tz).
Local Abbreviation born := (born tz).
Local Abbreviation is_sighting := (is_sighting ToLower).
Local Abbreviation sightings := (sightings ToLower).
Local Abbreviation creates := (creates ToLower).
Local Abbreviation seen_entry := (seen_entry tz).
Local Abbreviation forced_entry := (forced_entry tz).
Local Abbreviation after_op := (after_op tz ToLower).
Local Abbreviation GetDomainHitCount := (GetDomainHitCount ToLower).
Local Abbreviation IsBlacklisted := (IsBlacklisted ToLower).

(** ** Arithmetic of the primitives *)

Lemma int_wrap_in_range z : min_int ≤ z ≤ max_int -> int_wrap z = z.
Proof.
  unfold int_wrap, min_int, max_int. intros Hz.
  rewrite Z.mod_small by lia. lia.
Qed.

Lemma incr_in_range x : min_int ≤ x < max_int -> incr x = x + 1.
Proof. intros Hx. apply int_wrap_in_range. lia. Qed.

Lemma Sub_ge m t u : m ≤ max_int -> min_int < m -> (m ≤ Sub t u ↔ m ≤ t - u).
Proof. unfold Sub. lia. Qed.

Lemma Sub_le_diff t u k : min_int ≤ k -> t - u ≤ k -> Sub t u ≤ k.
Proof. unfold Sub, min_int, max_int. lia. Qed.

Lemma Sub_gt_diff t u k : k < max_int -> k < t - u -> k < Sub t u.
Proof. unfold Sub, min_int, max_int. lia. Qed.

Lemma week_in_range : 7 * 24 * Hour ≤ max_int ∧ min_int < 7 * 24 * Hour.
Proof. vm_compute. split; [discriminate | reflexivity]. Qed.

Lemma week_days : 7 * 24 * Hour = 7 * Day.
Proof. reflexivity. Qed.

Lemma same_day_close a b :
  day_of tz a = day_of tz b -> a ≤ b -> b - a < Day.
Proof.
  unfold day_of. intros Hd Hab.
  assert (HD : 0 < Day) by reflexivity.
  pose proof (Z.mod_pos_bound (a + tz) Day HD).
  pose proof (Z.mod_pos_bound (b + tz) Day HD).
  pose proof (Z.div_mod (a + tz) Day ltac:(lia)).
  pose proof (Z.div_mod (b + tz) Day ltac:(lia)).
  rewrite Hd in *. lia.
Qed.

Lemma day_of_monotone a b : a ≤ b -> day_of tz a ≤ day_of tz b.
Proof. intros Hab. unfold day_of. apply Z.div_le_mono; [reflexivity | lia]. Qed.

Lemma yesterday_is_previous_day now :
  day_of tz (AddDate_days now (-1)) = day_of tz now - 1.
Proof.
  unfold day_of, AddDate_days.
  replace (now + -1 * Day + tz) with (now + tz + (-1) * Day) by lia.
  rewrite Z.div_add by discriminate. lia.
Qed.

(** ** What the entry-level functions leave alone *)

Lemma same_tracking_refl e : same_tracking e e.
Proof. unfold same_tracking. split_all; reflexivity. Qed.

Lemma same_tracking_trans e1 e2 e3 :
  same_tracking e1 e2 -> same_tracking e2 e3 -> same_tracking e1 e3.
Proof. unfold same_tracking. intros H1 H2. split_all; intuition congruence. Qed.

Lemma addRiskLabel_same_tracking e label :
  same_tracking e (addRiskLabel e label).
Proof.
  unfold addRiskLabel. case_ifs; [apply same_tracking_refl |].
  unfold same_tracking. simpl. split_all; reflexivity.
Qed.

Lemma set_RiskScore_same_tracking e v : same_tracking e (set_RiskScore v e).
Proof. unfold same_tracking. simpl. split_all; reflexivity. Qed.

Lemma set_IsDuplicate_same_tracking e v : same_tracking e (set_IsDuplicate v e).
Proof. unfold same_tracking. simpl. split_all; reflexivity. Qed.

Lemma calculateRisk_same_tracking e : same_tracking e (calculateRisk e).
Proof.
  unfold calculateRisk.
  repeat match goal with
         | |- context [if ?b then _ else _] => destruct b; cbn beta iota zeta
         end;
    repeat first
      [ apply same_tracking_refl
      | eapply same_tracking_trans; [| apply set_IsDuplicate_same_tracking]
      | eapply same_tracking_trans; [| apply set_RiskScore_same_tracking]
      | eapply same_tracking_trans; [| apply addRiskLabel_same_tracking] ].
Qed.

(** [updateDailyHits] counts the hit under today's date and writes only
    the escalation fields besides. *)
Lemma updateDailyHits_entry_frame now e :
  let e' := updateDailyHits_entry now e in
  Domain e' = Domain e ∧ HitCount e' = HitCount e
  ∧ FirstSeen e' = FirstSeen e ∧ LastSeen e' = LastSeen e
  ∧ LastNotified e' = LastNotified e ∧ RiskLabels e' = RiskLabels e
  ∧ DailyHits e'
    = <[day_of tz now := incr (default 0 (DailyHits e !! day_of tz now))]>
        (DailyHits e).
Proof.
  unfold updateDailyHits_entry. cbn zeta. case_ifs; split_all; reflexivity.
Qed.

Lemma updateDailyHits_entry_Blacklisted now e :
  Blacklisted e = true -> Blacklisted (updateDailyHits_entry now e) = true.
Proof.
  intros Hb. unfold updateDailyHits_entry. cbn zeta. case_ifs; auto.
Qed.

(** The escalation rule, case by case on the count [c] reached today. *)
Lemma updateDailyHits_entry_escalation now e :
  let today := day_of tz now in
  let c := incr (default 0 (DailyHits e !! today)) in
  let e' := updateDailyHits_entry now e in
  if bool_decide (10 < c ∧ LastHighHitDate e ≠ Some today) then
    let streak :=
      if bool_decide (LastHighHitDate e = Some (today - 1))
      then incr (HighHitDays e) else 1 in
    HighHitDays e' = streak ∧ LastHighHitDate e' = Some today
    ∧ (3 ≤ streak -> Blacklisted e' = true ∧ BlacklistedDate e' = now)
    ∧ (streak < 3 -> Blacklisted e' = Blacklisted e
                     ∧ BlacklistedDate e' = BlacklistedDate e)
  else
    HighHitDays e' = HighHitDays e ∧ LastHighHitDate e' = LastHighHitDate e
    ∧ Blacklisted e' = Blacklisted e ∧ BlacklistedDate e' = BlacklistedDate e.
Proof.
  cbn zeta. unfold updateDailyHits_entry. cbn zeta.
  rewrite yesterday_is_previous_day. cbn [set_DailyHits LastHighHitDate].
  repeat case_bool_decide; simpl in *;
    repeat case_bool_decide; simpl in *;
    split_all; try reflexivity; try tauto; try lia; intros; split_all;
    try reflexivity; try lia; try tauto.
Qed.

(** ** One call, seen from one key *)

Lemma save_domains dt : domains (save dt) = domains dt.
Proof. reflexivity. Qed.

Lemma save_persists dt : disk (save dt) = domains (save dt).
Proof. reflexivity. Qed.

Lemma put_lookup d e dt : domains (put d e dt) !! d = Some e.
Proof. simpl. apply lookup_insert_eq. Qed.

Lemma put_lookup_ne d d' e dt :
  d ≠ d' -> domains (put d e dt) !! d' = domains dt !! d'.
Proof. intros Hne. simpl. by apply lookup_insert_ne. Qed.

Lemma ClearOldEntries_lookup now maxAge dt d :
  domains (ClearOldEntries now maxAge dt).2 !! d
  = e ← domains dt !! d;
    if bool_decide (maxAge < Sub now (LastSeen e)) then None else Some e.
Proof.
  unfold ClearOldEntries. cbn zeta.
  set (kept := filter _ (domains dt)).
  assert (Hk : ∀ x, domains x = kept ->
               domains x !! d
               = e ← domains dt !! d;
                 if bool_decide (maxAge < Sub now (LastSeen e))
                 then None else Some e).
  { intros x ->. destruct (domains dt !! d) as [e|] eqn:He; simpl.
    - case_bool_decide.
      + apply map_lookup_filter_None. right. intros e' He'.
        rewrite He in He'. injection He' as <-. simpl. tauto.
      + apply map_lookup_filter_Some. split; [done | simpl; tauto].
    - apply map_lookup_filter_None. by left. }
  simpl. case_bool_decide; apply Hk; reflexivity.
Qed.

(** Whatever a call does to the table, at a given key it leaves the
    entry, rewrites it by one of the transformations of [entry_step],
    creates it, or (a sweep only) evicts it. *)
Lemma step_lookup now o dt d :
  match domains dt !! d, domains (step now o dt) !! d with
  | Some e, Some e' => e' = e ∨ entry_step now e e'
  | Some e, None =>
      ∃ maxAge, o = OpClearOldEntries maxAge ∧ maxAge < Sub now (LastSeen e)
  | None, Some e' => born now d e'
  | None, None => True
  end.
Proof.
  destruct o as [domain|domain resolved|domain|domain sc rs lc wc
                |domain issuer|maxAge]; cbn [step].
  - unfold ShouldNotifyDomain. cbn zeta.
    destruct (decide (normalize domain = d)) as [<-|Hne].
    + destruct (domains dt !! normalize domain) as [e|] eqn:He.
      * destruct (Blacklisted e); simpl.
        { rewrite lookup_insert_eq. right. constructor. }
        case_ifs; rewrite lookup_insert_eq; right; constructor.
      * simpl. rewrite lookup_insert_eq. constructor.
    + destruct (domains dt !! normalize domain) as [e|] eqn:He.
      * destruct (Blacklisted e); simpl.
        { rewrite lookup_insert_ne by done.
          destruct (domains dt !! d); auto. }
        case_ifs; rewrite lookup_insert_ne by done;
          destruct (domains dt !! d); auto.
      * simpl. rewrite lookup_insert_ne by done.
        destruct (domains dt !! d); auto.
  - unfold RecordDomainResolution. cbn zeta. simpl.
    destruct (decide (normalize domain = d)) as [<-|Hne].
    + rewrite lookup_insert_eq.
      destruct (domains dt !! normalize domain) as [e|] eqn:He.
      * right. constructor.
      * constructor.
    + rewrite lookup_insert_ne by done. destruct (domains dt !! d); auto.
  - unfold ForceNotifyDomain. cbn zeta.
    destruct (decide (normalize domain = d)) as [<-|Hne].
    + destruct (domains dt !! normalize domain) as [e|] eqn:He; simpl;
        rewrite lookup_insert_eq; [right|]; constructor.
    + destruct (domains dt !! normalize domain) as [e|] eqn:He; simpl;
        rewrite lookup_insert_ne by done; destruct (domains dt !! d); auto.
  - unfold RecordDomainMetadata. cbn zeta.
    destruct (decide (normalize domain = d)) as [<-|Hne].
    + destruct (domains dt !! normalize domain) as [e|] eqn:He; simpl.
      * rewrite lookup_insert_eq. right. constructor.
      * rewrite He. auto.
    + destruct (domains dt !! normalize domain) as [e|] eqn:He; simpl.
      * rewrite lookup_insert_ne by done. destruct (domains dt !! d); auto.
      * destruct (domains dt !! d); auto.
  - unfold RecordDomainIssuer. cbn zeta.
    destruct (decide (normalize domain = d)) as [<-|Hne].
    + destruct (domains dt !! normalize domain) as [e|] eqn:He; simpl.
      * rewrite lookup_insert_eq. right.
        destruct (bool_decide (CertIssuer e ≠ "")
                  && bool_decide (CertIssuer e ≠ issuer)); constructor.
      * rewrite He. auto.
    + destruct (domains dt !! normalize domain) as [e|] eqn:He; simpl.
      * rewrite lookup_insert_ne by done. destruct (domains dt !! d); auto.
      * destruct (domains dt !! d); auto.
  - rewrite ClearOldEntries_lookup.
    destruct (domains dt !! d) as [e|]; simpl; [|done].
    case_bool_decide; eauto.
Qed.

(** Only a sweep removes an entry, and it removes exactly the entries
    last seen more than [maxAge] ago. *)
Lemma step_keeps_entry now o dt d :
  (∀ maxAge, o ≠ OpClearOldEntries maxAge) ->
  is_Some (domains dt !! d) -> is_Some (domains (step now o dt) !! d).
Proof.
  intros Hno [e He]. pose proof (step_lookup now o dt d) as H.
  rewrite He in H. destruct (domains (step now o dt) !! d); [eauto |].
  destruct H as (m & -> & _). by destruct (Hno m).
Qed.

(** What the transformations preserve. *)
Ltac learn_frames :=
  repeat match goal with
    | |- context [updateDailyHits_entry ?n ?x] =>
        lazymatch goal with
        | _ : Domain (updateDailyHits_entry n x) = _ ∧ _ |- _ => fail
        | _ => pose proof (updateDailyHits_entry_frame n x
                           : Domain (updateDailyHits_entry n x) = _ ∧ _)
        end
    | |- context [calculateRisk ?x] =>
        lazymatch goal with
        | _ : same_tracking x (calculateRisk x) |- _ => fail
        | _ => pose proof (calculateRisk_same_tracking x)
        end
    | |- context [addRiskLabel ?x ?l] =>
        lazymatch goal with
        | _ : same_tracking x (addRiskLabel x l) |- _ => fail
        | _ => pose proof (addRiskLabel_same_tracking x l)
        end
    end;
  unfold same_tracking in *.

Lemma entry_step_times now e e' :
  entry_step now e e' ->
  FirstSeen e' = FirstSeen e ∧ Domain e' = Domain e
  ∧ (LastSeen e' = LastSeen e ∨ LastSeen e' = now)
  ∧ (LastNotified e' = LastNotified e ∨ LastNotified e' = now).
Proof.
  intros H. destruct H; learn_frames; simpl in *;
    repeat match goal with H : _ ∧ _ |- _ => destruct H end;
    split_all; first [ left; congruence | right; congruence | congruence ].
Qed.

Lemma entry_step_Blacklisted now e e' :
  entry_step now e e' -> Blacklisted e = true -> Blacklisted e' = true.
Proof.
  intros H Hb. destruct H;
    repeat apply updateDailyHits_entry_Blacklisted;
    learn_frames; simpl in *;
    repeat match goal with H : _ ∧ _ |- _ => destruct H end; congruence.
Qed.

(** ** The cooldown gate *)

(** The comparison the code makes on the saturated duration is the
    comparison of the true difference. *)
Lemma due_iff now (e : DomainEntry) :
  bool_decide (7 * 24 * Hour ≤ Sub now (LastNotified e))
  && bool_decide (day_of tz now ≠ day_of tz (LastNotified e)) = true
  ↔ 7 * Day ≤ now - LastNotified e
    ∧ day_of tz now ≠ day_of tz (LastNotified e).
Proof.
  rewrite andb_true_iff, !bool_decide_eq_true.
  destruct week_in_range as [Hhi Hlo].
  rewrite (Sub_ge _ _ _ Hhi Hlo), week_days. tauto.
Qed.

(** A call that answers [true] leaves the entry stamped with its clock
    reading, whichever branch it took. *)
Lemma ShouldNotifyDomain_true_stamps now domain dt :
  (ShouldNotifyDomain now domain dt).1 = true ->
  ∃ e, domains (ShouldNotifyDomain now domain dt).2 !! normalize domain = Some e
       ∧ LastNotified e = now ∧ LastSeen e = now.
Proof.
  unfold ShouldNotifyDomain. cbn zeta.
  destruct (domains dt !! normalize domain) as [e|] eqn:He.
  - destruct (Blacklisted e); [discriminate |].
    destruct (bool_decide _ && bool_decide _); [| discriminate].
    intros _. eexists. split; [apply put_lookup |].
    learn_frames. simpl in *. intuition congruence.
  - intros _. eexists. split; [apply put_lookup |]. split; reflexivity.
Qed.

(** A call on an entry notified less than seven days before answers
    [false]. *)
Lemma ShouldNotifyDomain_in_cooldown now domain dt e :
  domains dt !! normalize domain = Some e ->
  now - LastNotified e < 7 * Day ->
  (ShouldNotifyDomain now domain dt).1 = false.
Proof.
  intros He Hlt. unfold ShouldNotifyDomain. cbn zeta. rewrite He.
  destruct (Blacklisted e); [reflexivity |].
  destruct (bool_decide _ && bool_decide _) eqn:Hdue; [| reflexivity].
  apply due_iff in Hdue. lia.
Qed.

(** While every call falls in a window shorter than seven days that
    starts at [lo], and every sweep keeps seven days, an entry stamped at
    [lo] or later stays in the table and keeps such stamps. *)
Lemma stamps_survive d lo hi trace : ∀ dt,
  hi < lo + 7 * Day ->
  within lo hi (7 * Day) trace ->
  (∃ e, domains dt !! d = Some e ∧ lo ≤ LastNotified e ∧ lo ≤ LastSeen e) ->
  ∃ e, domains (run trace dt) !! d = Some e
       ∧ lo ≤ LastNotified e ∧ lo ≤ LastSeen e.
Proof.
  induction trace as [|[now o] rest IH]; intros dt Hwin Hall Hinv; [done |].
  apply Forall_cons in Hall as [(Hlo & Hhi & Hkeep) Hrest]. simpl in *.
  apply IH; [done | done |].
  destruct Hinv as (e & He & Hn & Hs).
  pose proof (step_lookup now o dt d) as Hstep. rewrite He in Hstep.
  destruct (domains (step now o dt) !! d) as [e'|].
  - exists e'. split; [done |]. destruct Hstep as [-> | Hstep]; [done |].
    apply entry_step_times in Hstep as (_ & _ & [-> | ->] & [-> | ->]); lia.
  - destruct Hstep as (maxAge & -> & Hold). simpl in Hkeep.
    assert (Sub now (LastSeen e) ≤ maxAge); [| lia].
    apply Sub_le_diff; [| lia].
    assert (min_int ≤ 0) by (vm_compute; discriminate).
    assert (0 < Day) by reflexivity. lia.
Qed.

(** C1. For a hostname with an entry that is not blacklisted,
    [ShouldNotifyDomain] answers [true] exactly when seven days or more
    have passed since [LastNotified] and today's date is not the date of
    [LastNotified]. In both cases [HitCount] is incremented, [LastSeen]
    is set and the hit is counted under today's date (and the table is
    saved); [LastNotified] is set exactly when the answer is [true].
    Consequently, after an answer [true] at [now], a call at [now2] gets
    [false] when [now2] is less than seven days later, and when [now2]
    is on the same calendar day, whatever calls were made in between
    (sweeps keeping at least seven days, as the program's 30-day sweep). *)
Theorem ShouldNotifyDomain_cooldown_gate now domain dt entry :
  domains dt !! normalize domain = Some entry ->
  Blacklisted entry = false ->
  let r := ShouldNotifyDomain now domain dt in
  (r.1 = true
   ↔ 7 * Day ≤ now - LastNotified entry
     ∧ day_of tz now ≠ day_of tz (LastNotified entry))
  ∧ (∃ entry',
       domains r.2 !! normalize domain = Some entry'
       ∧ HitCount entry' = incr (HitCount entry)
       ∧ LastSeen entry' = now
       ∧ LastNotified entry' = (if r.1 then now else LastNotified entry)
       ∧ DailyHits entry'
         = <[day_of tz now
             := incr (default 0 (DailyHits entry !! day_of tz now))]>
             (DailyHits entry)
       ∧ disk r.2 = domains r.2)
  ∧ (∀ trace now2 domain2,
       r.1 = true ->
       normalize domain2 = normalize domain ->
       now ≤ now2 ->
       within now now2 (7 * Day) trace ->
       (now2 < now + 7 * Day ->
        (ShouldNotifyDomain now2 domain2 (run trace r.2)).1 = false)
       ∧ (day_of tz now2 = day_of tz now ->
          (ShouldNotifyDomain now2 domain2 (run trace r.2)).1 = false)).
Proof.
  intros He Hb r.
  assert (Hr : r = ShouldNotifyDomain now domain dt) by reflexivity.
  unfold ShouldNotifyDomain in Hr. cbn zeta in Hr. rewrite He, Hb in Hr.
  split; [| split].
  - rewrite Hr. rewrite <- due_iff.
    destruct (bool_decide _ && bool_decide _); simpl; intuition congruence.
  - rewrite Hr.
    destruct (bool_decide _ && bool_decide _); simpl;
      eexists; (split; [apply lookup_insert_eq |]);
      learn_frames; simpl in *;
      repeat match goal with H : _ ∧ _ |- _ => destruct H end;
      split_all; congruence.
  - intros trace now2 domain2 Htrue Hdom Hle Hwin.
    assert (Hwindow : now2 < now + 7 * Day ->
              (ShouldNotifyDomain now2 domain2 (run trace r.2)).1 = false).
    { intros Hlt.
      destruct (ShouldNotifyDomain_true_stamps now domain dt Htrue)
        as (e1 & He1 & Hn1 & Hs1).
      destruct (stamps_survive (normalize domain) now now2 trace r.2 Hlt Hwin)
        as (e2 & He2 & Hn2 & Hs2).
      { exists e1. split; [exact He1 | lia]. }
      apply ShouldNotifyDomain_in_cooldown with e2; [by rewrite Hdom | lia]. }
    split; [exact Hwindow |].
    intros Hday. apply Hwindow.
    pose proof (same_day_close now now2 (eq_sym Hday) Hle).
    assert (0 < Day) by reflexivity. lia.
Qed.

(** ** First sighting, and the blacklist flag along a trace *)

(** While the key is tracked, its entry is the one created once: the
    time of first sighting is kept, and a set blacklist flag stays set. *)
Lemma tracked_entry_persists d trace : ∀ dt (e : DomainEntry),
  domains dt !! d = Some e ->
  tracked_throughout d trace dt ->
  ∃ e2, domains (run trace dt) !! d = Some e2
        ∧ FirstSeen e2 = FirstSeen e
        ∧ (Blacklisted e = true -> Blacklisted e2 = true).
Proof.
  induction trace as [|[now o] rest IH]; intros dt e He Htr; simpl in *.
  - exists e. auto.
  - destruct Htr as [_ Htr].
    assert (Hsome : is_Some (domains (step now o dt) !! d)).
    { destruct rest as [|[? ?] ?]; simpl in Htr; tauto. }
    destruct Hsome as [e1 He1].
    pose proof (step_lookup now o dt d) as Hstep. rewrite He, He1 in Hstep.
    destruct (IH _ _ He1 Htr) as (e2 & He2 & Hf & Hb).
    exists e2. split; [done |].
    destruct Hstep as [-> | Hstep]; [auto |].
    pose proof (entry_step_times _ _ _ Hstep) as (Hfs & _).
    pose proof (entry_step_Blacklisted _ _ _ Hstep).
    split; [congruence | auto].
Qed.

(** A call on a tracked key never creates: it keeps [FirstSeen]. *)
Lemma ShouldNotifyDomain_tracked now domain dt (e : DomainEntry) :
  domains dt !! normalize domain = Some e ->
  ∃ e', domains (ShouldNotifyDomain now domain dt).2 !! normalize domain
        = Some e'
        ∧ FirstSeen e' = FirstSeen e
        ∧ HitCount e' = incr (HitCount e).
Proof.
  intros He. unfold ShouldNotifyDomain. cbn zeta. rewrite He.
  destruct (Blacklisted e); [| destruct (bool_decide _ && bool_decide _)];
    simpl; eexists; (split; [apply lookup_insert_eq |]);
    learn_frames; simpl in *;
    repeat match goal with H : _ ∧ _ |- _ => destruct H end;
    split; congruence.
Qed.

(** C2 (amended). For a hostname whose normalized form has no entry, the
    call answers [true] and creates the entry with [HitCount = 1],
    [FirstSeen = LastSeen = LastNotified = now] and [DailyHits] exactly
    [{today: 1}]. For as long as the entry stays in the table, no later
    call for the hostname is a first sighting: the entry keeps its
    [FirstSeen] and the call increments its [HitCount]. The entry leaves
    the table only by a sweep of [ClearOldEntries], when it was last
    seen more than [maxAge] ago. *)
Theorem first_sighting_until_evicted now domain dt :
  domains dt !! normalize domain = None ->
  let d := normalize domain in
  let r := ShouldNotifyDomain now domain dt in
  r.1 = true
  ∧ (∃ entry,
       domains r.2 !! d = Some entry
       ∧ Domain entry = d ∧ HitCount entry = 1 ∧ FirstSeen entry = now
       ∧ LastSeen entry = now ∧ LastNotified entry = now
       ∧ DailyHits entry = {[ day_of tz now := 1 ]})
  ∧ (∀ trace now2 domain2,
       normalize domain2 = d ->
       tracked_throughout d trace r.2 ->
       ∃ e2 e3,
         domains (run trace r.2) !! d = Some e2
         ∧ domains (ShouldNotifyDomain now2 domain2 (run trace r.2)).2 !! d
           = Some e3
         ∧ FirstSeen e2 = now ∧ FirstSeen e3 = now
         ∧ HitCount e3 = incr (HitCount e2))
  ∧ (∀ now' o dt' (e : DomainEntry),
       domains dt' !! d = Some e ->
       domains (step now' o dt') !! d = None ->
       ∃ maxAge,
         o = OpClearOldEntries maxAge ∧ maxAge < Sub now' (LastSeen e)).
Proof.
  intros Hnone d r.
  assert (Hr : r = (true, put d (first_entry now d) dt)).
  { unfold r, ShouldNotifyDomain. cbn zeta. by rewrite Hnone. }
  split; [by rewrite Hr |]. split; [| split].
  - rewrite Hr. exists (first_entry now d).
    split; [apply put_lookup |]. simpl. split_all; reflexivity.
  - intros trace now2 domain2 Hdom Htr.
    assert (H1 : domains r.2 !! d = Some (first_entry now d)).
    { rewrite Hr. apply put_lookup. }
    destruct (tracked_entry_persists d trace _ _ H1 Htr) as (e2 & He2 & Hf & _).
    rewrite <- Hdom in He2.
    destruct (ShouldNotifyDomain_tracked now2 domain2 _ _ He2)
      as (e3 & He3 & Hf3 & Hh3).
    rewrite Hdom in He2, He3.
    exists e2, e3. simpl in Hf. split_all; congruence.
  - intros now' o dt' e He Hgone.
    pose proof (step_lookup now' o dt' d) as Hstep.
    by rewrite He, Hgone in Hstep.
Qed.

(** C4 (amended). On a blacklisted entry [ShouldNotifyDomain] answers
    [false], increments [HitCount], sets [LastSeen] and changes nothing
    else, [DailyHits] included. Under the operations of the tracker
    itself (the automatic algorithm) the flag is monotonic: no call of
    the tracker resets the flag of an entry that stays in the table, so
    through any calls of the tracker, for as long as the entry is
    tracked, every later call for the hostname answers [false]. The flag
    is reset from outside the tracker only: [removeBlacklist] of the
    admin server clears it and keeps the entry. *)
Theorem blacklisted_until_evicted now domain dt entry :
  domains dt !! normalize domain = Some entry ->
  Blacklisted entry = true ->
  let d := normalize domain in
  let r := ShouldNotifyDomain now domain dt in
  r.1 = false
  ∧ domains r.2 !! d
    = Some (set_LastSeen now (set_HitCount (incr (HitCount entry)) entry))
  ∧ (∃ entry',
       domains r.2 !! d = Some entry'
       ∧ HitCount entry' = incr (HitCount entry) ∧ LastSeen entry' = now
       ∧ DailyHits entry' = DailyHits entry ∧ Blacklisted entry' = true)
  ∧ (∀ now' o (e' : DomainEntry),
       domains (step now' o dt) !! d = Some e' -> Blacklisted e' = true)
  ∧ (∀ trace now2 domain2,
       normalize domain2 = d ->
       tracked_throughout d trace dt ->
       (ShouldNotifyDomain now2 domain2 (run trace dt)).1 = false
       ∧ ∃ e2, domains (run trace dt) !! d = Some e2
               ∧ Blacklisted e2 = true)
  ∧ (d ≠ "" ->
     (Admin.removeBlacklist d dt).1 = Admin.StatusOK
     ∧ is_Some (domains (Admin.removeBlacklist d dt).2 !! d)
     ∧ IsBlacklisted domain (Admin.removeBlacklist d dt).2 = false).
Proof.
  intros He Hb d r.
  assert (Hr : r = (false,
                    put d (set_LastSeen now
                             (set_HitCount (incr (HitCount entry)) entry)) dt)).
  { unfold r, ShouldNotifyDomain. cbn zeta. by rewrite He, Hb. }
  split; [by rewrite Hr |]. split; [rewrite Hr; apply put_lookup |].
  split; [| split; [| split]].
  - eexists. split; [rewrite Hr; apply put_lookup |]. simpl. auto.
  - intros now' o e' He'.
    pose proof (step_lookup now' o dt d) as Hstep. fold d in He.
    rewrite He, He' in Hstep. destruct Hstep as [-> | Hstep]; [done |].
    by apply (entry_step_Blacklisted _ _ _ Hstep).
  - intros trace now2 domain2 Hdom Htr.
    destruct (tracked_entry_persists d trace _ _ He Htr) as (e2 & He2 & _ & Hb2).
    split; [| eauto].
    unfold ShouldNotifyDomain. cbn zeta. rewrite Hdom, He2.
    by rewrite (Hb2 Hb).
  - intros Hne.
    assert (Hreset : Admin.removeBlacklist d dt
                     = (Admin.StatusOK,
                        save (put d (set_BlacklistedDate zero_time
                                       (set_Blacklisted false entry)) dt))).
    { unfold Admin.removeBlacklist.
      rewrite bool_decide_eq_false_2 by exact Hne. cbn zeta.
      unfold d. by rewrite He. }
    rewrite Hreset. cbn [fst snd]. unfold IsBlacklisted. fold d.
    change (domains (save (put d (set_BlacklistedDate zero_time
                                    (set_Blacklisted false entry)) dt)))
      with (domains (put d (set_BlacklistedDate zero_time
                              (set_Blacklisted false entry)) dt)).
    rewrite put_lookup. split; [reflexivity |]. split; [eauto | reflexivity].
Qed.

(** ** Daily hits and the blacklist trigger *)

Lemma hits_app a b (e : DomainEntry) : hits (a ++ b) e = hits b (hits a e).
Proof. unfold hits. apply foldl_app. Qed.

Lemma hits_cons now h (e : DomainEntry) :
  hits (now :: h) e = hits h (updateDailyHits_entry now e).
Proof. reflexivity. Qed.

Lemma updateDailyHits_entry_count now (e : DomainEntry) date :
  count_on (updateDailyHits_entry now e) date
  = if bool_decide (date = day_of tz now)
    then incr (count_on e date) else count_on e date.
Proof.
  unfold count_on.
  destruct (updateDailyHits_entry_frame now e) as (_ & _ & _ & _ & _ & _ & ->).
  case_bool_decide as Hd.
  - subst. by rewrite lookup_insert_eq.
  - by rewrite lookup_insert_ne.
Qed.

(** One hit that does not take today's count above 10, or that falls on
    the day already recorded as high, leaves the escalation state. *)
Lemma quiet_hit now (e : DomainEntry) :
  incr (count_on e (day_of tz now)) ≤ 10
  ∨ LastHighHitDate e = Some (day_of tz now) ->
  same_escalation e (updateDailyHits_entry now e).
Proof.
  intros Hq. pose proof (updateDailyHits_entry_escalation now e) as H.
  cbn zeta in H. fold (count_on e (day_of tz now)) in H.
  rewrite bool_decide_eq_false_2 in H; [exact H |].
  intros [? ?]. destruct Hq; [lia | done].
Qed.

(** The hit that takes the count of a new day above 10. *)
Lemma crossing_hit now (e : DomainEntry) :
  10 < incr (count_on e (day_of tz now)) ->
  LastHighHitDate e ≠ Some (day_of tz now) ->
  let e' := updateDailyHits_entry now e in
  HighHitDays e' = streak_on e (day_of tz now)
  ∧ LastHighHitDate e' = Some (day_of tz now)
  ∧ (3 ≤ streak_on e (day_of tz now) ->
     Blacklisted e' = true ∧ BlacklistedDate e' = now)
  ∧ (streak_on e (day_of tz now) < 3 ->
     Blacklisted e' = Blacklisted e ∧ BlacklistedDate e' = BlacklistedDate e).
Proof.
  intros Hc Hd. pose proof (updateDailyHits_entry_escalation now e) as H.
  cbn zeta in H. fold (count_on e (day_of tz now)) in H.
  rewrite bool_decide_eq_true_2 in H by done. exact H.
Qed.

Lemma same_escalation_trans (e1 e2 e3 : DomainEntry) :
  same_escalation e1 e2 -> same_escalation e2 e3 -> same_escalation e1 e3.
Proof. unfold same_escalation. intuition congruence. Qed.

(** Hits of one day that keep its count at 10 or below. *)
Lemma hits_below date h : ∀ e : DomainEntry,
  Forall (fun now => day_of tz now = date) h ->
  min_int ≤ count_on e date ->
  count_on e date + Z.of_nat (length h) ≤ 10 ->
  count_on (hits h e) date = count_on e date + Z.of_nat (length h)
  ∧ same_escalation e (hits h e)
  ∧ (∀ other, other ≠ date -> count_on (hits h e) other = count_on e other).
Proof.
  induction h as [|now h IH]; intros e Hday Hmin Hle.
  - simpl. unfold same_escalation. split_all; auto; lia.
  - apply Forall_cons in Hday as [Hnow Hday]. rewrite hits_cons.
    simpl length in *.
    assert (Hincr : incr (count_on e date) = count_on e date + 1).
    { apply incr_in_range. unfold max_int. lia. }
    assert (Hc : count_on (updateDailyHits_entry now e) date
                 = count_on e date + 1).
    { rewrite updateDailyHits_entry_count, Hnow.
      by rewrite bool_decide_eq_true_2. }
    destruct (IH (updateDailyHits_entry now e)) as (H1 & H2 & H3);
      [done | lia | lia |].
    split; [lia |]. split.
    + eapply same_escalation_trans; [| exact H2].
      apply quiet_hit. left. rewrite Hnow. lia.
    + intros other Hne. rewrite H3 by done.
      rewrite updateDailyHits_entry_count, Hnow.
      by rewrite bool_decide_eq_false_2.
Qed.

(** Further hits on the day already recorded as high. *)
Lemma hits_above date h : ∀ e : DomainEntry,
  Forall (fun now => day_of tz now = date) h ->
  LastHighHitDate e = Some date ->
  same_escalation e (hits h e)
  ∧ (∀ other, other ≠ date -> count_on (hits h e) other = count_on e other).
Proof.
  induction h as [|now h IH]; intros e Hday Hhigh.
  - simpl. unfold same_escalation. auto.
  - apply Forall_cons in Hday as [Hnow Hday]. rewrite hits_cons.
    assert (Hq : same_escalation e (updateDailyHits_entry now e)).
    { apply quiet_hit. right. by rewrite Hnow. }
    destruct (IH (updateDailyHits_entry now e)) as (H2 & H3).
    { done. } { destruct Hq as (_ & -> & _). done. }
    split; [by eapply same_escalation_trans |].
    intros other Hne. rewrite H3 by done.
    rewrite updateDailyHits_entry_count, Hnow.
    by rewrite bool_decide_eq_false_2.
Qed.

(** A day that starts without hits and gets ten of them, then one more:
    the eleventh is the crossing hit. *)
Lemma eleventh_hit date h now (e : DomainEntry) :
  Forall (fun t => day_of tz t = date) h -> length h = 10%nat ->
  day_of tz now = date ->
  count_on e date = 0 ->
  LastHighHitDate e ≠ Some date ->
  let before := hits h e in
  let after := hits (h ++ [now]) e in
  DailyHits before !! date = Some 10 ∧ DailyHits after !! date = Some 11
  ∧ same_escalation e before
  ∧ HighHitDays after = streak_on e date
  ∧ LastHighHitDate after = Some date
  ∧ (3 ≤ streak_on e date ->
     Blacklisted after = true ∧ BlacklistedDate after = now)
  ∧ (streak_on e date < 3 ->
     Blacklisted after = Blacklisted e
     ∧ BlacklistedDate after = BlacklistedDate e)
  ∧ (∀ other, other ≠ date -> count_on after other = count_on e other).
Proof.
  intros Hday Hlen Hnow H0 Hhigh before after.
  destruct (hits_below date h e) as (Hc & Hesc & Hother);
    [done | rewrite H0; vm_compute; discriminate | rewrite H0, Hlen; lia |].
  rewrite H0, Hlen in Hc. fold before in Hc, Hesc, Hother.
  assert (Hdaily : ∀ x : DomainEntry, ∀ c, c ≠ 0 -> count_on x date = c ->
                   DailyHits x !! date = Some c).
  { unfold count_on. intros x c Hc0 Hx.
    destruct (DailyHits x !! date); simpl in Hx; congruence. }
  assert (Hafter : after = updateDailyHits_entry now before).
  { unfold after. by rewrite hits_app. }
  assert (Hc11 : incr (count_on before (day_of tz now)) = 11).
  { rewrite Hnow, Hc. reflexivity. }
  assert (Hstreak : streak_on before date = streak_on e date).
  { unfold streak_on. destruct Hesc as (-> & -> & _). done. }
  destruct (crossing_hit now before) as (H1 & H2 & H3 & H4).
  { rewrite Hc11. lia. }
  { destruct Hesc as (_ & -> & _). by rewrite Hnow. }
  rewrite Hnow in H1, H2, H3, H4, Hc11.
  rewrite Hstreak in H1, H3, H4. rewrite <- Hafter in H1, H2, H3, H4.
  split; [apply Hdaily; [lia | lia] |].
  split.
  { apply Hdaily; [lia |]. rewrite Hafter, updateDailyHits_entry_count.
    rewrite Hnow, bool_decide_eq_true_2 by done. exact Hc11. }
  destruct Hesc as (E1 & E2 & E3 & E4).
  split; [unfold same_escalation; auto |].
  split_all; auto.
  - intros Hlt. destruct (H4 Hlt). split; congruence.
  - intros other Hne. rewrite Hafter, updateDailyHits_entry_count.
    rewrite Hnow, bool_decide_eq_false_2 by done. auto.
Qed.

(** A whole day whose count, at 10 or below before, ends above 10. *)
Lemma high_day date h (e : DomainEntry) :
  Forall (fun t => day_of tz t = date) h ->
  0 ≤ count_on e date ≤ 10 ->
  10 < count_on e date + Z.of_nat (length h) ->
  LastHighHitDate e ≠ Some date ->
  let e' := hits h e in
  HighHitDays e' = streak_on e date
  ∧ LastHighHitDate e' = Some date
  ∧ (3 ≤ streak_on e date -> Blacklisted e' = true)
  ∧ (streak_on e date < 3 -> Blacklisted e' = Blacklisted e)
  ∧ (∀ other, other ≠ date -> count_on e' other = count_on e other).
Proof.
  intros Hday Hcount Hlen Hhigh e'.
  set (n := Z.to_nat (10 - count_on e date)).
  destruct (drop n h) as [|now rest] eqn:Hdrop.
  { apply (f_equal length) in Hdrop. rewrite length_drop in Hdrop.
    simpl in Hdrop. lia. }
  assert (Hsplit : h = take n h ++ now :: rest).
  { rewrite <- (take_drop n h) at 1. by rewrite Hdrop. }
  assert (Hall : day_of tz now = date
                 ∧ Forall (fun t => day_of tz t = date) rest).
  { pose proof (Forall_drop _ n _ Hday) as Hd. rewrite Hdrop in Hd.
    by apply Forall_cons in Hd. }
  destruct Hall as (Hn & Hr).
  assert (Hlt : length (take n h) = n) by (rewrite length_take; lia).
  destruct (hits_below date (take n h) e) as (Hc & Hesc & Hother);
    [by apply Forall_take | unfold min_int; lia | lia |].
  set (e0 := hits (take n h) e) in *.
  assert (Hc10 : count_on e0 date = 10) by lia.
  destruct Hesc as (E1 & E2 & E3 & E4).
  destruct (crossing_hit now e0) as (H1 & H2 & H3 & H4).
  { rewrite Hn, Hc10. vm_compute. reflexivity. }
  { rewrite E2. by rewrite Hn. }
  rewrite Hn in H1, H2, H3, H4.
  assert (Hstreak : streak_on e0 date = streak_on e date).
  { unfold streak_on. by rewrite E1, E2. }
  rewrite Hstreak in H1, H3, H4.
  destruct (hits_above date rest (updateDailyHits_entry now e0))
    as ((A1 & A2 & A3 & A4) & A5); [done | done |].
  assert (He' : e' = hits rest (updateDailyHits_entry now e0)).
  { unfold e', e0. rewrite Hsplit at 1. by rewrite hits_app, hits_cons. }
  rewrite He'. split_all.
  - congruence.
  - congruence.
  - intros Hs. destruct (H3 Hs). congruence.
  - intros Hs. destruct (H4 Hs). congruence.
  - intros other Hne. rewrite A5 by done.
    rewrite updateDailyHits_entry_count, Hn.
    rewrite bool_decide_eq_false_2 by done. auto.
Qed.

(** Three high days on the entry alone: the hits are counted by
    [updateDailyHits] one after the other, whether or not the entry is
    blacklisted on the way. The count of the entry exceeds 10 on each of
    the days [D], [D+1] and [D+2] ([D] may have begun, with 10 hits or
    fewer); at the eleventh hit [now] of [D+2] the entry is blacklisted
    and [BlacklistedDate] is [now]. The rule of one hit and the gap day
    are stated for [updateDailyHits] alone. *)
Lemma three_high_days_hits (e : DomainEntry) D h1 h2 h3 now :
  0 ≤ count_on e D ≤ 10 ->
  count_on e (D + 1) = 0 -> count_on e (D + 2) = 0 ->
  (∀ date, LastHighHitDate e = Some date -> date < D) ->
  0 ≤ HighHitDays e ≤ max_int - 3 ->
  Forall (fun t => day_of tz t = D) h1 ->
  10 < count_on e D + Z.of_nat (length h1) ->
  Forall (fun t => day_of tz t = D + 1) h2 -> (10 < length h2)%nat ->
  Forall (fun t => day_of tz t = D + 2) h3 -> length h3 = 10%nat ->
  day_of tz now = D + 2 ->
  let before := hits (h1 ++ h2 ++ h3) e in
  let after := hits (h1 ++ h2 ++ h3 ++ [now]) e in
  (DailyHits before !! (D + 2) = Some 10
   ∧ DailyHits after !! (D + 2) = Some 11
   ∧ Blacklisted after = true ∧ BlacklistedDate after = now
   ∧ (LastHighHitDate e ≠ Some (D - 1) ->
      Blacklisted before = Blacklisted e
      ∧ HighHitDays before = 2 ∧ HighHitDays after = 3))
  ∧ (∀ t (x : DomainEntry),
       let today := day_of tz t in
       let x' := updateDailyHits_entry t x in
       (10 < incr (count_on x today) ∧ LastHighHitDate x ≠ Some today ->
        HighHitDays x'
        = (if bool_decide (LastHighHitDate x = Some (today - 1))
           then incr (HighHitDays x) else 1)
        ∧ LastHighHitDate x' = Some today)
       ∧ (¬ (10 < incr (count_on x today) ∧ LastHighHitDate x ≠ Some today) ->
          HighHitDays x' = HighHitDays x
          ∧ LastHighHitDate x' = LastHighHitDate x
          ∧ Blacklisted x' = Blacklisted x))
  ∧ (∀ date gap (x : DomainEntry),
       Forall (fun t => day_of tz t = date) gap ->
       count_on x date = 0 -> (length gap ≤ 10)%nat ->
       HighHitDays (hits gap x) = HighHitDays x
       ∧ LastHighHitDate (hits gap x) = LastHighHitDate x
       ∧ Blacklisted (hits gap x) = Blacklisted x).
Proof.
  intros C0 C1 C2 Hlast Hrange Hd1 Hl1 Hd2 Hl2 Hd3 Hl3 Hnow before after.
  split; [| split].
  - (* the three days *)
    assert (Hn0 : LastHighHitDate e ≠ Some D).
    { intros H. apply Hlast in H. lia. }
    destruct (high_day D h1 e Hd1 C0 Hl1 Hn0) as (A1 & A2 & A3 & A4 & A5).
    set (e1 := hits h1 e) in *.
    assert (Hs1 : 1 ≤ streak_on e D ≤ max_int - 2
                  ∧ (LastHighHitDate e ≠ Some (D - 1) -> streak_on e D = 1)).
    { unfold streak_on. case_bool_decide.
      - rewrite incr_in_range by (unfold min_int, max_int in *; lia).
        split; [lia | done].
      - unfold max_int. split; [lia | done]. }
    destruct Hs1 as [Hs1 Hfresh1].
    assert (Hn1 : LastHighHitDate e1 ≠ Some (D + 1)).
    { rewrite A2. intros [=]. lia. }
    assert (C1' : count_on e1 (D + 1) = 0) by (rewrite A5; [done | lia]).
    assert (C2' : count_on e1 (D + 2) = 0) by (rewrite A5; [done | lia]).
    destruct (high_day (D + 1) h2 e1 Hd2) as (B1 & B2 & B3 & B4 & B5);
      [lia | lia | done |].
    set (e2 := hits h2 e1) in *.
    assert (Hs2 : streak_on e1 (D + 1) = streak_on e D + 1).
    { unfold streak_on at 1. rewrite A2, bool_decide_eq_true_2.
      - rewrite A1. apply incr_in_range.
        unfold min_int, max_int in *. lia.
      - f_equal. lia. }
    assert (Hn2 : LastHighHitDate e2 ≠ Some (D + 2)).
    { rewrite B2. intros [=]. lia. }
    assert (C2'' : count_on e2 (D + 2) = 0) by (rewrite B5; [done | lia]).
    destruct (eleventh_hit (D + 2) h3 now e2 Hd3 Hl3 Hnow C2'' Hn2)
      as (E1 & E2 & E3 & E4 & E5 & E6 & E7 & _).
    assert (Hs3 : streak_on e2 (D + 2) = streak_on e D + 2).
    { unfold streak_on at 1. rewrite B2, bool_decide_eq_true_2.
      - rewrite B1, Hs2. rewrite incr_in_range; [lia |].
        unfold min_int, max_int in *. lia.
      - f_equal. lia. }
    assert (Hb : before = hits h3 e2).
    { unfold before. by rewrite !hits_app. }
    assert (Ha : after = hits (h3 ++ [now]) e2).
    { unfold after. by rewrite (hits_app h1), (hits_app h2). }
    rewrite Hb, Ha. rewrite Hs3 in E4, E6.
    destruct E6 as [F1 F2]; [lia |].
    split_all; auto.
    intros Hfresh. specialize (Hfresh1 Hfresh).
    destruct E3 as (G1 & G2 & G3 & G4).
    split_all.
    + rewrite G3, B4 by lia. apply A4. lia.
    + rewrite G1, B1, Hs2. lia.
    + rewrite E4. lia.
  - (* the rule of one hit *)
    intros t x today x'.
    pose proof (updateDailyHits_entry_escalation t x) as H.
    cbn zeta in H. fold (count_on x (day_of tz t)) in H. fold today x' in H.
    split; intros Hc.
    + rewrite bool_decide_eq_true_2 in H by done. tauto.
    + rewrite bool_decide_eq_false_2 in H by done. tauto.
  - (* a day that stays at 10 or below *)
    intros date gap x Hgap Hc Hlen.
    destruct (hits_below date gap x) as (_ & (G1 & G2 & G3 & _) & _);
      [done | rewrite Hc; vm_compute; discriminate | rewrite Hc; lia |].
    auto.
Qed.

(** ** Persistence *)

Lemma incr_changes x : incr x ≠ x.
Proof.
  unfold incr, int_wrap. intros H.
  pose proof (Z.mod_pos_bound (x + 1 + 2 ^ 63) (2 ^ 64) ltac:(reflexivity)).
  pose proof (Z.div_mod (x + 1 + 2 ^ 63) (2 ^ 64) ltac:(discriminate)).
  assert (2 ^ 64 = 18446744073709551616) by reflexivity.
  assert (2 ^ 63 = 9223372036854775808) by reflexivity.
  lia.
Qed.

(** Every call other than [ShouldNotifyDomain] leaves the file equal to
    the table, when it was so before. *)
Lemma step_persists now o dt :
  (∀ domain, o ≠ OpShouldNotifyDomain domain) ->
  disk dt = domains dt ->
  disk (step now o dt) = domains (step now o dt).
Proof.
  intros Hno Hsync.
  destruct o as [domain|domain resolved|domain|domain sc rs lc wc
                |domain issuer|maxAge]; cbn [step].
  - by destruct (Hno domain).
  - reflexivity.
  - unfold ForceNotifyDomain. cbn zeta.
    destruct (domains dt !! normalize domain); reflexivity.
  - unfold RecordDomainMetadata. cbn zeta.
    destruct (domains dt !! normalize domain); [reflexivity | done].
  - unfold RecordDomainIssuer. cbn zeta.
    destruct (domains dt !! normalize domain); [reflexivity | done].
  - unfold ClearOldEntries. cbn zeta. simpl.
    set (kept := filter _ (domains dt)).
    case_bool_decide as Hrem; simpl; [reflexivity |].
    rewrite Hsync. symmetry. apply map_subseteq_size_eq.
    + apply map_filter_subseteq.
    + lia.
Qed.

(** The branches of [ShouldNotifyDomain] that reach [updateDailyHits]
    save as well. *)
Lemma ShouldNotifyDomain_counted_persists now domain dt (e : DomainEntry) :
  domains dt !! normalize domain = Some e ->
  Blacklisted e = false ->
  disk (ShouldNotifyDomain now domain dt).2
  = domains (ShouldNotifyDomain now domain dt).2.
Proof.
  intros He Hb. unfold ShouldNotifyDomain. cbn zeta. rewrite He, Hb.
  destruct (bool_decide _ && bool_decide _); reflexivity.
Qed.

(** C5 (the code departs from the claim). With the file equal to the
    table before the call, the branch of [ShouldNotifyDomain] for a new
    hostname puts the entry into the table and leaves the file without
    it; the branch for a blacklisted hostname increments [HitCount] and
    sets [LastSeen] in the table and leaves the old entry in the file.
    In both, the file differs from the table after the call. *)
Theorem ShouldNotifyDomain_unsaved_branches now domain dt :
  disk dt = domains dt ->
  let d := normalize domain in
  let r := ShouldNotifyDomain now domain dt in
  (domains dt !! d = None ->
   domains r.2 !! d = Some (first_entry now d)
   ∧ disk r.2 !! d = None ∧ disk r.2 ≠ domains r.2)
  ∧ (∀ e : DomainEntry,
       domains dt !! d = Some e -> Blacklisted e = true ->
       domains r.2 !! d
       = Some (set_LastSeen now (set_HitCount (incr (HitCount e)) e))
       ∧ disk r.2 !! d = Some e ∧ disk r.2 ≠ domains r.2).
Proof.
  intros Hsync d r. unfold d in *. clear d.
  set (d := normalize domain) in *. split.
  - intros Hnone.
    assert (Hr : r = (true, put d (first_entry now d) dt)).
    { unfold r, ShouldNotifyDomain. cbn zeta. fold d. by rewrite Hnone. }
    rewrite Hr. simpl. rewrite lookup_insert_eq, Hsync.
    split_all; [done | done |].
    intros Heq. apply (f_equal (fun m => m !! d)) in Heq.
    simpl in Heq. rewrite lookup_insert_eq in Heq. congruence.
  - intros e He Hb.
    assert (Hr : r = (false,
                      put d (set_LastSeen now
                               (set_HitCount (incr (HitCount e)) e)) dt)).
    { unfold r, ShouldNotifyDomain. cbn zeta. fold d. by rewrite He, Hb. }
    rewrite Hr. simpl. rewrite lookup_insert_eq, Hsync.
    split_all; [done | done |].
    intros Heq. apply (f_equal (fun m => HitCount <$> m !! d)) in Heq.
    simpl in Heq. rewrite lookup_insert_eq, He in Heq. simpl in Heq.
    injection Heq as Heq. symmetry in Heq. by apply incr_changes in Heq.
Qed.

(** ** The risk score *)

Lemma addRiskLabel_Domain (e : DomainEntry) l :
  Domain (addRiskLabel e l) = Domain e.
Proof. by destruct (addRiskLabel_same_tracking e l) as (-> & _). Qed.

Lemma addRiskLabel_HitCount (e : DomainEntry) l :
  HitCount (addRiskLabel e l) = HitCount e.
Proof. by destruct (addRiskLabel_same_tracking e l) as (_ & -> & _). Qed.

Lemma addRiskLabel_HighHitDays (e : DomainEntry) l :
  HighHitDays (addRiskLabel e l) = HighHitDays e.
Proof.
  by destruct (addRiskLabel_same_tracking e l)
    as (_ & _ & _ & _ & _ & _ & _ & _ & -> & _).
Qed.

Lemma addRiskLabel_StatusCodeHistory (e : DomainEntry) l :
  StatusCodeHistory (addRiskLabel e l) = StatusCodeHistory e.
Proof.
  by destruct (addRiskLabel_same_tracking e l)
    as (_ & _ & _ & _ & _ & _ & _ & _ & _ & _ & -> & _).
Qed.

Lemma addRiskLabel_PreviousIssuer (e : DomainEntry) l :
  PreviousIssuer (addRiskLabel e l) = PreviousIssuer e.
Proof.
  by destruct (addRiskLabel_same_tracking e l)
    as (_ & _ & _ & _ & _ & _ & _ & _ & _ & _ & _ & -> & _).
Qed.

Lemma addRiskLabel_ResponseSize (e : DomainEntry) l :
  ResponseSize (addRiskLabel e l) = ResponseSize e.
Proof.
  by destruct (addRiskLabel_same_tracking e l)
    as (_ & _ & _ & _ & _ & _ & _ & _ & _ & _ & _ & _ & ->).
Qed.

Ltac risk_stage :=
  rewrite ?addRiskLabel_Domain, ?addRiskLabel_HitCount,
    ?addRiskLabel_HighHitDays, ?addRiskLabel_StatusCodeHistory,
    ?addRiskLabel_PreviousIssuer, ?addRiskLabel_ResponseSize;
  match goal with
  | |- context [if ?b then _ else _] =>
      lazymatch b with
      | bool_decide (100 < _) => fail
      | _ => destruct b
      end
  end;
  cbn beta iota zeta.

(** The score [calculateRisk] stores, read off the fields of the entry
    it is given: the labels it adds on the way do not enter it. *)
Lemma calculateRisk_RiskScore (e : DomainEntry) :
  RiskScore (calculateRisk e)
  = let s :=
      (if IsWildcardDomain (Domain e) then 30 else 0)
      + (if bool_decide (3 ≤ length (StatusCodeHistory e))%nat
         then if bool_decide
                   (3 ≤ size (list_to_set (StatusCodeHistory e) : gset Z))%nat
              then 20 else 0
         else 0)
      + (if bool_decide (50 < HitCount e) || bool_decide (2 ≤ HighHitDays e)
         then 25 else 0)
      + (if bool_decide (PreviousIssuer e ≠ "") then 15 else 0)
      + (if bool_decide (0 < ResponseSize e)
         then if bool_decide (ResponseSize e < 100)
                 || bool_decide (1000000 < ResponseSize e)
              then 10 else 0
         else 0) in
    if bool_decide (100 < s) then 100 else s.
Proof.
  unfold calculateRisk. cbn beta iota zeta.
  repeat risk_stage; simpl; reflexivity.
Qed.

Lemma distinct_count (l : list Z) :
  size (list_to_set l : gset Z) = length (remove_dups l).
Proof.
  rewrite <- (size_list_to_set (C := gset Z) (remove_dups l))
    by apply NoDup_remove_dups.
  f_equal. apply set_eq. intros x.
  by rewrite !elem_of_list_to_set, elem_of_remove_dups.
Qed.

(** C6. The score stored by [calculateRisk] is the sum the specification
    describes: 30 for a [*.] prefix, 20 for three or more status codes
    with three or more distinct values, 25 for more than 50 hits or two
    or more high-hit days, 15 for a previous issuer, 10 for a response
    size strictly between 0 and 100 or above 1,000,000, capped at 100. It
    lies between 0 and 100, recomputing it gives the same score, and two
    entries that agree on these fields get the same score. *)
Theorem calculateRisk_score (e : DomainEntry) :
  RiskScore (calculateRisk e) = risk_spec e
  ∧ 0 ≤ RiskScore (calculateRisk e) ≤ 100
  ∧ RiskScore (calculateRisk (calculateRisk e)) = RiskScore (calculateRisk e)
  ∧ (∀ e2 : DomainEntry,
       Domain e2 = Domain e ->
       StatusCodeHistory e2 = StatusCodeHistory e ->
       HitCount e2 = HitCount e -> HighHitDays e2 = HighHitDays e ->
       PreviousIssuer e2 = PreviousIssuer e ->
       ResponseSize e2 = ResponseSize e ->
       RiskScore (calculateRisk e2) = RiskScore (calculateRisk e)).
Proof.
  assert (Hspec : ∀ x : DomainEntry, RiskScore (calculateRisk x) = risk_spec x).
  { intros x. rewrite calculateRisk_RiskScore. unfold risk_spec.
    cbn zeta. rewrite distinct_count. unfold IsWildcardDomain.
    rewrite !bool_decide_or, bool_decide_and.
    assert (Hissuer : (if bool_decide (PreviousIssuer x ≠ "") then 15 else 0)
                      = (if bool_decide (PreviousIssuer x = "")
                         then 0 else 15)).
    { repeat case_bool_decide; congruence. }
    rewrite Hissuer.
    destruct (HasPrefix (Domain x) "*.");
      destruct (bool_decide (3 ≤ length (StatusCodeHistory x))%nat);
      destruct (bool_decide
                  (3 ≤ length (remove_dups (StatusCodeHistory x)))%nat);
      destruct (bool_decide (50 < HitCount x) || bool_decide (2 ≤ HighHitDays x));
      destruct (bool_decide (PreviousIssuer x = ""));
      repeat case_bool_decide; simpl in *; lia. }
  assert (Hsame : ∀ x y : DomainEntry,
             Domain y = Domain x ->
             StatusCodeHistory y = StatusCodeHistory x ->
             HitCount y = HitCount x -> HighHitDays y = HighHitDays x ->
             PreviousIssuer y = PreviousIssuer x ->
             ResponseSize y = ResponseSize x ->
             RiskScore (calculateRisk y) = RiskScore (calculateRisk x)).
  { intros x y H1 H2 H3 H4 H5 H6. rewrite !calculateRisk_RiskScore.
    by rewrite H1, H2, H3, H4, H5, H6. }
  split; [apply Hspec |]. split; [| split].
  - rewrite calculateRisk_RiskScore. cbn zeta.
    repeat match goal with
           | |- context [if ?b then _ else _] =>
               lazymatch b with
               | bool_decide (100 < _) => fail
               | _ => destruct b
               end
           end; simpl; lia.
  - destruct (calculateRisk_same_tracking e)
      as (H1 & H2 & _ & _ & _ & _ & _ & _ & H3 & _ & H4 & H5 & H6).
    by apply Hsame.
  - apply Hsame.
Qed.

(** ** Risk labels *)

Lemma labels_grow_refl (e e' : DomainEntry) :
  RiskLabels e' = RiskLabels e -> labels_grow e e'.
Proof. intros H. unfold labels_grow. rewrite H. done. Qed.

Lemma labels_grow_trans (e1 e2 e3 : DomainEntry) :
  labels_grow e1 e2 -> labels_grow e2 e3 -> labels_grow e1 e3.
Proof.
  intros [P1 N1] [P2 N2]. split; [by etrans | auto].
Qed.

Lemma addRiskLabel_grow (e : DomainEntry) label :
  labels_grow e (addRiskLabel e label)
  ∧ label ∈ RiskLabels (addRiskLabel e label).
Proof.
  unfold addRiskLabel, labels_grow. case_bool_decide as Hin; simpl.
  - done.
  - split_all.
    + by apply prefix_app_r.
    + intros Hnd. apply NoDup_app. split_all; [done | | apply NoDup_singleton].
      intros x Hx Hx'. apply list_elem_of_singleton in Hx'. by subst.
    + apply elem_of_app. right. by apply list_elem_of_singleton.
Qed.

Lemma labels_grow_addRiskLabel (e x : DomainEntry) label :
  labels_grow e x -> labels_grow e (addRiskLabel x label).
Proof. intros H. eapply labels_grow_trans; [exact H | apply addRiskLabel_grow]. Qed.

Lemma labels_grow_set_RiskScore (e x : DomainEntry) v :
  labels_grow e x -> labels_grow e (set_RiskScore v x).
Proof. intros H. eapply labels_grow_trans; [exact H | by apply labels_grow_refl]. Qed.

Lemma labels_grow_set_IsDuplicate (e x : DomainEntry) v :
  labels_grow e x -> labels_grow e (set_IsDuplicate v x).
Proof. intros H. eapply labels_grow_trans; [exact H | by apply labels_grow_refl]. Qed.

Lemma calculateRisk_grow (e : DomainEntry) : labels_grow e (calculateRisk e).
Proof.
  unfold calculateRisk.
  repeat match goal with
         | |- context [if ?b then _ else _] => destruct b; cbn beta iota zeta
         end;
    repeat first
      [ apply labels_grow_set_IsDuplicate
      | apply labels_grow_set_RiskScore
      | apply labels_grow_addRiskLabel ];
    by apply labels_grow_refl.
Qed.

Lemma entry_step_grow now (e e' : DomainEntry) :
  entry_step now e e' -> labels_grow e e'.
Proof.
  intros H. destruct H;
    try (apply labels_grow_refl;
         repeat match goal with
           | |- context [updateDailyHits_entry ?n ?x] =>
               let F := fresh in
               pose proof (updateDailyHits_entry_frame n x) as F;
               cbn zeta in F;
               destruct F as (_ & _ & _ & _ & _ & -> & _)
           end; reflexivity).
  - eapply labels_grow_trans; [| apply calculateRisk_grow].
    by apply labels_grow_refl.
  - eapply labels_grow_trans; [| apply calculateRisk_grow].
    eapply labels_grow_trans; [| by apply labels_grow_refl].
    eapply labels_grow_trans; [| apply addRiskLabel_grow].
    by apply labels_grow_refl.
  - eapply labels_grow_trans; [| apply calculateRisk_grow].
    by apply labels_grow_refl.
Qed.

Lemma born_no_labels now d (e : DomainEntry) : born now d e -> RiskLabels e = [].
Proof. by destruct 1. Qed.

Lemma run_labels_NoDup trace : ∀ dt,
  (∀ d (e : DomainEntry), domains dt !! d = Some e -> NoDup (RiskLabels e)) ->
  ∀ d (e : DomainEntry),
    domains (run trace dt) !! d = Some e -> NoDup (RiskLabels e).
Proof.
  induction trace as [|[now o] rest IH]; intros dt Hinv; [exact Hinv |].
  simpl. apply IH. intros d e' He'.
  pose proof (step_lookup now o dt d) as Hstep. rewrite He' in Hstep.
  destruct (domains dt !! d) as [e|] eqn:He.
  - destruct Hstep as [-> | Hstep]; [by eapply Hinv |].
    apply entry_step_grow in Hstep as [_ Hnd]. apply Hnd. by eapply Hinv.
  - apply born_no_labels in Hstep. rewrite Hstep. constructor.
Qed.

(** C10. [addRiskLabel] appends a label that is not yet present and
    changes nothing otherwise, so a list of labels without duplicates
    stays without duplicates; [calculateRisk] only calls it, so every
    label present before a recomputation is present after it, whatever
    the fields now say. Across any call of the tracker the labels of an
    entry that stays are a prefix of its labels afterwards, and every
    entry of a tracker that started empty has labels without duplicates.
    The score does not depend on the labels. *)
Theorem risk_labels_append_only :
  (∀ (e : DomainEntry) label,
     RiskLabels e `prefix_of` RiskLabels (addRiskLabel e label)
     ∧ label ∈ RiskLabels (addRiskLabel e label)
     ∧ (NoDup (RiskLabels e) -> NoDup (RiskLabels (addRiskLabel e label))))
  ∧ (∀ e : DomainEntry,
       RiskLabels e `prefix_of` RiskLabels (calculateRisk e)
       ∧ (∀ label, label ∈ RiskLabels e -> label ∈ RiskLabels (calculateRisk e))
       ∧ (NoDup (RiskLabels e) -> NoDup (RiskLabels (calculateRisk e)))
       ∧ RiskScore (calculateRisk e)
         = RiskScore (calculateRisk (set_RiskLabels [] e)))
  ∧ (∀ now o dt d (e e' : DomainEntry),
       domains dt !! d = Some e ->
       domains (step now o dt) !! d = Some e' ->
       RiskLabels e `prefix_of` RiskLabels e'
       ∧ (NoDup (RiskLabels e) -> NoDup (RiskLabels e')))
  ∧ (∀ trace d (e : DomainEntry),
       domains (run trace empty_tracker) !! d = Some e ->
       NoDup (RiskLabels e)).
Proof.
  split_all.
  - intros e label. destruct (addRiskLabel_grow e label) as [[H1 H2] H3]. auto.
  - intros e. destruct (calculateRisk_grow e) as [H1 H2]. split_all; auto.
    + intros label Hin. destruct H1 as [k ->]. apply elem_of_app. by left.
    + by rewrite !calculateRisk_RiskScore.
  - intros now o dt d e e' He He'.
    pose proof (step_lookup now o dt d) as Hstep. rewrite He, He' in Hstep.
    destruct Hstep as [-> | Hstep]; [done |].
    by apply entry_step_grow in Hstep.
  - intros trace d e. apply run_labels_NoDup.
    intros d' e'. simpl. by rewrite lookup_empty.
Qed.

(** ** Further properties of the tracker operations *)

(** *** Which keys a call leaves in the table *)

Lemma step_dom now o dt :
  match o with
  | OpShouldNotifyDomain domain
  | OpForceNotifyDomain domain
  | OpRecordDomainResolution domain _ =>
      dom (domains (step now o dt)) = {[ normalize domain ]} ∪ dom (domains dt)
  | OpRecordDomainMetadata _ _ _ _ _
  | OpRecordDomainIssuer _ _ =>
      dom (domains (step now o dt)) = dom (domains dt)
  | OpClearOldEntries _ =>
      dom (domains (step now o dt)) ⊆ dom (domains dt)
  end.
Proof.
  destruct o as [domain|domain resolved|domain|domain sc rs lc wc
                |domain issuer|maxAge]; cbn [step].
  - unfold ShouldNotifyDomain. cbn zeta.
    destruct (domains dt !! normalize domain) as [e|] eqn:He.
    + destruct (Blacklisted e); [| destruct (bool_decide _ && bool_decide _)];
        simpl; apply dom_insert_L.
    + simpl. apply dom_insert_L.
  - unfold RecordDomainResolution. cbn zeta. simpl. apply dom_insert_L.
  - unfold ForceNotifyDomain. cbn zeta.
    destruct (domains dt !! normalize domain); simpl; apply dom_insert_L.
  - unfold RecordDomainMetadata. cbn zeta.
    destruct (domains dt !! normalize domain) as [e|] eqn:He; [| done].
    simpl. rewrite dom_insert_L.
    assert (normalize domain ∈ dom (domains dt)) by (apply elem_of_dom; eauto).
    set_solver.
  - unfold RecordDomainIssuer. cbn zeta.
    destruct (domains dt !! normalize domain) as [e|] eqn:He; [| done].
    simpl. rewrite dom_insert_L.
    assert (normalize domain ∈ dom (domains dt)) by (apply elem_of_dom; eauto).
    set_solver.
  - intros d Hd. apply elem_of_dom in Hd as [e He]. apply elem_of_dom.
    rewrite ClearOldEntries_lookup in He.
    destruct (domains dt !! d); [eauto | discriminate].
Qed.

(** X1. [ShouldNotifyDomain], [ForceNotifyDomain] and
    [RecordDomainResolution] leave an entry for the hostname they are
    given and touch no other key; [RecordDomainMetadata] and
    [RecordDomainIssuer] never create or remove a key (an unknown
    hostname is ignored); [ClearOldEntries] only removes keys. *)
Theorem tracker_key_set now o dt :
  match o with
  | OpShouldNotifyDomain domain
  | OpForceNotifyDomain domain
  | OpRecordDomainResolution domain _ =>
      dom (domains (step now o dt)) = {[ normalize domain ]} ∪ dom (domains dt)
  | OpRecordDomainMetadata domain _ _ _ _
  | OpRecordDomainIssuer domain _ =>
      dom (domains (step now o dt)) = dom (domains dt)
      ∧ (domains dt !! normalize domain = None -> step now o dt = dt)
  | OpClearOldEntries _ =>
      dom (domains (step now o dt)) ⊆ dom (domains dt)
  end.
Proof.
  pose proof (step_dom now o dt) as H.
  destruct o as [domain|domain resolved|domain|domain sc rs lc wc
                |domain issuer|maxAge]; try exact H.
  - split; [exact H |]. intros Hnone. cbn [step].
    unfold RecordDomainMetadata. cbn zeta. by rewrite Hnone.
  - split; [exact H |]. intros Hnone. cbn [step].
    unfold RecordDomainIssuer. cbn zeta. by rewrite Hnone.
Qed.

(** *** Keys and the [Domain] field *)

Lemma run_keys trace : ∀ dt,
  (∀ d e, domains dt !! d = Some e ->
          Domain e = d ∧ ∃ domain, d = normalize domain) ->
  ∀ d e, domains (run trace dt) !! d = Some e ->
         Domain e = d ∧ ∃ domain, d = normalize domain.
Proof.
  induction trace as [|[now o] rest IH]; intros dt Hinv; [exact Hinv |].
  simpl. apply IH. intros d e' He'.
  pose proof (step_lookup now o dt d) as Hstep. rewrite He' in Hstep.
  destruct (domains dt !! d) as [e|] eqn:He.
  - destruct (Hinv d e He) as [Hd Hn]. split; [| exact Hn].
    destruct Hstep as [-> | Hstep]; [done |].
    apply entry_step_times in Hstep as (_ & -> & _). done.
  - split; [by destruct Hstep |].
    assert (Hin : d ∈ dom (domains (step now o dt))).
    { apply elem_of_dom. eauto. }
    assert (Hout : d ∉ dom (domains dt)).
    { apply not_elem_of_dom. exact He. }
    pose proof (step_dom now o dt) as Hdom.
    destruct o; try (rewrite Hdom in Hin; set_solver).
    exfalso. apply Hout. by apply Hdom.
Qed.

(** *** Calls are local to a key *)

(** The entry of a key after a call is a function of its entry before. *)
Lemma step_after_op now o dt d :
  domains (step now o dt) !! d = after_op now o d (domains dt !! d).
Proof.
  destruct o as [domain|domain resolved|domain|domain sc rs lc wc
                |domain issuer|maxAge]; cbn [step]; unfold after_op.
  - unfold ShouldNotifyDomain, seen_entry. cbn zeta.
    case_bool_decide as Hd.
    + subst d. destruct (domains dt !! normalize domain) as [e|] eqn:He.
      * destruct (Blacklisted e); [| destruct (bool_decide _ && bool_decide _)];
          simpl; by rewrite lookup_insert_eq.
      * simpl. by rewrite lookup_insert_eq.
    + destruct (domains dt !! normalize domain) as [e|] eqn:He.
      * destruct (Blacklisted e); [| destruct (bool_decide _ && bool_decide _)];
          simpl; by rewrite lookup_insert_ne.
      * simpl. by rewrite lookup_insert_ne.
  - unfold RecordDomainResolution. cbn zeta. simpl.
    case_bool_decide as Hd.
    + subst d. rewrite lookup_insert_eq.
      by destruct (domains dt !! normalize domain).
    + by rewrite lookup_insert_ne.
  - unfold ForceNotifyDomain, forced_entry. cbn zeta.
    case_bool_decide as Hd.
    + subst d. destruct (domains dt !! normalize domain) as [e|] eqn:He;
        simpl; by rewrite lookup_insert_eq.
    + destruct (domains dt !! normalize domain) as [e|] eqn:He;
        simpl; by rewrite lookup_insert_ne.
  - unfold RecordDomainMetadata, probed_entry, push_status. cbn zeta.
    case_bool_decide as Hd.
    + subst d. destruct (domains dt !! normalize domain) as [e|] eqn:He;
        simpl; [by rewrite lookup_insert_eq | done].
    + destruct (domains dt !! normalize domain) as [e|] eqn:He;
        simpl; [by rewrite lookup_insert_ne | done].
  - unfold RecordDomainIssuer, issued_entry. cbn zeta.
    case_bool_decide as Hd.
    + subst d. destruct (domains dt !! normalize domain) as [e|] eqn:He;
        simpl; [| done]. rewrite lookup_insert_eq.
      by destruct (bool_decide _ && bool_decide _).
    + destruct (domains dt !! normalize domain) as [e|] eqn:He;
        simpl; [by rewrite lookup_insert_ne | done].
  - apply ClearOldEntries_lookup.
Qed.

(** Where a key comes from: it was in the table at the start, or a call
    of the trace created it. *)
Lemma run_key_origin trace : ∀ dt d,
  is_Some (domains (run trace dt) !! d) ->
  is_Some (domains dt !! d)
  ∨ ∃ now o domain,
      (now, o) ∈ trace ∧ creates d o = true
      ∧ op_domain o = Some domain ∧ normalize domain = d.
Proof.
  induction trace as [|[now o] rest IH]; intros dt d Hd; [by left |].
  change (run ((now, o) :: rest) dt) with (run rest (step now o dt)) in Hd.
  destruct (IH _ _ Hd) as [Hstep | (now' & o' & domain & Hin & Hc & Ho & Hn)].
  - rewrite step_after_op in Hstep.
    destruct (domains dt !! d) as [e|] eqn:He; [left; eauto |].
    right. exists now, o.
    destruct o as [domain|domain resolved|domain|domain sc rs lc wc
                  |domain issuer|maxAge];
      cbn [after_op creates op_domain] in Hstep |- *;
      try (destruct Hstep as [? [=]]);
      exists domain; case_bool_decide;
      try (destruct Hstep as [? [=]]);
      (split; [by left | done]).
  - right. exists now', o', domain. split; [by right | done].
Qed.

(** X2. In a tracker that started empty, every key is the normalized
    form of a hostname that was passed in: some call of the trace,
    [ShouldNotifyDomain], [ForceNotifyDomain] or
    [RecordDomainResolution], named a hostname whose normalized form is
    the key. The entry stored under a key carries that key in its
    [Domain] field. *)
Theorem keys_are_normalized trace d e :
  domains (run trace empty_tracker) !! d = Some e ->
  Domain e = d
  ∧ ∃ now o domain,
      (now, o) ∈ trace ∧ creates d o = true
      ∧ op_domain o = Some domain ∧ normalize domain = d.
Proof.
  intros He. split.
  - eapply (run_keys trace empty_tracker); [| exact He].
    intros d' e'. simpl. by rewrite lookup_empty.
  - destruct (run_key_origin trace empty_tracker d) as [[e0 He0] | Horigin];
      [eauto | | exact Horigin].
    simpl in He0. by rewrite lookup_empty in He0.
Qed.

(** X3. A call that names a hostname leaves the entry of every other
    key as it is. *)
Theorem other_keys_untouched now o dt domain d :
  op_domain o = Some domain -> d ≠ normalize domain ->
  domains (step now o dt) !! d = domains dt !! d.
Proof.
  intros Ho Hne. rewrite step_after_op.
  destruct o; simpl in Ho; try discriminate; injection Ho as ->;
    unfold after_op; by rewrite bool_decide_eq_false_2.
Qed.

(** *** Helpers: the remaining fields, and invariants of all entries *)

Lemma updateDailyHits_entry_rest now e :
  let e' := updateDailyHits_entry now e in
  Resolved e' = Resolved e
  ∧ StatusCodeHistory e' = StatusCodeHistory e
  ∧ CertIssuer e' = CertIssuer e ∧ PreviousIssuer e' = PreviousIssuer e
  ∧ IsDuplicate e' = IsDuplicate e ∧ RiskScore e' = RiskScore e
  ∧ ResponseSize e' = ResponseSize e.
Proof.
  unfold updateDailyHits_entry. cbn zeta. case_ifs; split_all; reflexivity.
Qed.

(** A property of entries that holds of the two entries a call can
    create and is kept by what a call does to an existing entry holds of
    every entry of a tracker that started empty. *)
Lemma run_entry_invariant (P : DomainEntry -> Prop) :
  (∀ now d, P (first_entry now d)) ->
  (∀ now d resolved, P (set_Resolved resolved (resolution_entry now d))) ->
  (∀ now e, P e -> P (seen_entry now e)) ->
  (∀ now e, P e -> P (forced_entry now e)) ->
  (∀ resolved e, P e -> P (set_Resolved resolved e)) ->
  (∀ sc rs lc wc e, P e -> P (probed_entry sc rs lc wc e)) ->
  (∀ issuer e, P e -> P (issued_entry issuer e)) ->
  ∀ trace d e, domains (run trace empty_tracker) !! d = Some e -> P e.
Proof.
  intros Hfirst Hres Hseen Hforced Hset Hprobed Hissued trace.
  assert (Hgen : ∀ dt,
             (∀ d e, domains dt !! d = Some e -> P e) ->
             ∀ d e, domains (run trace dt) !! d = Some e -> P e).
  { induction trace as [|[now o] rest IH]; intros dt Hinv; [exact Hinv |].
    simpl. apply IH. intros d e' He'.
    rewrite step_after_op in He'. unfold after_op in He'.
    destruct (domains dt !! d) as [e|] eqn:He.
    - specialize (Hinv d e He).
      destruct o; repeat case_bool_decide; simpl in He';
        try (injection He' as <-); auto.
      by destruct (bool_decide _); [discriminate | injection He' as <-].
    - destruct o; repeat case_bool_decide; simpl in He';
        try discriminate; try (injection He' as <-); auto. }
  apply Hgen. intros d e. simpl. by rewrite lookup_empty.
Qed.

Lemma addRiskLabel_probe_fields e label :
  let e' := addRiskLabel e label in
  Resolved e' = Resolved e ∧ HttpStatusCode e' = HttpStatusCode e
  ∧ ResponseLineCount e' = ResponseLineCount e
  ∧ ResponseWordCount e' = ResponseWordCount e
  ∧ CertIssuer e' = CertIssuer e ∧ IsDuplicate e' = IsDuplicate e.
Proof. unfold addRiskLabel. cbn zeta. case_ifs; split_all; reflexivity. Qed.

Lemma calculateRisk_probe_fields e :
  let e' := calculateRisk e in
  Resolved e' = Resolved e ∧ HttpStatusCode e' = HttpStatusCode e
  ∧ ResponseLineCount e' = ResponseLineCount e
  ∧ ResponseWordCount e' = ResponseWordCount e
  ∧ CertIssuer e' = CertIssuer e.
Proof.
  cbn zeta. unfold calculateRisk.
  repeat match goal with
         | |- context [if ?b then _ else _] => destruct b; cbn beta iota zeta
         end;
    cbn [Resolved HttpStatusCode ResponseLineCount ResponseWordCount
         CertIssuer set_RiskScore set_IsDuplicate];
    repeat match goal with
      | |- context [addRiskLabel ?x ?l] =>
          let F := fresh in
          pose proof (addRiskLabel_probe_fields x l) as F; cbn zeta in F;
          destruct F as (-> & -> & -> & -> & -> & _)
      end;
    split_all; reflexivity.
Qed.

(** *** The status-code history *)

Lemma push_status_spec (history : list Z) (statusCode : Z) :
  (length (push_status history statusCode) ≤ 10)%nat
  ∧ push_status history statusCode `suffix_of` history ++ [statusCode]
  ∧ last (push_status history statusCode) = Some statusCode
  ∧ ((length history < 10)%nat ->
     push_status history statusCode = history ++ [statusCode])
  ∧ ((10 ≤ length history)%nat ->
     length (push_status history statusCode) = 10%nat).
Proof.
  unfold push_status. cbn zeta. rewrite length_app. simpl.
  case_bool_decide as Hlen.
  - split_all.
    + rewrite length_drop, length_app. simpl. lia.
    + apply suffix_drop.
    + rewrite drop_app_le by lia. rewrite last_app. reflexivity.
    + lia.
    + intros _. rewrite length_drop, length_app. simpl. lia.
  - split_all; try lia.
    + rewrite length_app. simpl. lia.
    + done.
    + rewrite last_app. reflexivity.
    + done.
Qed.

(** X4. [RecordDomainMetadata] on a known hostname appends the status
    code and keeps the last ten codes: the new history is a suffix of
    the old one with the code appended, ends with the code, and the
    scalar probe fields are overwritten. In a tracker that started empty
    no entry ever holds more than ten codes. *)
Theorem status_history_bounded :
  (∀ domain statusCode responseSize lineCount wordCount dt e,
     domains dt !! normalize domain = Some e ->
     ∃ e',
       domains (RecordDomainMetadata domain statusCode responseSize
                  lineCount wordCount dt) !! normalize domain = Some e'
       ∧ StatusCodeHistory e' `suffix_of` StatusCodeHistory e ++ [statusCode]
       ∧ last (StatusCodeHistory e') = Some statusCode
       ∧ (length (StatusCodeHistory e') ≤ 10)%nat
       ∧ ((length (StatusCodeHistory e) < 10)%nat ->
          StatusCodeHistory e' = StatusCodeHistory e ++ [statusCode])
       ∧ HttpStatusCode e' = statusCode ∧ ResponseSize e' = responseSize
       ∧ ResponseLineCount e' = lineCount ∧ ResponseWordCount e' = wordCount)
  ∧ (∀ trace d e,
       domains (run trace empty_tracker) !! d = Some e ->
       (length (StatusCodeHistory e) ≤ 10)%nat).
Proof.
  split.
  - intros domain sc rs lc wc dt e He.
    pose proof (step_after_op 0 (OpRecordDomainMetadata domain sc rs lc wc)
                  dt (normalize domain)) as Hstep.
    cbn [step] in Hstep. unfold after_op in Hstep.
    rewrite bool_decide_eq_true_2, He in Hstep by done. simpl in Hstep.
    eexists. split; [exact Hstep |].
    unfold probed_entry.
    destruct (calculateRisk_same_tracking
                (set_ResponseWordCount wc
                   (set_ResponseLineCount lc
                      (set_ResponseSize rs
                         (set_HttpStatusCode sc
                            (set_StatusCodeHistory
                               (push_status (StatusCodeHistory e) sc) e))))))
      as (_ & _ & _ & _ & _ & _ & _ & _ & _ & _ & -> & _ & ->).
    destruct (calculateRisk_probe_fields
                (set_ResponseWordCount wc
                   (set_ResponseLineCount lc
                      (set_ResponseSize rs
                         (set_HttpStatusCode sc
                            (set_StatusCodeHistory
                               (push_status (StatusCodeHistory e) sc) e))))))
      as (_ & -> & -> & -> & _).
    simpl.
    destruct (push_status_spec (StatusCodeHistory e) sc)
      as (H1 & H2 & H3 & H4 & _).
    split_all; auto.
  - apply (run_entry_invariant
             (fun e => (length (StatusCodeHistory e) ≤ 10)%nat)).
    + intros. simpl. lia.
    + intros. simpl. lia.
    + intros now e He. unfold seen_entry. case_ifs;
        repeat match goal with
          | |- context [updateDailyHits_entry ?n ?x] =>
              let F := fresh in
              pose proof (updateDailyHits_entry_rest n x) as F;
              cbn zeta in F; destruct F as (_ & -> & _)
          end; simpl; exact He.
    + intros now e He. unfold forced_entry.
      match goal with
      | |- context [updateDailyHits_entry ?n ?x] =>
          let F := fresh in
          pose proof (updateDailyHits_entry_rest n x) as F;
          cbn zeta in F; destruct F as (_ & -> & _)
      end. simpl. exact He.
    + intros. simpl. done.
    + intros sc rs lc wc e He. unfold probed_entry.
      match goal with
      | |- context [calculateRisk ?x] =>
          destruct (calculateRisk_same_tracking x)
            as (_ & _ & _ & _ & _ & _ & _ & _ & _ & _ & -> & _)
      end. simpl. apply push_status_spec.
    + intros issuer e He. unfold issued_entry.
      match goal with
      | |- context [calculateRisk ?x] =>
          destruct (calculateRisk_same_tracking x)
            as (_ & _ & _ & _ & _ & _ & _ & _ & _ & _ & -> & _)
      end. simpl. case_ifs; [| exact He].
      rewrite addRiskLabel_StatusCodeHistory. simpl. exact He.
Qed.

(** *** Hit counts *)

Lemma seen_entry_fields now e :
  let e' := seen_entry now e in
  HitCount e' = incr (HitCount e) ∧ LastSeen e' = now
  ∧ FirstSeen e' = FirstSeen e ∧ Domain e' = Domain e
  ∧ RiskLabels e' = RiskLabels e
  ∧ PreviousIssuer e' = PreviousIssuer e ∧ IsDuplicate e' = IsDuplicate e
  ∧ CertIssuer e' = CertIssuer e.
Proof.
  cbn zeta. unfold seen_entry.
  case_ifs;
    repeat match goal with
      | |- context [updateDailyHits_entry ?n ?x] =>
          pose proof (updateDailyHits_entry_rest n x);
          pose proof (updateDailyHits_entry_frame n x);
          generalize dependent (updateDailyHits_entry n x); intros
      end;
    cbn zeta in *; simpl in *;
    repeat match goal with H : _ ∧ _ |- _ => destruct H end;
    split_all; congruence.
Qed.

Lemma forced_entry_fields now e :
  let e' := forced_entry now e in
  HitCount e' = incr (HitCount e) ∧ LastSeen e' = now
  ∧ LastNotified e' = now
  ∧ FirstSeen e' = FirstSeen e ∧ Domain e' = Domain e
  ∧ RiskLabels e' = RiskLabels e
  ∧ PreviousIssuer e' = PreviousIssuer e ∧ IsDuplicate e' = IsDuplicate e
  ∧ CertIssuer e' = CertIssuer e.
Proof.
  cbn zeta. unfold forced_entry.
  match goal with
  | |- context [updateDailyHits_entry ?n ?x] =>
      pose proof (updateDailyHits_entry_rest n x);
      pose proof (updateDailyHits_entry_frame n x);
      generalize dependent (updateDailyHits_entry n x); intros
  end;
    cbn zeta in *; simpl in *;
    repeat match goal with H : _ ∧ _ |- _ => destruct H end;
    split_all; congruence.
Qed.

Lemma step_hit_count now o dt domain :
  is_sweep o = false ->
  GetDomainHitCount domain (step now o dt)
  = if is_sighting (normalize domain) o
    then incr (GetDomainHitCount domain dt)
    else GetDomainHitCount domain dt.
Proof.
  intros Hsweep. unfold GetDomainHitCount. rewrite step_after_op.
  unfold after_op, is_sighting.
  destruct o; try discriminate; case_bool_decide;
    destruct (domains dt !! normalize domain) as [e|]; simpl; try reflexivity.
  - apply seen_entry_fields.
  - apply forced_entry_fields.
  - destruct (calculateRisk_same_tracking
                (set_ResponseWordCount wordCount
                   (set_ResponseLineCount lineCount
                      (set_ResponseSize responseSize
                         (set_HttpStatusCode statusCode
                            (set_StatusCodeHistory
                               (push_status (StatusCodeHistory e) statusCode)
                               e)))))) as (_ & Hhc & _).
    exact Hhc.
  - unfold issued_entry.
    match goal with
    | |- context [calculateRisk ?x] =>
        destruct (calculateRisk_same_tracking x) as (_ & -> & _)
    end. simpl. case_ifs; [| reflexivity].
    by rewrite addRiskLabel_HitCount.
Qed.

Lemma iter_incr_in_range n : ∀ c,
  min_int ≤ c -> c + Z.of_nat n ≤ max_int -> Nat.iter n incr c = c + Z.of_nat n.
Proof.
  induction n as [|n IH]; intros c Hlo Hhi; [simpl; lia |].
  rewrite Nat.iter_succ, IH by lia. rewrite incr_in_range; lia.
Qed.

(** X5. Between sweeps, [GetDomainHitCount] counts the sightings of the
    hostname: along a trace without [ClearOldEntries] it has been
    incremented once per call of [ShouldNotifyDomain] or
    [ForceNotifyDomain] for a hostname with the same normalized form,
    whatever these calls answered, and by no other call. An unknown
    hostname counts 0. *)
Theorem hit_count_counts_sightings domain trace : ∀ dt,
  Forall (fun c => is_sweep c.2 = false) trace ->
  GetDomainHitCount domain (run trace dt)
  = Nat.iter (sightings (normalize domain) trace) incr
      (GetDomainHitCount domain dt)
  ∧ (min_int ≤ GetDomainHitCount domain dt ->
     GetDomainHitCount domain dt
     + Z.of_nat (sightings (normalize domain) trace) ≤ max_int ->
     GetDomainHitCount domain (run trace dt)
     = GetDomainHitCount domain dt
       + Z.of_nat (sightings (normalize domain) trace)).
Proof.
  assert (Hiter : ∀ dt,
            Forall (fun c => is_sweep c.2 = false) trace ->
            GetDomainHitCount domain (run trace dt)
            = Nat.iter (sightings (normalize domain) trace) incr
                (GetDomainHitCount domain dt)).
  { induction trace as [|[now o] rest IH]; intros dt Hall; [reflexivity |].
    apply Forall_cons in Hall as [Ho Hrest]. simpl in Ho.
    change (run ((now, o) :: rest) dt) with (run rest (step now o dt)).
    rewrite IH by done.
    rewrite step_hit_count by done.
    unfold sightings. simpl. destruct (is_sighting (normalize domain) o).
    - simpl length. by rewrite Nat.iter_succ_r.
    - reflexivity. }
  intros dt Hall. split; [by apply Hiter |].
  intros Hlo Hhi. rewrite Hiter by done. by apply iter_incr_in_range.
Qed.

(** *** Labels and the conditions of the score *)

Lemma addRiskLabel_elem e label l :
  l ∈ RiskLabels (addRiskLabel e label) ↔ l ∈ RiskLabels e ∨ l = label.
Proof.
  unfold addRiskLabel. case_bool_decide as Hin; simpl.
  - split; [auto |]. intros [H | ->]; done.
  - rewrite elem_of_app, list_elem_of_singleton. done.
Qed.

Lemma calculateRisk_label_elem e l :
  l ∈ RiskLabels (calculateRisk e)
  ↔ l ∈ RiskLabels e
    ∨ (l = "wildcard" ∧ IsWildcardDomain (Domain e) = true)
    ∨ (l = "status-anomaly"
       ∧ bool_decide (3 ≤ length (StatusCodeHistory e))%nat = true
       ∧ bool_decide
           (3 ≤ size (list_to_set (StatusCodeHistory e) : gset Z))%nat = true)
    ∨ (l = "high-frequency"
       ∧ bool_decide (50 < HitCount e) || bool_decide (2 ≤ HighHitDays e)
         = true)
    ∨ (l = "response-anomaly"
       ∧ bool_decide (0 < ResponseSize e) = true
       ∧ bool_decide (ResponseSize e < 100)
         || bool_decide (1000000 < ResponseSize e) = true).
Proof.
  unfold calculateRisk. cbn beta iota zeta.
  repeat risk_stage;
    cbn [RiskLabels set_RiskScore set_IsDuplicate];
    rewrite ?addRiskLabel_elem; intuition congruence.
Qed.

(** X6. After [calculateRisk] a label is on the entry exactly when it
    was there before or it is the label of a condition that holds now:
    "wildcard", "status-anomaly", "high-frequency" and "response-anomaly"
    are added with their share of the score; the share of a previous
    issuer adds no label here. *)
Theorem calculateRisk_labels e l :
  l ∈ RiskLabels (calculateRisk e)
  ↔ l ∈ RiskLabels e
    ∨ (l = "wildcard" ∧ IsWildcardDomain (Domain e) = true)
    ∨ (l = "status-anomaly"
       ∧ bool_decide (3 ≤ length (StatusCodeHistory e))%nat = true
       ∧ bool_decide
           (3 ≤ size (list_to_set (StatusCodeHistory e) : gset Z))%nat = true)
    ∨ (l = "high-frequency"
       ∧ bool_decide (50 < HitCount e) || bool_decide (2 ≤ HighHitDays e)
         = true)
    ∨ (l = "response-anomaly"
       ∧ bool_decide (0 < ResponseSize e) = true
       ∧ bool_decide (ResponseSize e < 100)
         || bool_decide (1000000 < ResponseSize e) = true).
Proof. apply calculateRisk_label_elem. Qed.

(** *** Issuer changes *)

Lemma issued_entry_fields issuer e :
  let changed :=
    bool_decide (CertIssuer e ≠ "") && bool_decide (CertIssuer e ≠ issuer) in
  let e' := issued_entry issuer e in
  CertIssuer e' = issuer
  ∧ PreviousIssuer e' = (if changed then CertIssuer e else PreviousIssuer e)
  ∧ (changed = true -> "issuer-change" ∈ RiskLabels e')
  ∧ ("issuer-change" ∈ RiskLabels e'
     ↔ "issuer-change" ∈ RiskLabels e ∨ changed = true).
Proof.
  cbn zeta. unfold issued_entry.
  match goal with
  | |- context [calculateRisk ?x] =>
      pose proof (calculateRisk_same_tracking x) as Hsame;
      pose proof (calculateRisk_probe_fields x) as Hprobe;
      pose proof (calculateRisk_label_elem x "issuer-change") as Hlab
  end.
  cbn zeta in Hprobe.
  destruct Hsame as (_ & _ & _ & _ & _ & _ & _ & _ & _ & _ & _ & Hprev & _).
  destruct Hprobe as (_ & _ & _ & _ & Hcert).
  rewrite Hcert, Hprev, Hlab. clear Hcert Hprev Hlab.
  destruct (bool_decide (CertIssuer e ≠ "")
            && bool_decide (CertIssuer e ≠ issuer)); simpl.
  - rewrite addRiskLabel_PreviousIssuer. simpl.
    rewrite addRiskLabel_elem. simpl.
    split_all; [done | done | auto | ]. intuition congruence.
  - split_all; [done | done | discriminate |]. intuition congruence.
Qed.

(** X7. [RecordDomainIssuer] on a known hostname stores the issuer; it
    counts as a change only when an issuer was on record and differs
    from the new one, and then the old issuer becomes [PreviousIssuer]
    and the label "issuer-change" is added (the first issuer recorded is
    no change). In a tracker that started empty, an entry has a previous
    issuer exactly when it carries the label "issuer-change". *)
Theorem issuer_change_recorded :
  (∀ domain issuer dt e,
     domains dt !! normalize domain = Some e ->
     let changed :=
       bool_decide (CertIssuer e ≠ "") && bool_decide (CertIssuer e ≠ issuer) in
     ∃ e',
       domains (RecordDomainIssuer domain issuer dt) !! normalize domain
       = Some e'
       ∧ CertIssuer e' = issuer
       ∧ PreviousIssuer e'
         = (if changed then CertIssuer e else PreviousIssuer e)
       ∧ (changed = true -> "issuer-change" ∈ RiskLabels e'))
  ∧ (∀ trace d e,
       domains (run trace empty_tracker) !! d = Some e ->
       PreviousIssuer e ≠ "" ↔ "issuer-change" ∈ RiskLabels e).
Proof.
  split.
  - intros domain issuer dt e He changed.
    pose proof (step_after_op 0 (OpRecordDomainIssuer domain issuer)
                  dt (normalize domain)) as Hstep.
    cbn [step] in Hstep. unfold after_op in Hstep.
    rewrite bool_decide_eq_true_2, He in Hstep by done. simpl in Hstep.
    eexists. split; [exact Hstep |].
    destruct (issued_entry_fields issuer e) as (H1 & H2 & H3 & _). auto.
  - apply (run_entry_invariant
             (fun e => PreviousIssuer e ≠ "" ↔ "issuer-change" ∈ RiskLabels e)).
    + intros now d. simpl. split; [done |]. intros H. by apply elem_of_nil in H.
    + intros now d r. simpl. split; [done |]. intros H. by apply elem_of_nil in H.
    + intros now e He.
      destruct (seen_entry_fields now e) as (_ & _ & _ & _ & -> & -> & _).
      exact He.
    + intros now e He.
      destruct (forced_entry_fields now e) as (_ & _ & _ & _ & _ & -> & -> & _).
      exact He.
    + intros r e He. simpl. exact He.
    + intros sc rs lc wc e He. unfold probed_entry.
      match goal with
      | |- context [calculateRisk ?x] =>
          pose proof (calculateRisk_same_tracking x) as Hsame;
          pose proof (calculateRisk_label_elem x "issuer-change") as Hlab
      end.
      destruct Hsame as (_ & _ & _ & _ & _ & _ & _ & _ & _ & _ & _ & -> & _).
      rewrite Hlab. simpl. rewrite He. intuition congruence.
    + intros issuer e He.
      destruct (issued_entry_fields issuer e) as (_ & -> & _ & ->).
      destruct (bool_decide (CertIssuer e ≠ "")
                && bool_decide (CertIssuer e ≠ issuer)) eqn:Hch.
      * apply andb_true_iff in Hch as [Hc _].
        apply bool_decide_eq_true in Hc. split; auto.
      * rewrite He. intuition congruence.
Qed.

(** *** The duplicate flag *)

Lemma addRiskLabel_IsDuplicate e label :
  IsDuplicate (addRiskLabel e label) = IsDuplicate e.
Proof. apply addRiskLabel_probe_fields. Qed.

Lemma calculateRisk_IsDuplicate e :
  IsDuplicate (calculateRisk e)
  = IsDuplicate e
    || (bool_decide (100 < HitCount e) && bool_decide (ResponseSize e < 500)).
Proof.
  unfold calculateRisk. cbn beta iota zeta.
  repeat (cbn [HitCount ResponseSize IsDuplicate set_RiskScore set_IsDuplicate];
          rewrite ?addRiskLabel_IsDuplicate; risk_stage);
    cbn [HitCount ResponseSize IsDuplicate set_RiskScore set_IsDuplicate];
    rewrite ?addRiskLabel_IsDuplicate;
    rewrite ?orb_true_r, ?orb_false_r; reflexivity.
Qed.

(** X8. [calculateRisk] sets [IsDuplicate] when the entry has more than
    100 hits and a response size below 500 (an entry never probed has
    size 0) and never clears it; no call of the tracker clears the flag
    of an entry that stays in the table. *)
Theorem duplicate_flag_sticky :
  (∀ e, IsDuplicate (calculateRisk e)
        = IsDuplicate e
          || (bool_decide (100 < HitCount e)
              && bool_decide (ResponseSize e < 500)))
  ∧ (∀ now o dt d e e',
       domains dt !! d = Some e ->
       domains (step now o dt) !! d = Some e' ->
       IsDuplicate e = true -> IsDuplicate e' = true).
Proof.
  split; [apply calculateRisk_IsDuplicate |].
  intros now o dt d e e' He He' Hdup.
  rewrite step_after_op, He in He'. unfold after_op in He'.
  destruct o; repeat case_bool_decide; simpl in He';
    try (injection He' as <-); try discriminate; try exact Hdup.
  - destruct (seen_entry_fields now e) as (_ & _ & _ & _ & _ & _ & -> & _).
    exact Hdup.
  - destruct (forced_entry_fields now e)
      as (_ & _ & _ & _ & _ & _ & _ & -> & _).
    exact Hdup.
  - unfold probed_entry. rewrite calculateRisk_IsDuplicate. simpl.
    by rewrite Hdup.
  - unfold issued_entry. rewrite calculateRisk_IsDuplicate. simpl.
    case_ifs; rewrite ?addRiskLabel_IsDuplicate; simpl; by rewrite Hdup.
  - destruct (bool_decide _); [discriminate | by injection He' as <-].
Qed.

(** *** Forced notification *)

(** X9. [ForceNotifyDomain] counts the sighting (also for a blacklisted
    hostname: the hit is counted under today's date), stamps
    [LastNotified] and [LastSeen] with [now] and saves the table. It
    restarts the cooldown: [ShouldNotifyDomain] answers [false] for the
    hostname during the seven days that follow. *)
Theorem ForceNotifyDomain_restarts_cooldown now domain dt :
  let d := normalize domain in
  let dt' := ForceNotifyDomain now domain dt in
  disk dt' = domains dt'
  ∧ (∃ e',
       domains dt' !! d = Some e'
       ∧ LastNotified e' = now ∧ LastSeen e' = now
       ∧ HitCount e' = incr (GetDomainHitCount domain dt)
       ∧ count_on e' (day_of tz now)
         = incr (match domains dt !! d with
                 | Some e => count_on e (day_of tz now)
                 | None => 0
                 end))
  ∧ (∀ trace now2 domain2,
       normalize domain2 = d ->
       now ≤ now2 < now + 7 * Day ->
       within now now2 (7 * Day) trace ->
       (ShouldNotifyDomain now2 domain2 (run trace dt')).1 = false).
Proof.
  intros d dt'.
  assert (Hentry : ∃ e',
            domains dt' !! d = Some e'
            ∧ LastNotified e' = now ∧ LastSeen e' = now
            ∧ HitCount e' = incr (GetDomainHitCount domain dt)
            ∧ count_on e' (day_of tz now)
              = incr (match domains dt !! d with
                      | Some e => count_on e (day_of tz now)
                      | None => 0
                      end)).
  { pose proof (step_after_op now (OpForceNotifyDomain domain) dt d) as Hstep.
    cbn [step] in Hstep. fold dt' in Hstep. unfold after_op in Hstep.
    rewrite bool_decide_eq_true_2 in Hstep by done.
    unfold GetDomainHitCount. fold d.
    destruct (domains dt !! d) as [e|] eqn:He.
    - eexists. split; [exact Hstep |].
      destruct (forced_entry_fields now e) as (H1 & H2 & H3 & _).
      split_all; auto.
      unfold forced_entry. rewrite updateDailyHits_entry_count.
      rewrite bool_decide_eq_true_2 by done. reflexivity.
    - eexists. split; [exact Hstep |]. simpl. split_all; try reflexivity.
      unfold count_on. simpl. by rewrite lookup_singleton_eq. }
  split; [| split; [exact Hentry |]].
  - unfold dt', ForceNotifyDomain. cbn zeta.
    destruct (domains dt !! normalize domain); reflexivity.
  - intros trace now2 domain2 Hdom [Hle Hlt] Hwin.
    destruct Hentry as (e1 & He1 & Hn1 & Hs1 & _).
    destruct (stamps_survive d now now2 trace dt' Hlt Hwin)
      as (e2 & He2 & Hn2 & Hs2).
    { exists e1. split; [exact He1 | lia]. }
    apply ShouldNotifyDomain_in_cooldown with e2; [by rewrite Hdom | lia].
Qed.

(** *** A resolution record before the first sighting *)

(** X10. [RecordDomainResolution] on an unknown hostname creates an
    entry without counting a hit and without a notification time (it
    sets [Resolved], [FirstSeen] and [LastSeen]) and saves; on a known
    hostname it changes [Resolved] only. The first sighting after such a
    record is still notified: [ShouldNotifyDomain] answers [true], the
    hit count becomes 1 and [FirstSeen] stays the time of the record. *)
Theorem resolution_record_keeps_first_notification now now2 resolved domain dt :
  zero_time + 7 * Day ≤ now2 ->
  let d := normalize domain in
  let dt1 := RecordDomainResolution now domain resolved dt in
  disk dt1 = domains dt1
  ∧ (∀ e, domains dt !! d = Some e ->
          domains dt1 !! d = Some (set_Resolved resolved e))
  ∧ (domains dt !! d = None ->
     domains dt1 !! d = Some (set_Resolved resolved (resolution_entry now d))
     ∧ GetDomainHitCount domain dt1 = 0
     ∧ (ShouldNotifyDomain now2 domain dt1).1 = true
     ∧ GetDomainHitCount domain (ShouldNotifyDomain now2 domain dt1).2 = 1
     ∧ ∃ e2,
         domains (ShouldNotifyDomain now2 domain dt1).2 !! d = Some e2
         ∧ FirstSeen e2 = now ∧ LastNotified e2 = now2).
Proof.
  intros Hnow2 d dt1.
  pose proof (step_after_op now (OpRecordDomainResolution domain resolved)
                dt d) as Hstep.
  cbn [step] in Hstep. fold dt1 in Hstep. unfold after_op in Hstep.
  rewrite bool_decide_eq_true_2 in Hstep by done.
  split; [reflexivity |]. split.
  - intros e He. by rewrite He in Hstep.
  - intros Hnone. rewrite Hnone in Hstep.
    set (e1 := set_Resolved resolved (resolution_entry now d)) in *.
    assert (Hdue : bool_decide (7 * 24 * Hour ≤ Sub now2 (LastNotified e1))
                   && bool_decide
                        (day_of tz now2 ≠ day_of tz (LastNotified e1)) = true).
    { apply due_iff. simpl. split; [lia |].
      intros Hday. symmetry in Hday.
      pose proof (same_day_close zero_time now2 Hday) as Hclose.
      assert (0 < Day) by reflexivity. lia. }
    assert (Hcall : ShouldNotifyDomain now2 domain dt1
                    = (true,
                       updateDailyHits now2 d
                         (set_LastNotified now2
                            (set_LastSeen now2
                               (set_HitCount (incr (HitCount e1)) e1))) dt1)).
    { unfold ShouldNotifyDomain. cbn zeta. fold d. rewrite Hstep.
      change (Blacklisted e1) with false. cbv iota. by rewrite Hdue. }
    split; [exact Hstep |]. split.
    { unfold GetDomainHitCount. fold d. by rewrite Hstep. }
    rewrite Hcall. split; [reflexivity |].
    unfold GetDomainHitCount. fold d. simpl. rewrite lookup_insert_eq.
    match goal with
    | |- context [updateDailyHits_entry ?n ?x] =>
        destruct (updateDailyHits_entry_frame n x)
          as (_ & Hh & Hf & _ & Hl & _)
    end.
    split; [rewrite Hh; reflexivity |].
    eexists. split; [reflexivity |]. rewrite Hf, Hl. split; reflexivity.
Qed.

(** *** When the file equals the table *)

(** X11. Except for the two branches of [ShouldNotifyDomain] that
    return without saving (unknown hostname, blacklisted hostname), every
    call leaves the file equal to the table when it was equal before. *)
Theorem saved_except_two_branches now o dt :
  disk dt = domains dt ->
  (∀ domain, o = OpShouldNotifyDomain domain ->
             ∃ e, domains dt !! normalize domain = Some e
                  ∧ Blacklisted e = false) ->
  disk (step now o dt) = domains (step now o dt).
Proof.
  intros Hsync Hcounted.
  destruct o as [domain|domain resolved|domain|domain sc rs lc wc
                |domain issuer|maxAge];
    try (apply step_persists; [intros ? ?; discriminate | exact Hsync]).
  destruct (Hcounted domain eq_refl) as (e & He & Hb).
  cbn [step]. by apply ShouldNotifyDomain_counted_persists with e.
Qed.

(** *** What it takes to be blacklisted *)

Lemma updateDailyHits_entry_blacklists now x :
  Blacklisted x = false ->
  Blacklisted (updateDailyHits_entry now x) = true ->
  let x' := updateDailyHits_entry now x in
  3 ≤ HighHitDays x' ∧ HighHitDays x' = incr (HighHitDays x)
  ∧ BlacklistedDate x' = now
  ∧ LastHighHitDate x' = Some (day_of tz now)
  ∧ LastHighHitDate x = Some (day_of tz now - 1)
  ∧ 10 < count_on x' (day_of tz now).
Proof.
  intros Hb Hb'. cbn zeta.
  pose proof (updateDailyHits_entry_escalation now x) as H. cbn zeta in H.
  fold (count_on x (day_of tz now)) in H.
  case_bool_decide as Hc.
  - destruct Hc as [Hc Hd]. destruct H as (H1 & H2 & H3 & H4).
    case_bool_decide as Hy.
    + destruct (Z_lt_dec (incr (HighHitDays x)) 3) as [Hlt | Hge].
      { destruct (H4 Hlt). congruence. }
      destruct H3 as [_ H3]; [lia |].
      split_all; auto; try lia.
      rewrite updateDailyHits_entry_count.
      by rewrite bool_decide_eq_true_2.
    + destruct H4 as [H4 _]; [lia |]. congruence.
  - destruct H as (_ & _ & H & _). congruence.
Qed.

Lemma seen_entry_counted now e :
  Blacklisted e = false ->
  ∃ x, seen_entry now e = updateDailyHits_entry now x
       ∧ Blacklisted x = Blacklisted e
       ∧ HighHitDays x = HighHitDays e
       ∧ LastHighHitDate x = LastHighHitDate e
       ∧ DailyHits x = DailyHits e.
Proof.
  intros Hb. unfold seen_entry. rewrite Hb.
  destruct (bool_decide _ && bool_decide _); eexists;
    (split; [reflexivity |]); simpl; auto.
Qed.

Lemma forced_entry_counted now e :
  ∃ x, forced_entry now e = updateDailyHits_entry now x
       ∧ Blacklisted x = Blacklisted e
       ∧ HighHitDays x = HighHitDays e
       ∧ LastHighHitDate x = LastHighHitDate e
       ∧ DailyHits x = DailyHits e.
Proof. eexists. split; [reflexivity |]. simpl. auto. Qed.

(** X12. The tracker blacklists an entry only at a hit counted by
    [updateDailyHits] that takes today's count above 10 on the day after
    the last high-hit day and brings [HighHitDays] to 3 or more;
    [BlacklistedDate] is the time of that hit. No other call sets the
    flag, and an entry is never created blacklisted. *)
Theorem blacklisting_needs_streak now o dt d e' :
  domains (step now o dt) !! d = Some e' ->
  Blacklisted e' = true ->
  match domains dt !! d with
  | None => False
  | Some e =>
      Blacklisted e = true
      ∨ (3 ≤ HighHitDays e' ∧ HighHitDays e' = incr (HighHitDays e)
         ∧ BlacklistedDate e' = now
         ∧ LastHighHitDate e' = Some (day_of tz now)
         ∧ LastHighHitDate e = Some (day_of tz now - 1)
         ∧ 10 < count_on e' (day_of tz now)
         ∧ is_sighting d o = true)
  end.
Proof.
  intros He' Hb'. rewrite step_after_op in He'. unfold after_op in He'.
  destruct (domains dt !! d) as [e|] eqn:He.
  - destruct (Blacklisted e) eqn:Hb; [by left | right].
    destruct o; unfold is_sighting; repeat case_bool_decide; simpl in He';
      try (injection He' as <-); try discriminate; try congruence.
    + destruct (seen_entry_counted now e Hb) as (x & Hx & X1 & X2 & X3 & _).
      rewrite Hx in Hb' |- *. rewrite Hb in X1.
      destruct (updateDailyHits_entry_blacklists now x X1 Hb')
        as (H1 & H2 & H3 & H4 & H5 & H6).
      rewrite X2 in H2. rewrite X3 in H5. split_all; auto.
    + simpl in Hb'. congruence.
    + destruct (forced_entry_counted now e) as (x & Hx & X1 & X2 & X3 & _).
      rewrite Hx in Hb' |- *. rewrite Hb in X1.
      destruct (updateDailyHits_entry_blacklists now x X1 Hb')
        as (H1 & H2 & H3 & H4 & H5 & H6).
      rewrite X2 in H2. rewrite X3 in H5. split_all; auto.
    + unfold probed_entry in Hb'.
      match type of Hb' with
      | context [calculateRisk ?x] =>
          destruct (calculateRisk_same_tracking x)
            as (_ & _ & _ & _ & _ & Hsame & _)
      end. rewrite Hsame in Hb'. simpl in Hb'. congruence.
    + unfold issued_entry in Hb'.
      match type of Hb' with
      | context [calculateRisk ?x] =>
          destruct (calculateRisk_same_tracking x)
            as (_ & _ & _ & _ & _ & Hsame & _)
      end. rewrite Hsame in Hb'. simpl in Hb'.
      destruct (bool_decide _ && bool_decide _); simpl in Hb'; [| congruence].
      destruct (addRiskLabel_same_tracking
                  (set_PreviousIssuer (CertIssuer e) e) "issuer-change")
        as (_ & _ & _ & _ & _ & Hsame' & _).
      rewrite Hsame' in Hb'. simpl in Hb'. congruence.
    + destruct (bool_decide _); [discriminate | injection He' as <-].
      congruence.
  - destruct o; repeat case_bool_decide; simpl in He';
      try (injection He' as <-); try discriminate.
Qed.

(** *** The retention sweep *)

(** X13. [ClearOldEntries] removes exactly the entries last seen more
    than [maxAge] before [now] and returns how many it removed. When it
    removes none the tracker, file included, is left as it was; when it
    removes some it saves. Sweeping again with the same arguments removes
    nothing. *)
Theorem ClearOldEntries_sweep now maxAge dt :
  let r := ClearOldEntries now maxAge dt in
  (r.1 + size (domains r.2) = size (domains dt))%nat
  ∧ (∀ d, domains r.2 !! d
          = e ← domains dt !! d;
            if bool_decide (maxAge < Sub now (LastSeen e))
            then None else Some e)
  ∧ (r.1 = 0%nat -> r.2 = dt)
  ∧ ((0 < r.1)%nat -> disk r.2 = domains r.2)
  ∧ ClearOldEntries now maxAge r.2 = (0%nat, r.2).
Proof.
  intros r.
  split; [| split; [intros d; apply ClearOldEntries_lookup |]].
  - unfold r, ClearOldEntries. cbn zeta.
    set (kept := filter _ (domains dt)).
    assert (Hsz : (size kept ≤ size (domains dt))%nat).
    { apply map_subseteq_size, map_filter_subseteq. }
    assert (Hd : ∀ x y, domains (if bool_decide (0 < size (domains dt)
                                                   - size kept)%nat
                                 then save (mkTracker kept x)
                                 else mkTracker kept y) = kept).
    { intros. by case_bool_decide. }
    simpl. rewrite Hd. lia.
  - unfold r, ClearOldEntries. cbn zeta.
    set (P := fun kv : string * DomainEntry =>
                ¬ maxAge < Sub now (LastSeen kv.2)).
    set (kept := filter P (domains dt)).
    assert (Hsub : (size kept ≤ size (domains dt))%nat).
    { apply map_subseteq_size, map_filter_subseteq. }
    assert (Hkept : filter P kept = kept).
    { apply map_filter_id. intros i x Hx.
      apply map_lookup_filter_Some in Hx. tauto. }
    simpl. split_all.
    + intros Hzero. rewrite bool_decide_eq_false_2 by lia.
      assert (kept = domains dt) as ->.
      { apply map_subseteq_size_eq; [apply map_filter_subseteq | lia]. }
      by destruct dt.
    + intros Hpos. by rewrite bool_decide_eq_true_2.
    + case_bool_decide; simpl; fold P; rewrite Hkept;
        rewrite Nat.sub_diag; reflexivity.
Qed.

(** ** The blacklist rule on the tracker

    [ShouldNotifyDomain] counts a sighting with [updateDailyHits] unless
    the entry is blacklisted. As long as the entry is not blacklisted,
    its escalation state after a list of sightings is the one
    [updateDailyHits] alone computes; once it is blacklisted, sightings
    leave the escalation state as it is. *)

Lemma updateDailyHits_entry_reads_escalation now (x y : DomainEntry) :
  escalation x = escalation y ->
  escalation (updateDailyHits_entry now x)
  = escalation (updateDailyHits_entry now y).
Proof.
  unfold escalation. intros [= Hd Hh Hl Hb Hbd].
  destruct (updateDailyHits_entry_frame now x) as (_ & _ & _ & _ & _ & _ & Dx).
  destruct (updateDailyHits_entry_frame now y) as (_ & _ & _ & _ & _ & _ & Dy).
  pose proof (updateDailyHits_entry_escalation now x) as Ex.
  pose proof (updateDailyHits_entry_escalation now y) as Ey.
  cbn zeta in Ex, Ey. rewrite Dx, Dy.
  rewrite <- Hd, <- Hh, <- Hl, <- Hb, <- Hbd in Ey. rewrite <- Hd.
  destruct (bool_decide (10 < incr (default 0 (DailyHits x !! day_of tz now))
                         ∧ LastHighHitDate x ≠ Some (day_of tz now))).
  - destruct Ex as (X1 & X2 & X3 & X4). destruct Ey as (Y1 & Y2 & Y3 & Y4).
    rewrite X1, X2, Y1, Y2.
    destruct (Z_lt_ge_dec
                (if bool_decide (LastHighHitDate x = Some (day_of tz now - 1))
                 then incr (HighHitDays x) else 1) 3) as [Hlow | Hhigh].
    + destruct (X4 Hlow) as [-> ->]. destruct (Y4 Hlow) as [-> ->].
      reflexivity.
    + destruct (X3 ltac:(lia)) as [-> ->].
      destruct (Y3 ltac:(lia)) as [-> ->]. reflexivity.
  - destruct Ex as (-> & -> & -> & ->). destruct Ey as (-> & -> & -> & ->).
    reflexivity.
Qed.

Lemma seen_entry_escalation now (x : DomainEntry) :
  escalation (seen_entry now x)
  = if Blacklisted x then escalation x
    else escalation (updateDailyHits_entry now x).
Proof.
  unfold seen_entry. destruct (Blacklisted x) eqn:Hb.
  - unfold escalation. cbn. by rewrite Hb.
  - destruct (bool_decide _ && bool_decide _);
      by apply updateDailyHits_entry_reads_escalation.
Qed.

Lemma run_app a b dt : run (a ++ b) dt = run b (run a dt).
Proof.
  revert dt. induction a as [|[now o] a IH]; intros dt; [reflexivity |].
  cbn [app]. apply IH.
Qed.

Lemma sighting_entry now domain dt (x : DomainEntry) :
  domains dt !! normalize domain = Some x ->
  domains (step now (OpShouldNotifyDomain domain) dt) !! normalize domain
  = Some (seen_entry now x).
Proof.
  intros Hx. rewrite step_after_op. cbn [after_op].
  rewrite bool_decide_eq_true_2 by done. by rewrite Hx.
Qed.

(** The tracker follows [hits] until the entry is blacklisted. *)
Lemma sightings_follow_hits domain times : ∀ dt (x y : DomainEntry),
  domains dt !! normalize domain = Some x ->
  (Blacklisted x = false -> escalation x = escalation y) ->
  (Blacklisted x = true -> Blacklisted y = true) ->
  ∃ x',
    domains (run (map (fun t => (t, OpShouldNotifyDomain domain)) times) dt)
      !! normalize domain = Some x'
    ∧ (Blacklisted x' = false -> escalation x' = escalation (hits times y))
    ∧ (Blacklisted x' = true -> Blacklisted (hits times y) = true).
Proof.
  induction times as [|t times IH]; intros dt x y Hx Hsame Hblack.
  - exists x. auto.
  - cbn [map]. rewrite hits_cons.
    change (run ((t, OpShouldNotifyDomain domain)
                 :: map (fun t => (t, OpShouldNotifyDomain domain)) times) dt)
      with (run (map (fun t => (t, OpShouldNotifyDomain domain)) times)
              (step t (OpShouldNotifyDomain domain) dt)).
    apply (IH _ (seen_entry t x)); [by apply sighting_entry | |].
    + intros Hb'. pose proof (seen_entry_escalation t x) as Hesc.
      destruct (Blacklisted x) eqn:Hb.
      * apply (f_equal (fun v => v.1.2)) in Hesc. cbn in Hesc. congruence.
      * rewrite Hesc. by apply updateDailyHits_entry_reads_escalation, Hsame.
    + intros Hb'. pose proof (seen_entry_escalation t x) as Hesc.
      destruct (Blacklisted x) eqn:Hb.
      * by apply updateDailyHits_entry_Blacklisted, Hblack.
      * rewrite (updateDailyHits_entry_reads_escalation t x y (Hsame eq_refl))
          in Hesc.
        apply (f_equal (fun v => v.1.2)) in Hesc. cbn in Hesc. congruence.
Qed.

(** Sightings of a blacklisted hostname leave the escalation state. *)
Lemma blacklisted_sightings domain times : ∀ dt (x : DomainEntry),
  domains dt !! normalize domain = Some x ->
  Blacklisted x = true ->
  ∃ x',
    domains (run (map (fun t => (t, OpShouldNotifyDomain domain)) times) dt)
      !! normalize domain = Some x'
    ∧ escalation x' = escalation x.
Proof.
  induction times as [|t times IH]; intros dt x Hx Hb; [eauto |].
  cbn [map].
  change (run ((t, OpShouldNotifyDomain domain)
               :: map (fun t => (t, OpShouldNotifyDomain domain)) times) dt)
    with (run (map (fun t => (t, OpShouldNotifyDomain domain)) times)
            (step t (OpShouldNotifyDomain domain) dt)).
  pose proof (seen_entry_escalation t x) as Hesc. rewrite Hb in Hesc.
  destruct (IH (step t (OpShouldNotifyDomain domain) dt) (seen_entry t x))
    as (x' & Hx' & Hsame);
    [by apply sighting_entry
    | apply (f_equal (fun v => v.1.2)) in Hesc; cbn in Hesc; congruence |].
  exists x'. split; [exact Hx' | congruence].
Qed.

Lemma escalation_fields (x y : DomainEntry) :
  escalation x = escalation y ->
  DailyHits x = DailyHits y ∧ HighHitDays x = HighHitDays y
  ∧ LastHighHitDate x = LastHighHitDate y ∧ Blacklisted x = Blacklisted y
  ∧ BlacklistedDate x = BlacklistedDate y.
Proof. unfold escalation. intros [= -> -> -> -> ->]. auto. Qed.


End TrackerFacts.

(** * Properties of the batcher *)

Section NotifierFacts.
Import Notifier.
Implicit Type n : notificationBuffer.

(** What is buffered for a target, as [n.pending[target]] reads. *)
Lemma add_below target domain n :
  (length (default [] (pending n !! target)) + 1 < maxBatchSize)%nat ->
  pending (add target domain n) !! target
  = Some (default [] (pending n !! target) ++ [domain])
  ∧ sent (add target domain n) = sent n.
Proof.
  intros Hlen. unfold add. cbn zeta.
  rewrite bool_decide_eq_false_2.
  - destruct (timers n !! target); simpl; by rewrite lookup_insert_eq.
  - rewrite length_app. simpl. lia.
Qed.

Lemma add_all_below target items : ∀ n,
  (length (default [] (pending n !! target)) + length items < maxBatchSize)%nat ->
  default [] (pending (add_all target items n) !! target)
  = default [] (pending n !! target) ++ items
  ∧ sent (add_all target items n) = sent n.
Proof.
  induction items as [|x items IH]; intros n Hlen.
  - simpl. by rewrite app_nil_r.
  - simpl in *. destruct (add_below target x n) as [Hp Hs]; [lia |].
    destruct (IH (add target x n)) as [Hp' Hs'].
    { rewrite Hp. simpl. rewrite length_app. simpl. lia. }
    unfold add_all in *. rewrite Hp', Hs', Hp. simpl.
    by rewrite <- app_assoc.
Qed.

(** C7 (the code departs from the claim). When an [add] brings the
    buffer of a target to [maxBatchSize] (25) items, the whole buffer,
    in the order of the adds, is handed to a new goroutine
    ([go n.send]) before [add] returns; afterwards the target has no
    pending buffer and no timer on record. Of the armed timers exactly
    the one on record for the target is stopped, where the claim has
    every armed flush timer of the target cancelled: a timer of the
    target whose record a late [flush] has deleted stays armed and
    fires later. Other targets are untouched. In particular 25 adds to
    a target without buffer hand over exactly these 25 items, in
    order. *)
Theorem add_flushes_full_batch target domain n :
  S (length (default [] (pending n !! target))) = maxBatchSize ->
  let full := default [] (pending n !! target) ++ [domain] in
  let n' := add target domain n in
  sent n' = sent n ++ [mkDispatch Go target full]
  ∧ length full = maxBatchSize
  ∧ pending n' !! target = None
  ∧ timers n' !! target = None
  ∧ (∀ timer, timers n !! target = Some timer -> timer ∉ armed n')
  ∧ armed n' = match timers n !! target with
               | Some timer => armed n ∖ {[timer]}
               | None => armed n
               end
  ∧ (∀ other, other ≠ target ->
       pending n' !! other = pending n !! other
       ∧ timers n' !! other = timers n !! other)
  ∧ (∀ items m,
       pending m !! target = None -> length items = maxBatchSize ->
       sent (add_all target items m) = sent m ++ [mkDispatch Go target items]
       ∧ pending (add_all target items m) !! target = None
       ∧ timers (add_all target items m) !! target = None).
Proof.
  assert (Hstep : ∀ x m,
            S (length (default [] (pending m !! target))) = maxBatchSize ->
            sent (add target x m)
            = sent m ++ [mkDispatch Go target
                           (default [] (pending m !! target) ++ [x])]
            ∧ pending (add target x m) !! target = None
            ∧ timers (add target x m) !! target = None
            ∧ (∀ timer, timers m !! target = Some timer ->
                 timer ∉ armed (add target x m))
            ∧ armed (add target x m)
              = match timers m !! target with
                | Some timer => armed m ∖ {[timer]}
                | None => armed m
                end
            ∧ (∀ other, other ≠ target ->
                 pending (add target x m) !! other = pending m !! other
                 ∧ timers (add target x m) !! other = timers m !! other)).
  { intros x m Hlen. unfold add. cbn zeta.
    rewrite bool_decide_eq_true_2 by (rewrite length_app; simpl; lia).
    destruct (timers m !! target) as [timer|] eqn:Ht; simpl.
    - split_all; auto.
      + apply lookup_delete_eq.
      + apply lookup_delete_eq.
      + intros ? [= <-]. apply not_elem_of_difference. right.
        by apply elem_of_singleton.
      + intros other Hne.
        rewrite !lookup_delete_ne, lookup_insert_ne by done. done.
    - split_all; auto.
      + apply lookup_delete_eq.
      + intros ? [=].
      + intros other Hne.
        rewrite lookup_delete_ne, lookup_insert_ne by done. done. }
  intros Hlen full n'.
  destruct (Hstep domain n Hlen) as (S1 & S2 & S3 & S4 & S5 & S6).
  split_all; auto.
  - unfold full. rewrite length_app. simpl. lia.
  - intros items m Hnone Hitems.
    destruct (drop 24 items) as [|x rest] eqn:Hdrop.
    { apply (f_equal length) in Hdrop. rewrite length_drop, Hitems in Hdrop.
      simpl in Hdrop. unfold maxBatchSize in Hdrop. lia. }
    assert (Hrest : rest = []).
    { apply (f_equal length) in Hdrop. rewrite length_drop, Hitems in Hdrop.
      simpl in Hdrop. unfold maxBatchSize in Hdrop.
      destruct rest; [done | simpl in Hdrop; lia]. }
    subst rest.
    assert (Hsplit : items = take 24 items ++ [x]).
    { rewrite <- (take_drop 24 items) at 1. by rewrite Hdrop. }
    destruct (add_all_below target (take 24 items) m) as [Hp Hs].
    { rewrite Hnone. simpl. rewrite length_take, Hitems.
      unfold maxBatchSize. lia. }
    rewrite Hnone in Hp. simpl in Hp.
    assert (Hall : add_all target items m
                   = add target x (add_all target (take 24 items) m)).
    { rewrite Hsplit at 1. unfold add_all. by rewrite foldl_app. }
    destruct (Hstep x (add_all target (take 24 items) m))
      as (T1 & T2 & T3 & _).
    { rewrite Hp, length_take, Hitems. reflexivity. }
    rewrite Hall, T1, Hs, Hp, <- Hsplit. auto.
Qed.

End NotifierFacts.

(** * Further properties of the batcher *)

Section NotifierRuns.
Import Notifier.
Implicit Type n : notificationBuffer.

Lemma handed_over_snoc target n d :
  concat (omap (fun d => if bool_decide (to_target d = target)
                         then Some (batch d) else None) (sent n ++ [d]))
  = handed_over target n
    ++ (if bool_decide (to_target d = target) then batch d else []).
Proof.
  unfold handed_over. rewrite omap_app, concat_app. simpl.
  case_bool_decide; simpl; by rewrite ?app_nil_r.
Qed.

Lemma flush_conserves target t n :
  handed_over t (flush target n) ++ buffered t (flush target n)
  = handed_over t n ++ buffered t n.
Proof.
  unfold flush, buffered.
  destruct (pending n !! target) as [[|x buf]|] eqn:Hp; try reflexivity.
  unfold handed_over at 1. simpl sent. rewrite handed_over_snoc. simpl.
  destruct (decide (target = t)) as [->|Hne].
  - rewrite bool_decide_eq_true_2 by done.
    rewrite lookup_delete_eq, Hp. simpl. by rewrite app_nil_r.
  - rewrite bool_decide_eq_false_2 by done.
    rewrite lookup_delete_ne by done. by rewrite app_nil_r.
Qed.

Lemma add_conserves target domain t n :
  handed_over t (add target domain n) ++ buffered t (add target domain n)
  = handed_over t n ++ buffered t n
    ++ (if bool_decide (target = t) then [domain] else []).
Proof.
  unfold add, buffered. cbn zeta.
  case_bool_decide as Hfull.
  - assert (Hsent : ∀ x y z w,
              handed_over t
                (mkBuffer x y z w
                   (sent n ++ [mkDispatch Go target
                                 (default [] (pending n !! target) ++ [domain])]))
              = handed_over t n
                ++ (if bool_decide (target = t)
                    then default [] (pending n !! target) ++ [domain]
                    else [])).
    { intros. unfold handed_over at 1. simpl sent.
      by rewrite handed_over_snoc. }
    destruct (timers n !! target); rewrite Hsent; simpl;
      (case_bool_decide as Ht;
       [ subst t; rewrite lookup_delete_eq; simpl;
         by rewrite app_nil_r
       | rewrite lookup_delete_ne, lookup_insert_ne by done;
         by rewrite !app_nil_r ]).
  - destruct (timers n !! target); simpl;
      (case_bool_decide as Ht;
       [ subst t; by rewrite lookup_insert_eq
       | rewrite lookup_insert_ne by done; by rewrite app_nil_r ]).
Qed.

Lemma apply_event_conserves ev t n :
  handed_over t (apply_event n ev) ++ buffered t (apply_event n ev)
  = handed_over t n ++ buffered t n ++ added t [ev].
Proof.
  destruct ev as [target domain | target timer]; simpl.
  - rewrite add_conserves. by case_bool_decide.
  - unfold fire. rewrite flush_conserves. by rewrite app_nil_r.
Qed.

(** X14. Whatever the order of adds and timer firings, no discovery is
    lost, duplicated or reordered: for every target, the batches handed
    over so far, one after the other, followed by what is still
    buffered, are the discoveries added for the target, in the order
    they were added. *)
Theorem batcher_conserves_items evs target :
  handed_over target (run evs empty_buffer)
  ++ buffered target (run evs empty_buffer)
  = added target evs.
Proof.
  assert (Hgen : ∀ n,
            handed_over target (run evs n) ++ buffered target (run evs n)
            = handed_over target n ++ buffered target n ++ added target evs).
  { induction evs as [|ev evs IH]; intros n.
    - simpl. by rewrite app_nil_r.
    - change (run (ev :: evs) n) with (run evs (apply_event n ev)).
      rewrite IH, app_assoc, apply_event_conserves.
      assert (Hcons : added target (ev :: evs)
                      = added target [ev] ++ added target evs).
      { change (ev :: evs) with ([ev] ++ evs). unfold added.
        by rewrite omap_app. }
      rewrite Hcons. by rewrite <- !app_assoc. }
  rewrite Hgen. reflexivity.
Qed.

Lemma well_formed_empty : well_formed empty_buffer.
Proof.
  unfold well_formed. simpl. split_all.
  - intros t. rewrite !lookup_empty. done.
  - intros t buf. by rewrite lookup_empty.
  - intros d Hd. by apply elem_of_nil in Hd.
Qed.

Lemma well_formed_flush target n : well_formed n -> well_formed (flush target n).
Proof.
  intros (Hdom & Hbuf & Hsent). unfold flush.
  destruct (pending n !! target) as [[|x buf]|] eqn:Hp;
    [done | | done].
  unfold well_formed. simpl. split_all.
  - intros t. destruct (decide (target = t)) as [->|Hne].
    + rewrite !lookup_delete_eq. split; intros [? [=]].
    + rewrite !lookup_delete_ne by done. apply Hdom.
  - intros t b Hb. destruct (decide (target = t)) as [->|Hne].
    + by rewrite lookup_delete_eq in Hb.
    + rewrite lookup_delete_ne in Hb by done. by eapply Hbuf.
  - intros d Hd. apply elem_of_app in Hd as [Hd | Hd]; [by apply Hsent |].
    apply list_elem_of_singleton in Hd as ->. simpl.
    specialize (Hbuf target _ Hp). simpl in Hbuf. lia.
Qed.

Lemma well_formed_add target domain n :
  well_formed n -> well_formed (add target domain n).
Proof.
  intros (Hdom & Hbuf & Hsent). unfold add. cbn zeta.
  assert (Hlen : (length (default [] (pending n !! target)) < maxBatchSize)%nat).
  { destruct (pending n !! target) as [b|] eqn:Hb; simpl.
    - by destruct (Hbuf target b Hb).
    - unfold maxBatchSize. lia. }
  case_bool_decide as Hfull.
  - rewrite length_app in Hfull. simpl in Hfull.
    assert (Hsent' : ∀ d,
              d ∈ sent n ++ [mkDispatch Go target
                               (default [] (pending n !! target) ++ [domain])] ->
              match how d with
              | Go => length (batch d) = maxBatchSize
              | Call => (0 < length (batch d) < maxBatchSize)%nat
              end).
    { intros d Hd. apply elem_of_app in Hd as [Hd | Hd]; [by apply Hsent |].
      apply list_elem_of_singleton in Hd as ->. simpl.
      rewrite length_app. simpl. lia. }
    destruct (timers n !! target) as [timer|] eqn:Ht;
      unfold well_formed; simpl; split_all; try exact Hsent'.
    + intros t. destruct (decide (target = t)) as [->|Hne].
      * rewrite !lookup_delete_eq. split; intros [? [=]].
      * rewrite !lookup_delete_ne, lookup_insert_ne by done. apply Hdom.
    + intros t b Hb. destruct (decide (target = t)) as [->|Hne].
      * by rewrite lookup_delete_eq in Hb.
      * rewrite lookup_delete_ne, lookup_insert_ne in Hb by done.
        by eapply Hbuf.
    + intros t. destruct (decide (target = t)) as [->|Hne].
      * rewrite lookup_delete_eq, Ht. split; intros [? [=]].
      * rewrite lookup_delete_ne, lookup_insert_ne by done. apply Hdom.
    + intros t b Hb. destruct (decide (target = t)) as [->|Hne].
      * by rewrite lookup_delete_eq in Hb.
      * rewrite lookup_delete_ne, lookup_insert_ne in Hb by done.
        by eapply Hbuf.
  - rewrite length_app in Hfull. simpl in Hfull.
    destruct (timers n !! target) as [timer|] eqn:Ht;
      unfold well_formed; simpl; split_all; try exact Hsent.
    + intros t. destruct (decide (target = t)) as [->|Hne].
      * rewrite lookup_insert_eq, Ht. split; eauto.
      * rewrite lookup_insert_ne by done. apply Hdom.
    + intros t b Hb. destruct (decide (target = t)) as [->|Hne].
      * rewrite lookup_insert_eq in Hb. injection Hb as <-.
        rewrite length_app. simpl. lia.
      * rewrite lookup_insert_ne in Hb by done. by eapply Hbuf.
    + intros t. destruct (decide (target = t)) as [->|Hne].
      * rewrite !lookup_insert_eq. split; eauto.
      * rewrite !lookup_insert_ne by done. apply Hdom.
    + intros t b Hb. destruct (decide (target = t)) as [->|Hne].
      * rewrite lookup_insert_eq in Hb. injection Hb as <-.
        rewrite length_app. simpl. lia.
      * rewrite lookup_insert_ne in Hb by done. by eapply Hbuf.
Qed.

(** X15. In every state the batcher reaches from the empty one, a
    target has a pending buffer exactly when it has a timer on record, a
    pending buffer holds between 1 and 24 discoveries, every batch
    launched by [add] holds exactly 25 and every batch handed over by
    [flush] between 1 and 24: no empty batch is ever dispatched. *)
Theorem batcher_well_formed evs : well_formed (run evs empty_buffer).
Proof.
  assert (Hgen : ∀ n, well_formed n -> well_formed (run evs n)).
  { induction evs as [|ev evs IH]; intros n Hn; [exact Hn |].
    change (run (ev :: evs) n) with (run evs (apply_event n ev)).
    apply IH. destruct ev as [target domain | target timer]; simpl.
    - by apply well_formed_add.
    - unfold fire. apply well_formed_flush.
      destruct Hn as (H1 & H2 & H3). unfold well_formed. simpl. auto. }
  apply Hgen, well_formed_empty.
Qed.

End NotifierRuns.

(** * Properties of the delivery to the sinks *)

Section SinkFacts.
Import Sink.
Context {body : Type}.
Variable ok : Z -> bool.
Variable url : string.
Variable success : list (event body).
Variable respond : nat -> response.
Variable data : body.
Hypothesis ok_not_429 : ok StatusTooManyRequests = false.
Hypothesis success_no_post : posts success = [].

Lemma rounds_S from k :
  rounds url data from (S k)
  = Post url data :: Sleep (rateLimitWait * (Z.of_nat from + 1))
      :: rounds url data (S from) k.
Proof. reflexivity. Qed.

Lemma posts_rounds from k :
  posts (rounds url data from k) = replicate k (Post url data).
Proof.
  revert from. induction k as [|k IH]; intros from; [reflexivity |].
  rewrite rounds_S. simpl. by rewrite <- (IH (S from)).
Qed.

(** After [k] answers 429 the loop stands at attempt [attempt + k], with
    [k] rounds behind it. *)
Lemma retryLoop_skip k : ∀ remaining attempt,
  (k ≤ remaining)%nat ->
  (∀ j, (j < k)%nat -> respond (attempt + j) = Status StatusTooManyRequests) ->
  retryLoop ok url success respond data remaining attempt
  = (rounds url data attempt k
       ++ (retryLoop ok url success respond data
             (remaining - k) (attempt + k)).1,
     (retryLoop ok url success respond data (remaining - k) (attempt + k)).2).
Proof.
  induction k as [|k IH]; intros remaining attempt Hle Hresp.
  - rewrite Nat.sub_0_r, Nat.add_0_r. simpl. by destruct (retryLoop _ _ _ _ _ _ _).
  - destruct remaining as [|remaining]; [lia |].
    assert (H0 : respond attempt = Status StatusTooManyRequests).
    { rewrite <- (Nat.add_0_r attempt). apply Hresp. lia. }
    cbn [retryLoop]. rewrite H0, ok_not_429.
    rewrite bool_decide_eq_true_2 by done.
    rewrite (IH remaining (S attempt)); [| lia |].
    + rewrite rounds_S. cbn [Nat.sub].
      replace (S attempt + k)%nat with (attempt + S k)%nat by lia.
      reflexivity.
    + intros j Hj. replace (S attempt + j)%nat with (attempt + S j)%nat by lia.
      apply Hresp. lia.
Qed.

Lemma retryLoop_posts remaining : ∀ attempt,
  (length (posts (retryLoop ok url success respond data remaining attempt).1)
   ≤ remaining)%nat
  ∧ ∀ e, e ∈ posts (retryLoop ok url success respond data remaining attempt).1
         -> e = Post url data.
Proof.
  induction remaining as [|remaining IH]; intros attempt.
  - simpl. split; [lia |]. intros e He. by apply elem_of_nil in He.
  - cbn [retryLoop]. destruct (respond attempt) as [|code].
    + simpl. split; [lia |]. intros e He.
      by apply list_elem_of_singleton in He.
    + destruct (ok code).
      * simpl. fold (posts success). rewrite success_no_post. simpl.
        split; [lia |]. intros e He. by apply list_elem_of_singleton in He.
      * case_bool_decide.
        -- destruct (IH (S attempt)) as [Hlen Hall].
           destruct (retryLoop _ _ _ _ _ remaining (S attempt)) as [evs out].
           simpl in *. split; [lia |]. intros e He.
           apply elem_of_cons in He as [-> | He]; [done | by apply Hall].
        -- simpl. split; [lia |]. intros e He.
           by apply list_elem_of_singleton in He.
Qed.

Lemma retryLoop_contract :
  retry_contract ok url data success respond
    (retryLoop ok url success respond data maxRetries 0).
Proof.
  unfold retry_contract. split_all.
  - apply retryLoop_posts.
  - apply retryLoop_posts.
  - intros k Hk H429.
    rewrite (retryLoop_skip k maxRetries 0%nat) by (simpl; auto with lia).
    destruct (maxRetries - k)%nat as [|m] eqn:Hm; [lia |].
    cbn [retryLoop]. simpl (0 + k)%nat.
    destruct (respond k) as [|code]; [reflexivity |].
    destruct (ok code); [reflexivity |].
    case_bool_decide; [| reflexivity].
    destruct (retryLoop _ _ _ _ _ m (S k)) as [evs out]. simpl. eauto.
  - intros H429.
    rewrite (retryLoop_skip maxRetries maxRetries 0%nat) by (simpl; auto with lia).
    rewrite Nat.sub_diag. cbn [retryLoop fst snd]. by rewrite app_nil_r.
Qed.

End SinkFacts.

Lemma discordLoop_retryLoop {body : Type} (cfg : Sink.config) respond
  (data : body) target domains remaining : ∀ attempt,
  Sink.discordLoop cfg respond data target domains remaining attempt
  = Sink.retryLoop Sink.discord_ok (Sink.webhookURL cfg)
      (Sink.after_discord_success cfg target domains) respond data
      remaining attempt.
Proof.
  induction remaining as [|remaining IH]; intros attempt; [reflexivity |].
  simpl. rewrite IH. reflexivity.
Qed.

Lemma telegramLoop_retryLoop {body : Type} (cfg : Sink.config) respond
  (data : body) remaining : ∀ attempt,
  Sink.telegramLoop cfg respond data remaining attempt
  = Sink.retryLoop Sink.telegram_ok (Sink.telegramURL cfg) [] respond data
      remaining attempt.
Proof.
  induction remaining as [|remaining IH]; intros attempt; [reflexivity |].
  simpl. rewrite IH. reflexivity.
Qed.

Lemma posts_after_discord_success {body : Type} cfg target domains :
  Sink.posts (Sink.after_discord_success (body := body) cfg target domains) = [].
Proof.
  unfold Sink.after_discord_success, Sink.posts.
  rewrite List.filter_app.
  assert (H1 : ∀ l : list string,
             List.filter Sink.is_post (map (Sink.NewDomainWebhook (body := body)) l)
             = []).
  { induction l; simpl; auto. }
  assert (H2 : ∀ l : list string,
             List.filter Sink.is_post
               (map (fun domain => Sink.GoEnumerate (body := body) domain target) l)
             = []).
  { induction l; simpl; auto. }
  destruct (Sink.newDomainsWebhook cfg), (Sink.enumEnabled cfg);
    rewrite ?H1, ?H2; reflexivity.
Qed.

(** C8. A batch goes to a sink in at most three requests, all with the
    body marshalled before the loop. An answer 429 to attempt number [k]
    (counted from 1) is followed by a sleep of [rateLimitWait * k] and,
    while the budget lasts, by the next request; any other status that
    is not a success, and a transport error, end the delivery at once;
    after three answers 429 the delivery is given up. This holds for
    [sendDiscord], where 200 and 204 are successes, and for
    [sendToTelegram], where 200 is; without a body, or without Telegram
    credentials, nothing is sent. *)
Theorem delivery_retry_contract {body : Type} (cfg : Sink.config)
  (discord telegram : nat -> Sink.response) (data : body)
  (target : string) (domains : list string) :
  Sink.telegramToken cfg ≠ "" -> Sink.telegramChatID cfg ≠ "" ->
  Sink.retry_contract Sink.discord_ok (Sink.webhookURL cfg) data
    (Sink.after_discord_success cfg target domains) discord
    (Sink.sendDiscord cfg discord (Some data) target domains)
  ∧ Sink.retry_contract Sink.telegram_ok (Sink.telegramURL cfg) data []
      telegram (Sink.sendToTelegram cfg telegram (Some data))
  ∧ Sink.sendDiscord cfg discord (@None body) target domains
    = ([], Sink.NotAttempted)
  ∧ Sink.sendToTelegram cfg telegram (@None body) = ([], Sink.NotAttempted).
Proof.
  intros Htoken Hchat. split_all.
  - unfold Sink.sendDiscord. rewrite discordLoop_retryLoop.
    apply retryLoop_contract; [reflexivity |].
    apply posts_after_discord_success.
  - unfold Sink.sendToTelegram.
    rewrite !bool_decide_eq_false_2 by done. simpl orb. cbv iota.
    rewrite telegramLoop_retryLoop.
    apply retryLoop_contract; reflexivity.
  - reflexivity.
  - unfold Sink.sendToTelegram.
    by destruct (bool_decide _ || bool_decide _).
Qed.

(** * Further properties of the delivery *)

Section SinkBounds.
Import Sink.
Context {body : Type}.
Variable ok : Z -> bool.
Variable url : string.
Variable success : list (event body).
Variable respond : nat -> response.
Variable data : body.
Hypothesis success_no_sleep : total_sleep success = 0.

Lemma total_sleep_app (a b : list (event body)) :
  total_sleep (a ++ b) = total_sleep a + total_sleep b.
Proof.
  induction a as [|e a IH]; simpl; [lia |]. unfold total_sleep in *.
  simpl. rewrite IH. lia.
Qed.

(** The sleeps of the rest of the loop are bounded by the waits of the
    attempts that remain. *)
Lemma retryLoop_sleep remaining : ∀ attempt,
  0 ≤ total_sleep (retryLoop ok url success respond data remaining attempt).1
  ∧ 2 * total_sleep
          (retryLoop ok url success respond data remaining attempt).1
    ≤ rateLimitWait * Z.of_nat remaining
      * (2 * Z.of_nat attempt + Z.of_nat remaining + 1).
Proof.
  assert (Hw : 0 < rateLimitWait) by reflexivity.
  induction remaining as [|remaining IH]; intros attempt.
  - simpl. lia.
  - cbn [retryLoop]. destruct (respond attempt) as [|code].
    + simpl. nia.
    + destruct (ok code).
      * simpl. change (foldr _ 0 success) with (total_sleep success).
        rewrite success_no_sleep. nia.
      * case_bool_decide.
        -- specialize (IH (S attempt)).
           destruct (retryLoop _ _ _ _ _ remaining (S attempt)) as [evs out].
           simpl in *. change (foldr _ 0 evs) with (total_sleep evs).
           nia.
        -- simpl. nia.
Qed.

End SinkBounds.

Lemma total_sleep_after_discord_success {body : Type} cfg target domains :
  Sink.total_sleep
    (Sink.after_discord_success (body := body) cfg target domains) = 0.
Proof.
  unfold Sink.after_discord_success.
  assert (H1 : ∀ l : list string,
             Sink.total_sleep
               (map (Sink.NewDomainWebhook (body := body)) l) = 0).
  { induction l; simpl; auto. }
  assert (H2 : ∀ l : list string,
             Sink.total_sleep
               (map (fun d => Sink.GoEnumerate (body := body) d target) l) = 0).
  { induction l; simpl; auto. }
  rewrite total_sleep_app.
  destruct (Sink.newDomainsWebhook cfg), (Sink.enumEnabled cfg);
    rewrite ?H1, ?H2; reflexivity.
Qed.


Lemma enumerations_app {body : Type} (a b : list (Sink.event body)) :
  Sink.enumerations (a ++ b) = (Sink.enumerations a + Sink.enumerations b)%nat.
Proof.
  unfold Sink.enumerations. by rewrite List.filter_app, length_app.
Qed.

Lemma retryLoop_enumerations {body : Type} ok url
  (success : list (Sink.event body)) respond data remaining : ∀ attempt,
  Sink.enumerations
    (Sink.retryLoop ok url success respond data remaining attempt).1
  = if Sink.is_delivered
         (Sink.retryLoop ok url success respond data remaining attempt).2
    then Sink.enumerations success else 0%nat.
Proof.
  induction remaining as [|remaining IH]; intros attempt; [reflexivity |].
  cbn [Sink.retryLoop]. destruct (respond attempt) as [|code]; [reflexivity |].
  destruct (ok code); [reflexivity |].
  case_bool_decide; [| reflexivity].
  specialize (IH (S attempt)).
  destruct (Sink.retryLoop _ _ _ _ _ remaining (S attempt)) as [evs out].
  simpl in *. exact IH.
Qed.

Lemma enumerations_map_GoEnumerate {body : Type} target (l : list string) :
  Sink.enumerations
    (map (fun d => Sink.GoEnumerate (body := body) d target) l) = length l.
Proof.
  induction l as [|x l IHl]; [reflexivity |].
  unfold Sink.enumerations in *. simpl. by rewrite IHl.
Qed.

Lemma enumerations_after_discord_success {body : Type} cfg target domains :
  Sink.enumerations
    (Sink.after_discord_success (body := body) cfg target domains)
  = if Sink.enumEnabled cfg then length domains else 0%nat.
Proof.
  unfold Sink.after_discord_success. rewrite enumerations_app.
  assert (H1 : ∀ l : list string,
             Sink.enumerations
               (map (Sink.NewDomainWebhook (body := body)) l) = 0%nat).
  { induction l; simpl; auto. }
  assert (H2 : ∀ l : list string,
             Sink.enumerations
               (map (fun d => Sink.GoEnumerate (body := body) d target) l)
             = length l).
  { induction l as [|x l IHl]; [reflexivity |].
    unfold Sink.enumerations in *. simpl. by rewrite IHl. }
  destruct (Sink.newDomainsWebhook cfg), (Sink.enumEnabled cfg);
    rewrite ?H1, ?H2; reflexivity.
Qed.

(** X17. With enumeration enabled, [n.send] starts one enumeration per
    hostname of the batch after the sinks were tried, whatever they
    answered, and [sendDiscord] starts one more per hostname when it
    delivers: a batch delivered to Discord is enumerated twice. With
    enumeration disabled none is started. *)
Theorem send_enumerations {body : Type} (cfg : Sink.config)
  (discord telegram : nat -> Sink.response)
  (discordData telegramData : option body)
  (target : string) (domains : list string) :
  Sink.enumerations
    (Sink.send cfg discord telegram discordData telegramData target domains)
  = if Sink.enumEnabled cfg then
      if Sink.notifyDiscord cfg
         && negb (bool_decide (Sink.webhookURL cfg = ""))
         && Sink.is_delivered
              (Sink.sendDiscord cfg discord discordData target domains).2
      then (2 * length domains)%nat
      else length domains
    else 0%nat.
Proof.
  unfold Sink.send. rewrite !enumerations_app.
  assert (HT : Sink.enumerations
                 (if Sink.notifyTelegram cfg
                  then (Sink.sendToTelegram cfg telegram telegramData).1
                  else []) = 0%nat).
  { destruct (Sink.notifyTelegram cfg); [| reflexivity].
    unfold Sink.sendToTelegram.
    destruct (bool_decide _ || bool_decide _); [reflexivity |].
    destruct telegramData; [| reflexivity].
    rewrite telegramLoop_retryLoop, retryLoop_enumerations.
    by destruct (Sink.is_delivered _). }
  assert (HD : Sink.enumerations
                 (Sink.sendDiscord cfg discord discordData target domains).1
               = if Sink.is_delivered
                      (Sink.sendDiscord cfg discord discordData target
                         domains).2
                 then (if Sink.enumEnabled cfg then length domains else 0%nat)
                 else 0%nat).
  { unfold Sink.sendDiscord. destruct discordData; [| reflexivity].
    rewrite discordLoop_retryLoop, retryLoop_enumerations.
    by rewrite enumerations_after_discord_success. }
  assert (HE : Sink.enumerations
                 (if Sink.enumEnabled cfg
                  then map (fun domain =>
                              Sink.GoEnumerate (body := body) domain target)
                           domains
                  else [])
               = if Sink.enumEnabled cfg then length domains else 0%nat).
  { destruct (Sink.enumEnabled cfg); [| reflexivity].
    apply enumerations_map_GoEnumerate. }
  rewrite HT, HE.
  destruct (Sink.notifyDiscord cfg
            && negb (bool_decide (Sink.webhookURL cfg = ""))); simpl.
  - rewrite HD.
    destruct (Sink.is_delivered _), (Sink.enumEnabled cfg); simpl; lia.
  - destruct (Sink.enumEnabled cfg); reflexivity.
Qed.

(** * What the getters' copies share with the tracker *)

Section AliasingFacts.
Import Aliasing.
Variable ToLower : string -> string.

Lemma slice_store {A : Type} (arrays : gmap loc (list A)) arr off len cap i x :
  (i < len)%nat ->
  slice_elems
    (<[arr := <[(off + i)%nat := x]> (default [] (arrays !! arr))]> arrays)
    (Slice arr off len cap)
  = <[i := x]> (slice_elems arrays (Slice arr off len cap)).
Proof.
  intros Hi. unfold slice_elems. rewrite lookup_insert_eq. simpl.
  rewrite drop_insert_ge by lia. rewrite take_insert_lt by lia.
  by replace (off + i - off)%nat with i by lia.
Qed.

(** C9 (the code departs from the claim). [GetDomainInfo] returns a
    pointer to a new struct, so assignments to scalar fields of the copy
    do not reach the tracker's entry. The copy holds the same map and the
    same slice headers as the entry: a store into [DailyHits] of the
    copy, or into an element of its [RiskLabels] or [StatusCodeHistory],
    is a store into the entry of the tracker. *)
Theorem GetDomainInfo_copy_is_shallow domain (h : heap)
  (domains : gmap string loc) (p : loc) (c : EntryCell) :
  let d := ToLower (TrimSuffix domain ".") in
  domains !! d = Some p -> structs h !! p = Some c -> (p < next h)%nat ->
  ∃ q,
    GetDomainInfo ToLower domain h domains = (Some q, (new_struct c h).2)
    ∧ q ≠ p
    ∧ let h1 := (new_struct c h).2 in
      internal h1 domains d = Some (view h c)
      ∧ (∀ v, internal (mutate q (AssignHitCount v) h1) domains d
              = Some (view h c))
      ∧ (∀ b, internal (mutate q (AssignBlacklisted b) h1) domains d
              = Some (view h c))
      ∧ (∀ m date count,
           DailyHits c = Some m ->
           DailyHits <$> internal (mutate q (MapStore date count) h1) domains d
           = Some (<[date := count]> (DailyHits (view h c))))
      ∧ (∀ arr off len cap i label,
           RiskLabels c = Slice arr off len cap -> (i < len)%nat ->
           RiskLabels <$> internal (mutate q (LabelStore i label) h1) domains d
           = Some (<[i := label]> (RiskLabels (view h c))))
      ∧ (∀ arr off len cap i code,
           StatusCodeHistory c = Slice arr off len cap -> (i < len)%nat ->
           StatusCodeHistory
             <$> internal (mutate q (StatusStore i code) h1) domains d
           = Some (<[i := code]> (StatusCodeHistory (view h c)))).
Proof.
  intros d Hd Hp Hlt. exists (next h).
  assert (Hne : next h ≠ p) by lia.
  split; [unfold GetDomainInfo; cbn zeta; fold d; by rewrite Hd, Hp |].
  split; [done |]. cbn zeta. split_all.
  - unfold internal. rewrite Hd. simpl. by rewrite lookup_insert_ne, Hp.
  - intros v. unfold internal, mutate. rewrite Hd. simpl.
    rewrite lookup_insert_eq. simpl.
    rewrite lookup_insert_ne by done. by rewrite lookup_insert_ne, Hp.
  - intros b. unfold internal, mutate. rewrite Hd. simpl.
    rewrite lookup_insert_eq. simpl.
    rewrite lookup_insert_ne by done. by rewrite lookup_insert_ne, Hp.
  - intros m date count Hm. unfold internal, mutate. rewrite Hd. simpl.
    rewrite lookup_insert_eq, Hm. simpl.
    rewrite lookup_insert_ne, Hp by done. simpl.
    by rewrite Hm, lookup_insert_eq.
  - intros arr off len cap i label Hs Hi. unfold internal, mutate.
    rewrite Hd. simpl. rewrite lookup_insert_eq, Hs.
    rewrite bool_decide_eq_true_2 by done. simpl.
    rewrite lookup_insert_ne, Hp by done. simpl. rewrite Hs.
    by rewrite slice_store.
  - intros arr off len cap i code Hs Hi. unfold internal, mutate.
    rewrite Hd. simpl. rewrite lookup_insert_eq, Hs.
    rewrite bool_decide_eq_true_2 by done. simpl.
    rewrite lookup_insert_ne, Hp by done. simpl. rewrite Hs.
    by rewrite slice_store.
Qed.

End AliasingFacts.

(** * Wildcards and the choice of the scanner *)

Lemma substring_all (s : string) : substring 0 (String.length s) s = s.
Proof. induction s as [|c s IH]; simpl; [reflexivity | by rewrite IH]. Qed.

Lemma wildcard_shape domain :
  IsWildcardDomain domain = true ->
  ∃ rest, domain = String "*" (String "." rest)
          ∧ ExtractBaseDomain domain = rest.
Proof.
  intros Hw. unfold ExtractBaseDomain, TrimPrefix. rewrite Hw.
  unfold IsWildcardDomain in Hw. rewrite Hw.
  unfold HasPrefix in Hw.
  destruct domain as [|c1 [|c2 rest]]; cbn [String.prefix] in Hw;
    try discriminate.
  - by destruct (Ascii.ascii_dec "*" c1).
  - destruct (Ascii.ascii_dec "*" c1) as [<-|]; [| discriminate].
    destruct (Ascii.ascii_dec "." c2) as [<-|]; [| discriminate].
    exists rest. split; [reflexivity |].
    cbn [String.length substring Nat.sub]. rewrite Nat.sub_0_r.
    apply substring_all.
Qed.

(** X18. For a wildcard hostname [ExtractBaseDomain] removes exactly the
    leading ["*."] (one level: the rest may again be a wildcard) and
    [triggerEnumeration] runs puredns on that rest; any other hostname
    is passed unchanged to feroxbuster, so feroxbuster is never started
    on a wildcard. *)
Theorem triggerEnumeration_choice domain target :
  (IsWildcardDomain domain = true ->
   domain = "*." +:+ ExtractBaseDomain domain
   ∧ String.length (ExtractBaseDomain domain) + 2 = String.length domain
   ∧ triggerEnumeration domain target
     = Puredns (ExtractBaseDomain domain) target)%nat
  ∧ (IsWildcardDomain domain = false ->
     ExtractBaseDomain domain = domain
     ∧ triggerEnumeration domain target = Feroxbuster domain target)
  ∧ (∀ d t, triggerEnumeration domain target = Feroxbuster d t ->
            IsWildcardDomain d = false).
Proof.
  split_all.
  - intros Hw. destruct (wildcard_shape domain Hw) as (rest & -> & Hr).
    rewrite Hr. split_all; [reflexivity | simpl; lia |].
    unfold triggerEnumeration. by rewrite Hw, Hr.
  - intros Hw. unfold ExtractBaseDomain, triggerEnumeration.
    by rewrite Hw.
  - intros d t. unfold triggerEnumeration.
    destruct (IsWildcardDomain domain) eqn:Hw; [discriminate |].
    by intros [= <- _].
Qed.

(** * The resolution cache *)

Section ResolverFacts.
Import Resolver.
Variable ToLower : string -> string.

Local Abbreviation normalize := (normalize ToLower).
Local Abbreviation ResolveDomain := (ResolveDomain ToLower).
Local Abbreviation ClearResolveCacheEntry := (ClearResolveCacheEntry ToLower).

Lemma Sub_lt_Hour t u : Sub t u < Hour ↔ t - u < Hour.
Proof.
  unfold Sub, min_int, max_int, Hour, Second, Nanosecond. lia.
Qed.

Lemma ResolveDomain_hit since stored lookup domain cache entry :
  cache !! normalize domain = Some entry ->
  since - timestamp entry < Hour ->
  ResolveDomain since stored lookup domain cache
  = (resolves entry, false, cache).
Proof.
  intros Hc Hfresh. unfold Resolver.ResolveDomain. cbn zeta. rewrite Hc.
  rewrite bool_decide_eq_true_2; [reflexivity | by apply Sub_lt_Hour].
Qed.

Lemma ResolveDomain_miss since stored lookup domain cache :
  match cache !! normalize domain with
  | Some entry => Hour ≤ since - timestamp entry
  | None => True
  end ->
  ResolveDomain since stored lookup domain cache
  = (lookup (normalize domain), true,
     <[normalize domain := mkCacheEntry (lookup (normalize domain)) stored]>
       cache).
Proof.
  intros Hc. unfold Resolver.ResolveDomain. cbn zeta.
  destruct (cache !! normalize domain) as [entry|]; [| reflexivity].
  rewrite bool_decide_eq_false_2; [reflexivity |].
  rewrite Sub_lt_Hour. lia.
Qed.

(** X19. An answer of the resolver, a failure included, is kept for the
    hostname in its normalized form and stamped with the time it was
    stored. A later call for a hostname of the same normalized form
    that reads the clock less than an hour after that stamp returns the
    kept answer without asking the resolver, whatever the resolver
    would say by then, and leaves the stamp as it is (the hour is not
    extended by use); from one hour on the resolver is asked again.
    [ClearResolveCacheEntry] makes the next call ask. *)
Theorem resolver_answer_kept_one_hour since stored lookup domain cache :
  let d := normalize domain in
  let r := ResolveDomain since stored lookup domain cache in
  r.1.2 = true ->
  r.1.1 = lookup d
  ∧ r.2 !! d = Some (mkCacheEntry (lookup d) stored)
  ∧ (∀ d', d' ≠ d -> r.2 !! d' = cache !! d')
  ∧ ∀ since2 stored2 lookup2 domain2,
      normalize domain2 = d ->
      (since2 - stored < Hour ->
       ResolveDomain since2 stored2 lookup2 domain2 r.2
       = (lookup d, false, r.2))
      ∧ (Hour ≤ since2 - stored ->
         ResolveDomain since2 stored2 lookup2 domain2 r.2
         = (lookup2 d, true, <[d := mkCacheEntry (lookup2 d) stored2]> r.2))
      ∧ ResolveDomain since2 stored2 lookup2 domain2
          (ClearResolveCacheEntry domain r.2)
        = (lookup2 d, true,
           <[d := mkCacheEntry (lookup2 d) stored2]>
             (ClearResolveCacheEntry domain r.2)).
Proof.
  intros d r Hasked.
  assert (Hr : r = (lookup d, true, <[d := mkCacheEntry (lookup d) stored]> cache)).
  { unfold r, Resolver.ResolveDomain in *. cbn zeta in *. fold d in Hasked |- *.
    destruct (cache !! d) as [entry|]; [| reflexivity].
    destruct (bool_decide (Sub since (timestamp entry) < Hour));
      [discriminate | reflexivity]. }
  rewrite Hr. cbn [fst snd]. split; [reflexivity |].
  split; [apply lookup_insert_eq |].
  split; [intros d' Hd'; by apply lookup_insert_ne |].
  intros since2 stored2 lookup2 domain2 Hd2. split; [| split].
  - intros Hfresh.
    rewrite (ResolveDomain_hit since2 stored2 lookup2 domain2 _
               (mkCacheEntry (lookup d) stored)); [reflexivity | |].
    + rewrite Hd2. apply lookup_insert_eq.
    + exact Hfresh.
  - intros Hstale. rewrite ResolveDomain_miss; rewrite Hd2; [reflexivity |].
    rewrite lookup_insert_eq. exact Hstale.
  - rewrite ResolveDomain_miss; rewrite Hd2; [reflexivity |].
    unfold Resolver.ClearResolveCacheEntry. fold d.
    by rewrite lookup_delete_eq.
Qed.

End ResolverFacts.

(** * The certificate pipeline *)

(** ** Suffixes of strings *)

Lemma length_append (a b : string) :
  String.length (a +:+ b) = (String.length a + String.length b)%nat.
Proof. induction a as [|c a IH]; simpl; [reflexivity | by rewrite IH]. Qed.

Lemma substring_append_r (a b : string) :
  substring (String.length a) (String.length b) (a +:+ b) = b.
Proof.
  induction a as [|c a IH]; simpl; [apply substring_all | exact IH].
Qed.

Lemma substring_split (s : string) : ∀ k,
  (k ≤ String.length s)%nat ->
  s = substring 0 k s +:+ substring k (String.length s - k) s.
Proof.
  induction s as [|c s IH]; intros [|k] Hk; simpl in *; try lia.
  - reflexivity.
  - by rewrite substring_all.
  - change (String c s
            = String c (substring 0 k s
                        +:+ substring k (String.length s - k) s)).
    f_equal. apply IH. lia.
Qed.

Lemma HasSuffix_spec (s suf : string) :
  HasSuffix s suf = true ↔ ∃ pre, s = pre +:+ suf.
Proof.
  unfold HasSuffix. cbn zeta. rewrite andb_true_iff, Nat.leb_le, String.eqb_eq.
  split.
  - intros [Hle Hsub]. exists (substring 0 (String.length s - String.length suf) s).
    pose proof (substring_split s (String.length s - String.length suf)
                  ltac:(lia)) as Hsplit.
    replace (String.length s - (String.length s - String.length suf))%nat
      with (String.length suf) in Hsplit by lia.
    by rewrite Hsub in Hsplit.
  - intros [pre ->]. rewrite length_append. split; [lia |].
    replace (String.length pre + String.length suf - String.length suf)%nat
      with (String.length pre) by lia.
    apply substring_append_r.
Qed.

(** ** The pipeline *)

Section PipelineFacts.
Import Pipeline.
Variable tz : Z.
Variable ToLower : string -> string.
Implicit Types entry e : DomainEntry.
Implicit Type dt : DomainTracker.
Implicit Type w : world.

Local Abbreviation normalize := (normalize ToLower).
Local Abbreviation ShouldNotifyDomain := (ShouldNotifyDomain tz ToLower).
Local Abbreviation RecordDomainResolution := (RecordDomainResolution ToLower).
Local Abbreviation RecordDomainIssuer := (RecordDomainIssuer ToLower).
Local Abbreviation GetDomainHitCount := (GetDomainHitCount ToLower).
Local Abbreviation IsBlacklisted := (IsBlacklisted ToLower).
Local Abbreviation step := (step tz ToLower).
Local Abbreviation after_op := (after_op tz ToLower).
Local Abbreviation seen_entry := (seen_entry tz).
Local Abbreviation ResolveDomain := (Resolver.ResolveDomain ToLower).
Local Abbreviation matches := (matches ToLower).
Local Abbreviation processDomain := (processDomain tz ToLower).
Local Abbreviation pipeline := (pipeline tz ToLower).
Local Abbreviation processEntry := (processEntry tz ToLower).

Lemma matches_spec d target :
  matches d target = true
  ↔ d = normalize target ∨ ∃ sub, d = sub +:+ "." +:+ normalize target.
Proof.
  unfold Pipeline.matches. cbn zeta.
  rewrite orb_true_iff, bool_decide_eq_true, HasSuffix_spec. reflexivity.
Qed.

Lemma find_all_false {A : Type} (f : A -> bool) (l : list A) :
  (∀ x, x ∈ l -> f x = false) -> List.find f l = None.
Proof.
  induction l as [|x l IH]; intros Hall; simpl; [reflexivity |].
  rewrite (Hall x) by left. apply IH. intros y Hy. apply Hall. by right.
Qed.

Lemma pipeline_unmatched cfg feed : ∀ w,
  Forall (fun s =>
            List.find (matches (normalize (s_domain s))) (targets cfg) = None)
         feed ->
  pipeline cfg feed w = w.
Proof.
  induction feed as [|s feed IH]; intros w Hall; [reflexivity |].
  apply Forall_cons in Hall as [Hs Hrest].
  unfold Pipeline.pipeline. cbn [foldl].
  unfold Pipeline.processDomain at 2. cbn zeta. rewrite Hs.
  by apply IH.
Qed.

(** The outcome of [processDomain] for a hostname that matches a
    target, in terms of the calls it makes. *)
Lemma processDomain_matched cfg lookup issuer clock domain w target :
  List.find (matches (normalize domain)) (targets cfg) = Some target ->
  let notify := (ShouldNotifyDomain (at_sighting clock) domain (tracker w)).1 in
  let dt0 := step (at_sighting clock) (OpShouldNotifyDomain domain) (tracker w) in
  let dt1 :=
    if bool_decide (issuer ≠ "")
    then step (at_sighting clock) (OpRecordDomainIssuer domain issuer) dt0
    else dt0 in
  let r := ResolveDomain (at_cache_check clock) (at_cache_store clock) lookup
             domain (resolveCache w) in
  processDomain cfg lookup issuer clock domain w
  = if notify then
      mkWorld (step (at_record clock) (OpRecordDomainResolution domain r.1.1) dt1)
              r.2 (RecordDiscovery target (targetActivity w))
              (if r.1.1 && (notifyDiscord cfg || notifyTelegram cfg)
               then launched w ++ [(domain, target)] else launched w)
    else
      mkWorld dt1 (resolveCache w) (RecordDiscovery target (targetActivity w))
              (launched w).
Proof.
  intros Hfind notify dt0 dt1 r.
  unfold Pipeline.processDomain. cbn zeta. rewrite Hfind.
  unfold dt1, dt0, notify, r. cbn [step].
  destruct (ShouldNotifyDomain (at_sighting clock) domain (tracker w))
    as [n dt].
  destruct (ResolveDomain (at_cache_check clock) (at_cache_store clock) lookup
              domain (resolveCache w)) as [[answer asked] cache].
  cbn [fst snd]. destruct n, answer; reflexivity.
Qed.

Lemma processDomain_other_key cfg lookup issuer clock domain w d :
  d ≠ normalize domain ->
  domains (tracker (processDomain cfg lookup issuer clock domain w)) !! d
  = domains (tracker w) !! d.
Proof.
  intros Hne.
  destruct (List.find (matches (normalize domain)) (targets cfg))
    as [target|] eqn:Hfind.
  - rewrite (processDomain_matched _ _ _ _ _ _ _ Hfind).
    repeat case_match; cbn [tracker]; rewrite ?step_after_op;
      unfold after_op; by rewrite ?bool_decide_eq_false_2.
  - unfold Pipeline.processDomain. cbn zeta. by rewrite Hfind.
Qed.

Lemma processDomain_launched cfg lookup issuer clock domain w :
  let w' := processDomain cfg lookup issuer clock domain w in
  launched w' = launched w
  ∨ ∃ target,
      launched w' = launched w ++ [(domain, target)]
      ∧ (ShouldNotifyDomain (at_sighting clock) domain (tracker w)).1 = true.
Proof.
  intros w'. unfold w'.
  destruct (List.find (matches (normalize domain)) (targets cfg))
    as [target|] eqn:Hfind.
  - rewrite (processDomain_matched _ _ _ _ _ _ _ Hfind).
    destruct (ShouldNotifyDomain (at_sighting clock) domain (tracker w)).1;
      cbn [launched]; [| by left].
    case_match; [right; by exists target | by left].
  - left. unfold Pipeline.processDomain. cbn zeta. by rewrite Hfind.
Qed.

(** [LastNotified] through the calls of the pipeline. *)
Lemma seen_entry_LastNotified now e :
  LastNotified (seen_entry now e) = LastNotified e
  ∨ (LastNotified (seen_entry now e) = now
     ∧ Blacklisted e = false ∧ 7 * Day ≤ now - LastNotified e).
Proof.
  unfold seen_entry.
  destruct (Blacklisted e) eqn:Hb; [by left |].
  destruct (bool_decide (7 * 24 * Hour ≤ Sub now (LastNotified e))
            && bool_decide (day_of tz now ≠ day_of tz (LastNotified e)))
    eqn:Hdue.
  - right. apply due_iff in Hdue as [Hdue _].
    destruct (updateDailyHits_entry_frame tz now
                (set_LastNotified now
                   (set_LastSeen now (set_HitCount (incr (HitCount e)) e))))
      as (_ & _ & _ & _ & HLN & _).
    rewrite HLN. by simpl.
  - left.
    destruct (updateDailyHits_entry_frame tz now
                (set_LastSeen now (set_HitCount (incr (HitCount e)) e)))
      as (_ & _ & _ & _ & HLN & _).
    rewrite HLN. by simpl.
Qed.

Lemma issued_entry_LastNotified issuer e :
  LastNotified (issued_entry issuer e) = LastNotified e.
Proof.
  unfold issued_entry.
  match goal with
  | |- LastNotified (calculateRisk ?x) = _ =>
      destruct (calculateRisk_same_tracking x) as (_ & _ & _ & _ & HLN & _)
  end.
  rewrite HLN. cbn [LastNotified set_CertIssuer].
  case_match; [| reflexivity].
  match goal with
  | |- LastNotified (addRiskLabel ?x ?l) = _ =>
      destruct (addRiskLabel_same_tracking x l) as (_ & _ & _ & _ & HLN' & _)
  end.
  by rewrite HLN'.
Qed.

(** The entry of the hostname after [processDomain], when it matched a
    target and was tracked before. *)
Lemma processDomain_entry cfg lookup issuer clock domain w target e :
  List.find (matches (normalize domain)) (targets cfg) = Some target ->
  domains (tracker w) !! normalize domain = Some e ->
  ∃ e',
    domains (tracker (processDomain cfg lookup issuer clock domain w))
      !! normalize domain = Some e'
    ∧ LastNotified e' = LastNotified (seen_entry (at_sighting clock) e).
Proof.
  intros Hfind He.
  rewrite (processDomain_matched _ _ _ _ _ _ _ Hfind).
  repeat case_match; cbn [tracker]; rewrite ?step_after_op;
    unfold after_op; rewrite ?bool_decide_eq_true_2 by done;
    rewrite He; cbn [fmap option_fmap option_map];
    eexists; (split; [reflexivity |]);
    cbn [LastNotified set_Resolved];
    rewrite ?issued_entry_LastNotified; reflexivity.
Qed.

(** The entry of a hostname that passed the tracker. *)
Lemma processDomain_notified_entry cfg lookup issuer clock domain w target :
  List.find (matches (normalize domain)) (targets cfg) = Some target ->
  (ShouldNotifyDomain (at_sighting clock) domain (tracker w)).1 = true ->
  ∃ e',
    domains (tracker (processDomain cfg lookup issuer clock domain w))
      !! normalize domain = Some e'
    ∧ LastNotified e' = at_sighting clock
    ∧ Resolved e'
      = (ResolveDomain (at_cache_check clock) (at_cache_store clock) lookup
           domain (resolveCache w)).1.1.
Proof.
  intros Hfind Hn.
  destruct (ShouldNotifyDomain_true_stamps tz ToLower _ _ _ Hn)
    as (e0 & He0 & HLN & _).
  rewrite (processDomain_matched _ _ _ _ _ _ _ Hfind). rewrite Hn.
  cbn [tracker]. rewrite step_after_op. cbn [after_op].
  rewrite bool_decide_eq_true_2 by done.
  case_bool_decide.
  - rewrite step_after_op. cbn [after_op step].
    rewrite bool_decide_eq_true_2 by done. rewrite He0.
    cbn [fmap option_fmap option_map]. eexists. split; [reflexivity |].
    cbn [LastNotified Resolved set_Resolved].
    by rewrite issued_entry_LastNotified.
  - cbn [step]. rewrite He0. eexists. split; [reflexivity |].
    cbn [LastNotified Resolved set_Resolved]. auto.
Qed.

(** While a hostname is in its cooldown, the pipeline keeps it there and
    launches nothing for it. *)
Lemma processDomain_keeps_cooldown cfg lookup issuer clock domain w d T0 e :
  domains (tracker w) !! d = Some e ->
  T0 ≤ LastNotified e ->
  at_sighting clock < T0 + 7 * Day ->
  let w' := processDomain cfg lookup issuer clock domain w in
  (∃ e', domains (tracker w') !! d = Some e' ∧ T0 ≤ LastNotified e')
  ∧ (normalize domain = d -> launched w' = launched w).
Proof.
  intros He HT0 Hnow w'. unfold w'.
  destruct (decide (d = normalize domain)) as [->|Hne].
  - assert (Hquiet : (ShouldNotifyDomain (at_sighting clock) domain
                        (tracker w)).1 = false).
    { apply ShouldNotifyDomain_in_cooldown with e; [exact He | lia]. }
    split.
    + destruct (List.find (matches (normalize domain)) (targets cfg))
        as [target|] eqn:Hfind.
      * destruct (processDomain_entry cfg lookup issuer clock domain w
                    target e Hfind He) as (e' & He' & HLN).
        exists e'. split; [exact He' |]. rewrite HLN.
        destruct (seen_entry_LastNotified (at_sighting clock) e)
          as [-> | (_ & _ & Hdue)]; lia.
      * unfold Pipeline.processDomain. cbn zeta. rewrite Hfind. eauto.
    + intros _.
      destruct (processDomain_launched cfg lookup issuer clock domain w)
        as [Hsame | (target & _ & Hn)]; [exact Hsame | congruence].
  - split; [| congruence].
    rewrite processDomain_other_key by exact Hne. eauto.
Qed.

Lemma pipeline_keeps_cooldown cfg d T0 feed : ∀ w,
  (∃ e, domains (tracker w) !! d = Some e ∧ T0 ≤ LastNotified e) ->
  Forall (fun s => at_sighting (s_clock s) < T0 + 7 * Day) feed ->
  ∃ new,
    launched (pipeline cfg feed w) = launched w ++ new
    ∧ Forall (fun item => normalize item.1 ≠ d) new.
Proof.
  induction feed as [|s feed IH]; intros w (e & He & HT0) Hfeed.
  { exists []. split; [by rewrite app_nil_r | constructor]. }
  apply Forall_cons in Hfeed as [Hs Hrest].
  destruct (processDomain_keeps_cooldown cfg (s_lookup s) (s_issuer s)
              (s_clock s) (s_domain s) w _ T0 e He HT0 Hs)
    as (Hentry & Hquiet).
  destruct (IH _ Hentry Hrest) as (new & Hnew & Hothers).
  unfold Pipeline.pipeline in Hnew |- *. cbn [foldl]. rewrite Hnew.
  destruct (processDomain_launched cfg (s_lookup s) (s_issuer s) (s_clock s)
              (s_domain s) w) as [Hsame | (target & Hgrow & _)].
  - exists new. by rewrite Hsame.
  - exists ((s_domain s, target) :: new). rewrite Hgrow, <- app_assoc.
    split; [reflexivity |]. constructor; [| exact Hothers].
    cbn [fst]. intros Hd. specialize (Hquiet Hd). rewrite Hgrow in Hquiet.
    apply (f_equal length) in Hquiet. rewrite length_app in Hquiet.
    cbn [length] in Hquiet. lia.
Qed.

(** X20. A hostname matches a target exactly when, both in normalized
    form, it is the target or ends with a dot followed by the target, so
    a hostname that merely ends with the letters of the target does not
    match. A certificate none of whose hostnames matches a target leaves
    the tracker, the cache, the counters and the notifications as they
    are. *)
Theorem unmatched_hostnames_ignored :
  (∀ d target,
     matches d target = true
     ↔ d = normalize target ∨ ∃ sub, d = sub +:+ "." +:+ normalize target)
  ∧ (∀ cfg env (cert : CertEntry) w,
       (∀ domain target,
          domain ∈ Domains cert -> target ∈ targets cfg ->
          matches (normalize domain) target = false) ->
       processEntry cfg env cert w = w).
Proof.
  split; [apply matches_spec |].
  intros cfg env cert w Hnone. unfold Pipeline.processEntry.
  apply pipeline_unmatched. apply Forall_forall. intros s Hs.
  apply elem_of_lookup_imap_1 in Hs as (i & domain & -> & Hi).
  cbn [s_domain]. apply find_all_false. intros target Ht.
  apply Hnone; [by eapply list_elem_of_lookup_2 | exact Ht].
Qed.

(** X21. A sighting that passes the tracker but does not resolve is not
    handed to the batcher, yet the tracker has stamped it as notified:
    the entry has [Resolved = false] and [LastNotified] at the time of
    the sighting. Whatever the pipeline is fed during the seven days
    that follow, it hands over nothing for the hostname, also when the
    hostname resolves by then. *)
Theorem unresolved_sighting_spends_cooldown cfg lookup issuer clock domain w
  target :
  let d := normalize domain in
  List.find (matches d) (targets cfg) = Some target ->
  (ShouldNotifyDomain (at_sighting clock) domain (tracker w)).1 = true ->
  (ResolveDomain (at_cache_check clock) (at_cache_store clock) lookup domain
     (resolveCache w)).1.1 = false ->
  let w1 := processDomain cfg lookup issuer clock domain w in
  launched w1 = launched w
  ∧ (∃ e, domains (tracker w1) !! d = Some e
          ∧ Resolved e = false ∧ LastNotified e = at_sighting clock)
  ∧ ∀ cfg2 feed,
      Forall (fun s => at_sighting (s_clock s) < at_sighting clock + 7 * Day)
             feed ->
      ∃ new,
        launched (pipeline cfg2 feed w1) = launched w ++ new
        ∧ Forall (fun item => normalize item.1 ≠ d) new.
Proof.
  intros d Hfind Hn Hdns w1.
  assert (Hw1 : launched w1 = launched w
                ∧ ∃ e, domains (tracker w1) !! d = Some e
                       ∧ Resolved e = false
                       ∧ LastNotified e = at_sighting clock).
  { split.
    - unfold w1. rewrite (processDomain_matched _ _ _ _ _ _ _ Hfind).
      by rewrite Hn, Hdns.
    - destruct (processDomain_notified_entry cfg lookup issuer clock domain w
                  target Hfind Hn) as (e & He & HLN & Hres).
      exists e. rewrite Hdns in Hres. auto. }
  destruct Hw1 as (Hlaunched & e & He & Hres & HLN).
  split; [exact Hlaunched |]. split; [eauto |].
  intros cfg2 feed Hfeed. rewrite <- Hlaunched.
  apply (pipeline_keeps_cooldown cfg2 d (at_sighting clock) feed w1);
    [exists e; split; [exact He | lia] | exact Hfeed].
Qed.

(** X22. For a hostname that matches a target the pipeline leaves the
    file equal to the table, first sightings included (the record of
    the resolution saves what [ShouldNotifyDomain] left unsaved), except
    for a blacklisted hostname on a certificate without issuer: then
    only the hit is counted, in memory, and the file is not written. *)
Theorem pipeline_saves_sightings cfg lookup issuer clock domain w target :
  List.find (matches (normalize domain)) (targets cfg) = Some target ->
  let w1 := processDomain cfg lookup issuer clock domain w in
  (IsBlacklisted domain (tracker w) = false ∨ issuer ≠ "" ->
   disk (tracker w1) = domains (tracker w1))
  ∧ (IsBlacklisted domain (tracker w) = true -> issuer = "" ->
     disk (tracker w1) = disk (tracker w)
     ∧ GetDomainHitCount domain (tracker w1)
       = incr (GetDomainHitCount domain (tracker w))
     ∧ launched w1 = launched w).
Proof.
  intros Hfind w1. unfold w1.
  rewrite (processDomain_matched _ _ _ _ _ _ _ Hfind).
  assert (Htracked :
            is_Some (domains (step (at_sighting clock)
                                (OpShouldNotifyDomain domain) (tracker w))
                       !! normalize domain)).
  { rewrite step_after_op. unfold after_op.
    by rewrite bool_decide_eq_true_2 by done. }
  split.
  - intros Hcase.
    destruct (ShouldNotifyDomain (at_sighting clock) domain (tracker w)).1
      eqn:Hn; cbn [tracker]; [reflexivity |].
    case_bool_decide as Hissuer.
    + cbn [step]. cbn [step] in Htracked. destruct Htracked as [e0 He0].
      unfold RecordDomainIssuer. cbn zeta. by rewrite He0.
    + destruct Hcase as [Hb | Hi]; [| by destruct Hissuer].
      unfold IsBlacklisted in Hb. cbn [step].
      destruct (domains (tracker w) !! normalize domain) as [e|] eqn:He.
      * by apply ShouldNotifyDomain_counted_persists with e.
      * unfold ShouldNotifyDomain in Hn. cbn zeta in Hn.
        by rewrite He in Hn.
  - intros Hb ->. unfold IsBlacklisted in Hb.
    unfold GetDomainHitCount.
    destruct (domains (tracker w) !! normalize domain) as [e|] eqn:He;
      [| discriminate].
    rewrite bool_decide_eq_false_2 by (intros H; by apply H).
    cbn [step]. unfold ShouldNotifyDomain. cbn zeta.
    rewrite He, Hb. cbn [fst snd tracker launched].
    rewrite put_lookup. by simpl.
Qed.

(** X28. A hostname that the pipeline hands to the batcher has passed
    the tracker and resolved: its entry is stamped with the time of the
    sighting and marked resolved. Whatever the pipeline is fed with
    sighting times less than seven days later, it hands that hostname
    over no second time, under whatever spelling and target. *)
Theorem pipeline_notifies_once_per_week cfg lookup issuer clock domain w
  target :
  let d := normalize domain in
  let w1 := processDomain cfg lookup issuer clock domain w in
  launched w1 = launched w ++ [(domain, target)] ->
  (ShouldNotifyDomain (at_sighting clock) domain (tracker w)).1 = true
  ∧ (∃ e, domains (tracker w1) !! d = Some e
          ∧ Resolved e = true ∧ LastNotified e = at_sighting clock)
  ∧ ∀ cfg2 feed,
      Forall (fun s => at_sighting (s_clock s) < at_sighting clock + 7 * Day)
             feed ->
      ∃ new,
        launched (pipeline cfg2 feed w1) = launched w1 ++ new
        ∧ Forall (fun item => normalize item.1 ≠ d) new.
Proof.
  intros d w1 Hgrow.
  assert (Hlonger : launched w1 ≠ launched w).
  { rewrite Hgrow. intros Heq. apply (f_equal length) in Heq.
    rewrite length_app in Heq. cbn [length] in Heq. lia. }
  destruct (List.find (matches d) (targets cfg)) as [target'|] eqn:Hfind;
    [| exfalso; apply Hlonger; unfold w1, Pipeline.processDomain;
       cbn zeta; fold d; by rewrite Hfind].
  destruct (ShouldNotifyDomain (at_sighting clock) domain (tracker w)).1
    eqn:Hn;
    [| exfalso; apply Hlonger; unfold w1;
       rewrite (processDomain_matched _ _ _ _ _ _ _ Hfind); by rewrite Hn].
  destruct (processDomain_notified_entry cfg lookup issuer clock domain w
              target' Hfind Hn) as (e & He & HLN & Hres).
  assert (Hanswer : (ResolveDomain (at_cache_check clock)
                       (at_cache_store clock) lookup domain
                       (resolveCache w)).1.1 = true).
  { destruct (ResolveDomain (at_cache_check clock) (at_cache_store clock)
                lookup domain (resolveCache w)).1.1 eqn:Ha; [reflexivity |].
    exfalso. apply Hlonger. unfold w1.
    rewrite (processDomain_matched _ _ _ _ _ _ _ Hfind). by rewrite Hn, Ha. }
  split; [reflexivity |]. split.
  - exists e. rewrite Hres. auto.
  - intros cfg2 feed Hfeed.
    apply (pipeline_keeps_cooldown cfg2 d (at_sighting clock) feed w1);
      [exists e; split; [exact He | lia] | exact Hfeed].
Qed.

(** In a world where the cache is behind the cooldown, a sighting that
    passes the tracker finds no fresh answer in the cache. *)
Lemma resolver_asked clock lookup domain w :
  cache_behind_cooldown w -> in_order clock ->
  (ShouldNotifyDomain (at_sighting clock) domain (tracker w)).1 = true ->
  ResolveDomain (at_cache_check clock) (at_cache_store clock) lookup domain
    (resolveCache w)
  = (lookup (normalize domain), true,
     <[normalize domain :=
         Resolver.mkCacheEntry (lookup (normalize domain))
           (at_cache_store clock)]> (resolveCache w)).
Proof.
  intros Hinv [Hcheck _] Hn. apply ResolveDomain_miss.
  destruct (resolveCache w !! normalize domain) as [ce|] eqn:Hce; [| done].
  destruct (Hinv _ _ Hce) as (e & He & Hts).
  destruct (decide (at_sighting clock - LastNotified e < 7 * Day)) as [Hin|];
    [| lia].
  rewrite (ShouldNotifyDomain_in_cooldown tz ToLower _ _ _ e He Hin) in Hn.
  discriminate.
Qed.

Lemma processDomain_cache_invariant cfg lookup issuer clock domain w :
  cache_behind_cooldown w -> in_order clock ->
  cache_behind_cooldown (processDomain cfg lookup issuer clock domain w).
Proof.
  intros Hinv Hord d ce Hce.
  destruct (List.find (matches (normalize domain)) (targets cfg))
    as [target|] eqn:Hfind;
    [| unfold Pipeline.processDomain in *; cbn zeta in *;
       rewrite Hfind in *; by apply Hinv].
  destruct (decide (d = normalize domain)) as [->|Hne].
  - destruct (ShouldNotifyDomain (at_sighting clock) domain (tracker w)).1
      eqn:Hn.
    + (* notified: the answer is stored now, and the entry stamped now *)
      destruct (processDomain_notified_entry cfg lookup issuer clock domain w
                  target Hfind Hn) as (e' & He' & HLN & _).
      exists e'. split; [exact He' |]. rewrite HLN.
      rewrite (processDomain_matched _ _ _ _ _ _ _ Hfind) in Hce.
      rewrite Hn in Hce. cbn [resolveCache] in Hce.
      rewrite (resolver_asked clock lookup domain w Hinv Hord Hn) in Hce.
      cbn [snd] in Hce. rewrite lookup_insert_eq in Hce.
      injection Hce as <-. cbn [Resolver.timestamp].
      destruct Hord as [_ Hstore]. lia.
    + assert (Hcache : resolveCache (processDomain cfg lookup issuer clock
                                       domain w) = resolveCache w).
      { rewrite (processDomain_matched _ _ _ _ _ _ _ Hfind). by rewrite Hn. }
      rewrite Hcache in Hce. destruct (Hinv _ _ Hce) as (e & He & Hts).
      destruct (processDomain_entry cfg lookup issuer clock domain w target e
                  Hfind He) as (e' & He' & HLN).
      exists e'. split; [exact He' |]. rewrite HLN.
      assert (HD : 0 < Day) by reflexivity.
      destruct (seen_entry_LastNotified (at_sighting clock) e)
        as [-> | (-> & _ & Hdue)]; lia.
  - rewrite processDomain_other_key by exact Hne.
    apply Hinv. rewrite <- Hce.
    rewrite (processDomain_matched _ _ _ _ _ _ _ Hfind).
    destruct (ShouldNotifyDomain (at_sighting clock) domain (tracker w)).1;
      cbn [resolveCache]; [| reflexivity].
    unfold Resolver.ResolveDomain. cbn zeta.
    repeat case_match; cbn [snd]; by rewrite ?lookup_insert_ne.
Qed.

Lemma pipeline_cache_invariant cfg feed : ∀ w,
  cache_behind_cooldown w ->
  Forall (fun s => in_order (s_clock s)) feed ->
  cache_behind_cooldown (pipeline cfg feed w).
Proof.
  induction feed as [|s feed IH]; intros w Hinv Hfeed; [exact Hinv |].
  apply Forall_cons in Hfeed as [Hs Hrest].
  unfold Pipeline.pipeline. cbn [foldl]. apply IH; [| exact Hrest].
  by apply processDomain_cache_invariant.
Qed.

(** X23. In a run of the pipeline that starts with an empty cache and
    reads its clocks in order, the resolution cache never answers:
    whenever a sighting passes the tracker, the resolver is asked and
    the answer of the moment decides. (A hostname passes the tracker
    again only after its seven-day cooldown, and a cached answer is good
    for one hour.) *)
Theorem pipeline_never_reuses_answer cfg feed w0 s :
  resolveCache w0 = ∅ ->
  Forall (fun s => in_order (s_clock s)) feed ->
  in_order (s_clock s) ->
  let w := pipeline cfg feed w0 in
  let d := normalize (s_domain s) in
  (ShouldNotifyDomain (at_sighting (s_clock s)) (s_domain s) (tracker w)).1
  = true ->
  ResolveDomain (at_cache_check (s_clock s)) (at_cache_store (s_clock s))
    (s_lookup s) (s_domain s) (resolveCache w)
  = (s_lookup s d, true,
     <[d := Resolver.mkCacheEntry (s_lookup s d) (at_cache_store (s_clock s))]>
       (resolveCache w)).
Proof.
  intros Hempty Hfeed Hs w d Hn.
  apply resolver_asked; [| exact Hs | exact Hn].
  apply pipeline_cache_invariant; [| exact Hfeed].
  intros d' ce Hce. rewrite Hempty in Hce. by rewrite lookup_empty in Hce.
Qed.

End PipelineFacts.

(** * The blacklist handlers of the admin server *)

Section AdminFacts.
Import Admin.
Variable tz : Z.
Variable ToLower : string -> string.
Implicit Types entry e : DomainEntry.
Implicit Type dt : DomainTracker.

Local Abbreviation normalize := (normalize ToLower).
Local Abbreviation ShouldNotifyDomain := (ShouldNotifyDomain tz ToLower).
Local Abbreviation IsBlacklisted := (IsBlacklisted ToLower).
Local Abbreviation updateDailyHits_entry := (updateDailyHits_entry tz).
Local Abbreviation step := (step tz ToLower).
Local Abbreviation run := (run tz ToLower).
Local Abbreviation after_op := (after_op tz ToLower).
Local Abbreviation seen_entry := (seen_entry tz).
Local Abbreviation tracked_throughout := (tracked_throughout tz ToLower).

Lemma addBlacklist_found now domain dt e :
  domain ≠ "" -> domains dt !! domain = Some e ->
  addBlacklist now (Some domain) dt
  = (StatusOK,
     save (put domain (set_BlacklistedDate now (set_Blacklisted true e)) dt)).
Proof.
  intros Hne He. unfold addBlacklist.
  rewrite bool_decide_eq_false_2 by exact Hne. cbn zeta. by rewrite He.
Qed.

Lemma removeBlacklist_found domain dt e :
  domain ≠ "" -> domains dt !! domain = Some e ->
  removeBlacklist domain dt
  = (StatusOK,
     save (put domain (set_BlacklistedDate zero_time (set_Blacklisted false e))
             dt)).
Proof.
  intros Hne He. unfold removeBlacklist.
  rewrite bool_decide_eq_false_2 by exact Hne. cbn zeta. by rewrite He.
Qed.

(** X24. [addBlacklist] answers 200 exactly when the body decodes to a
    non-empty hostname that is a key of the table as sent; otherwise
    (400, 404) the tracker is left as it is. On 200 the entry is marked
    blacklisted at [now], nothing else of the table changes and the
    table is saved; from then on [ShouldNotifyDomain] answers [false]
    for every hostname of that normalized form, for as long as the
    entry stays in the table. *)
Theorem addBlacklist_mutes now req dt :
  let r := addBlacklist now req dt in
  (r.1 = StatusOK
   ↔ ∃ domain, req = Some domain ∧ domain ≠ ""
               ∧ is_Some (domains dt !! domain))
  ∧ (r.1 ≠ StatusOK -> r.2 = dt)
  ∧ (∀ domain e,
       req = Some domain -> domain ≠ "" -> domains dt !! domain = Some e ->
       disk r.2 = domains r.2
       ∧ domains r.2
         = <[domain := set_BlacklistedDate now (set_Blacklisted true e)]>
             (domains dt)
       ∧ ∀ trace now2 domain2,
           normalize domain2 = domain ->
           tracked_throughout domain trace r.2 ->
           (ShouldNotifyDomain now2 domain2 (run trace r.2)).1 = false).
Proof.
  intros r. split; [| split].
  - unfold r, addBlacklist. destruct req as [domain|]; cbn zeta.
    + case_bool_decide as Hempty.
      * split; [discriminate |]. intros (x & [= <-] & Hx & _). done.
      * destruct (domains dt !! domain) as [e|] eqn:He; cbn [fst].
        -- split; [| reflexivity]. intros _. exists domain. by rewrite He.
        -- split; [discriminate |].
           intros (x & [= <-] & _ & [e He']). congruence.
    + split; [discriminate |]. intros (x & Hx & _). discriminate.
  - unfold r, addBlacklist. destruct req as [domain|]; cbn zeta;
      [| reflexivity].
    case_bool_decide; [reflexivity |].
    destruct (domains dt !! domain); cbn [fst snd]; [| reflexivity].
    intros Hcode. by destruct Hcode.
  - intros domain e -> Hne He. unfold r.
    rewrite (addBlacklist_found now domain dt e Hne He). cbn [snd].
    split; [reflexivity |]. split; [reflexivity |].
    intros trace now2 domain2 Hdom Htracked.
    assert (Hput : domains (save (put domain
                              (set_BlacklistedDate now (set_Blacklisted true e))
                              dt)) !! domain
                   = Some (set_BlacklistedDate now (set_Blacklisted true e)))
      by apply put_lookup.
    destruct (tracked_entry_persists tz ToLower domain trace _ _ Hput Htracked)
      as (e2 & He2 & _ & Hb).
    unfold ShouldNotifyDomain. cbn zeta. rewrite Hdom, He2.
    by rewrite (Hb eq_refl).
Qed.

(** Sightings of a hostname on one day, while its count for the day
    stays at 10 or below, leave the escalation state as it is. *)
Lemma quiet_sightings domain date times : ∀ dt e,
  domains dt !! normalize domain = Some e ->
  Blacklisted e = false ->
  Forall (fun t => day_of tz t = date) times ->
  0 ≤ count_on e date ->
  count_on e date + Z.of_nat (length times) ≤ 10 ->
  ∃ e',
    domains (run (map (fun t => (t, OpShouldNotifyDomain domain)) times) dt)
      !! normalize domain = Some e'
    ∧ Blacklisted e' = false
    ∧ HighHitDays e' = HighHitDays e
    ∧ LastHighHitDate e' = LastHighHitDate e
    ∧ count_on e' date = count_on e date + Z.of_nat (length times).
Proof.
  induction times as [|t times IH]; intros dt e He Hb Hday Hlo Hhi.
  - exists e. cbn [map length]. split; [exact He |].
    split_all; auto. simpl. lia.
  - apply Forall_cons in Hday as [Ht Hday]. cbn [length] in Hhi.
    cbn [map].
    change (run ((t, OpShouldNotifyDomain domain)
                 :: map (fun t => (t, OpShouldNotifyDomain domain)) times) dt)
      with (run (map (fun t => (t, OpShouldNotifyDomain domain)) times)
              (step t (OpShouldNotifyDomain domain) dt)).
    pose proof (step_after_op tz ToLower t (OpShouldNotifyDomain domain) dt
                  (normalize domain)) as Hstep.
    cbn [after_op] in Hstep. rewrite bool_decide_eq_true_2 in Hstep by done.
    rewrite He in Hstep.
    destruct (seen_entry_counted tz t e Hb) as (x & Hx & Hxb & Hxh & Hxl & Hxd).
    assert (Hcx : count_on x date = count_on e date).
    { unfold count_on. by rewrite Hxd. }
    assert (Hquiet : same_escalation x (updateDailyHits_entry t x)).
    { apply quiet_hit. left. rewrite Ht, Hcx.
      rewrite incr_in_range; unfold min_int, max_int; lia. }
    assert (Hcount : count_on (updateDailyHits_entry t x) date
                     = count_on e date + 1).
    { rewrite updateDailyHits_entry_count.
      rewrite bool_decide_eq_true_2 by done. rewrite Hcx.
      apply incr_in_range. unfold min_int, max_int. lia. }
    destruct Hquiet as (Hh & Hl & Hbl & _).
    rewrite Hx in Hstep.
    destruct (IH (step t (OpShouldNotifyDomain domain) dt)
                (updateDailyHits_entry t x))
      as (e' & He' & Hb' & Hh' & Hl' & Hc');
      [exact Hstep | congruence | exact Hday | lia | lia |].
    exists e'. split; [exact He' |].
    split_all; [exact Hb' | congruence | congruence |].
    rewrite Hc', Hcount. cbn [length]. lia.
Qed.



End AdminFacts.

(** * Chunks of scan results *)

Section Chunks.
Variable results : list string.
Variable chunkSize : Z.

Lemma chunkLoop_terminates :
  0 < chunkSize ->
  Z.of_nat (length results) + chunkSize ≤ max_int ->
  ∀ fuel i chunks,
    0 ≤ i ->
    (Z.to_nat (Z.of_nat (length results) - i) < fuel)%nat ->
    ∃ new,
      chunkLoop fuel results chunkSize i chunks = Returned (chunks ++ new)
      ∧ concat new = drop (Z.to_nat i) results
      ∧ (Z.of_nat (length results) ≤ i -> new = [])
      ∧ Forall (fun c => (0 < length c)%nat ∧ Z.of_nat (length c) ≤ chunkSize)
               new
      ∧ ∀ j c, new !! j = Some c -> (S j < length new)%nat ->
               Z.of_nat (length c) = chunkSize.
Proof.
  intros Hpos Hmax.
  induction fuel as [|fuel IH]; intros i chunks Hi Hfuel; [lia |].
  cbn [chunkLoop]. cbn zeta.
  case_bool_decide as Hlt.
  - assert (Hwrap : int_wrap (i + chunkSize) = i + chunkSize).
    { apply int_wrap_in_range. unfold min_int. lia. }
    rewrite Hwrap.
    rewrite bool_decide_eq_true_2
      by (split; [lia | case_bool_decide; lia]).
    destruct (IH (i + chunkSize)
                (chunks ++ [take (Z.to_nat
                                    ((if bool_decide
                                           (Z.of_nat (length results)
                                            < i + chunkSize)
                                      then Z.of_nat (length results)
                                      else i + chunkSize) - i))
                                 (drop (Z.to_nat i) results)]))
      as (new & Hloop & Hcat & Hnil & Hsizes & Hfull); [lia | lia |].
    eexists (_ :: new). rewrite Hloop, <- app_assoc. split; [reflexivity |].
    assert (Hdrop : length (drop (Z.to_nat i) results)
                    = Z.to_nat (Z.of_nat (length results) - i)).
    { rewrite length_drop. lia. }
    split; [| split; [lia | split]].
    + cbn [concat]. rewrite Hcat. case_bool_decide as Hclamp.
      * rewrite take_ge by lia. rewrite (drop_ge _ (Z.to_nat (i + chunkSize)))
          by lia. apply app_nil_r.
      * replace (Z.to_nat (i + chunkSize))
          with (Z.to_nat i + Z.to_nat (i + chunkSize - i))%nat by lia.
        rewrite <- drop_drop. apply take_drop.
    + constructor; [| exact Hsizes]. rewrite length_take, Hdrop.
      case_bool_decide; lia.
    + intros [|j] c Hc Hmore; cbn in Hc.
      * injection Hc as <-. rewrite length_take, Hdrop.
        case_bool_decide as Hclamp; [| lia].
        rewrite Hnil in Hmore by lia. cbn in Hmore. lia.
      * apply (Hfull j c Hc). cbn [length] in Hmore. lia.
  - exists []. rewrite app_nil_r. split; [reflexivity |].
    split; [by rewrite drop_ge by lia |]. split; [done |].
    split; [constructor | intros j c Hc; by rewrite lookup_nil in Hc].
Qed.

Lemma chunkLoop_more_fuel fuel : ∀ fuel' i chunks out,
  (fuel ≤ fuel')%nat ->
  chunkLoop fuel results chunkSize i chunks = Returned out ->
  chunkLoop fuel' results chunkSize i chunks = Returned out.
Proof.
  induction fuel as [|fuel IH]; intros fuel' i chunks out Hle Hloop;
    [discriminate |].
  destruct fuel' as [|fuel']; [lia |].
  cbn [chunkLoop] in Hloop |- *. cbn zeta in Hloop |- *.
  repeat case_bool_decide; try exact Hloop; try discriminate;
    (apply IH; [lia | exact Hloop]).
Qed.

Lemma chunkLoop_zero_size :
  chunkSize = 0 -> Z.of_nat (length results) ≤ max_int ->
  ∀ fuel i chunks,
    0 ≤ i < Z.of_nat (length results) ->
    chunkLoop fuel results chunkSize i chunks = Running.
Proof.
  intros -> Hmax. induction fuel as [|fuel IH]; intros i chunks Hi;
    [reflexivity |].
  cbn [chunkLoop]. cbn zeta.
  assert (Hwrap : int_wrap (i + 0) = i).
  { rewrite Z.add_0_r. apply int_wrap_in_range. unfold min_int. lia. }
  rewrite Hwrap.
  rewrite bool_decide_eq_true_2 by lia.
  rewrite (bool_decide_eq_false_2 (Z.of_nat (length results) < i)) by lia.
  rewrite bool_decide_eq_true_2 by lia.
  by apply IH.
Qed.

(** X27. With a positive chunk size [chunkResults] returns, within
    [length results + 1] rounds of its loop: the chunks, one after the
    other, are the results in order, no chunk is empty, none is longer
    than the chunk size and every chunk but the last has exactly that
    size. With chunk size 0 and at least one result the loop never ends
    (it appends empty chunks for ever); with a negative chunk size the
    first slice expression panics. *)
Theorem chunkResults_partition :
  Z.of_nat (length results) + Z.max 0 chunkSize ≤ max_int ->
  (0 < chunkSize ->
   ∃ chunks,
     (∀ fuel, (length results < fuel)%nat ->
              chunkResults fuel results chunkSize = Returned chunks)
     ∧ concat chunks = results
     ∧ Forall (fun c => (0 < length c)%nat ∧ Z.of_nat (length c) ≤ chunkSize)
              chunks
     ∧ ∀ j c, chunks !! j = Some c -> (S j < length chunks)%nat ->
              Z.of_nat (length c) = chunkSize)
  ∧ (chunkSize = 0 -> results ≠ [] ->
     ∀ fuel, chunkResults fuel results chunkSize = Running)
  ∧ (min_int ≤ chunkSize < 0 -> results ≠ [] ->
     ∀ fuel, chunkResults (S fuel) results chunkSize = Panicked).
Proof.
  intros Hmax. split; [| split].
  - intros Hpos. unfold chunkResults.
    destruct results as [|x rest] eqn:Hres.
    { exists []. split; [intros; by rewrite bool_decide_eq_true_2 |].
      split; [reflexivity |]. split; [constructor |].
      intros j c Hc. by rewrite lookup_nil in Hc. }
    rewrite <- Hres in *.
    destruct (chunkLoop_terminates Hpos ltac:(lia) (S (length results)) 0 []
                ltac:(lia) ltac:(lia))
      as (chunks & Hloop & Hcat & _ & Hsizes & Hfull).
    exists chunks. split; [| by rewrite Hcat].
    intros fuel Hfuel.
    rewrite bool_decide_eq_false_2 by (rewrite Hres; discriminate).
    apply (chunkLoop_more_fuel (S (length results))); [lia | exact Hloop].
  - intros Hzero Hne fuel. unfold chunkResults.
    rewrite bool_decide_eq_false_2
      by (destruct results; [done | discriminate]).
    apply chunkLoop_zero_size; [exact Hzero | lia |].
    destruct results; [done | cbn [length]; lia].
  - intros Hneg Hne fuel. unfold chunkResults.
    rewrite bool_decide_eq_false_2
      by (destruct results; [done | discriminate]).
    cbn [chunkLoop]. cbn zeta.
    rewrite bool_decide_eq_true_2
      by (destruct results; [done | cbn [length]; lia]).
    rewrite Z.add_0_l, int_wrap_in_range by (unfold max_int; lia).
    rewrite (bool_decide_eq_false_2 (Z.of_nat (length results) < chunkSize))
      by lia.
    by rewrite bool_decide_eq_false_2 by lia.
Qed.

End Chunks.

(** * The scheduler of the daily summary *)

Section SchedulerFacts.
Variable tz : Z.

Local Abbreviation clock_Hour := (clock_Hour tz).
Local Abbreviation clock_Minute := (clock_Minute tz).
Local Abbreviation summaryTick := (summaryTick tz).
Local Abbreviation summaryLoop := (summaryLoop tz).

Lemma mod_Day_mod_Hour a : (a mod Day) mod Hour = a mod Hour.
Proof.
  change Day with (Hour * 24).
  rewrite Z.rem_mul_r; [| vm_compute; discriminate | reflexivity].
  rewrite (Z.mul_comm Hour), Z.mod_add by (vm_compute; discriminate).
  apply Z.mod_mod. vm_compute. discriminate.
Qed.

(** Hour 0 and a minute below 5: the first five minutes of the local day. *)
Lemma summary_window now :
  bool_decide (clock_Hour now = 0) && bool_decide (0 ≤ clock_Minute now)
  && bool_decide (clock_Minute now < 5) = true
  ↔ (now + tz) mod Day < 5 * Minute.
Proof.
  unfold clock_Hour, clock_Minute.
  assert (HH : 0 < Hour) by reflexivity.
  assert (HM : 0 < Minute) by reflexivity.
  assert (HD : 0 < Day) by reflexivity.
  assert (H5 : 5 * Minute < Hour) by reflexivity.
  pose proof (Z.mod_pos_bound (now + tz) Day HD) as Hm.
  pose proof (Z.mod_pos_bound (now + tz) Hour HH) as Hh.
  rewrite !andb_true_iff, !bool_decide_eq_true.
  rewrite <- (mod_Day_mod_Hour (now + tz)) in *.
  set (m := (now + tz) mod Day) in *.
  split.
  - intros [[Hhour _] Hminute].
    apply Z.div_small_iff in Hhour as [Hhour | Hhour]; [| lia | lia].
    rewrite Z.mod_small in Hminute by lia.
    apply Z.nle_gt. intros Hle.
    assert (Hfive : 5 ≤ m / Minute)
      by (apply Z.div_le_lower_bound; lia).
    lia.
  - intros Hwin. rewrite Z.mod_small by lia.
    split; [split |].
    + apply Z.div_small. lia.
    + apply Z.div_pos; lia.
    + apply Z.div_lt_upper_bound; lia.
Qed.

Lemma tick_phase start k delta :
  0 ≤ delta -> (start + tz) mod Hour + delta < Hour ->
  (start + k * Hour + delta + tz) mod Hour = (start + tz) mod Hour + delta.
Proof.
  intros Hd Hlt.
  assert (HH : 0 < Hour) by reflexivity.
  pose proof (Z.mod_pos_bound (start + tz) Hour HH) as Hp.
  replace (start + k * Hour + delta + tz)
    with (start + tz + delta + k * Hour) by lia.
  rewrite Z.mod_add by lia.
  rewrite <- Zplus_mod_idemp_l. apply Z.mod_small. lia.
Qed.

(** X29. A round of the scheduler sends the summary exactly when the
    tick is read in the first five minutes after local midnight and
    more than twelve hours have passed since the last summary. The
    ticker has a period of one hour, so every tick is read at the same
    minute of the hour as the start of the ticker (plus the delay of the
    reading): when the ticker is started five minutes or more past the
    hour and the readings stay within that hour, no round ever sends
    the summary. *)
Theorem daily_summary_needs_lucky_start :
  (∀ now since after last,
     (summaryTick now since after last).1 = true
     ↔ (now + tz) mod Day < 5 * Minute ∧ 12 * Hour < since - last)
  ∧ (∀ start (readings : nat -> Z * Z * Z),
       5 * Minute ≤ (start + tz) mod Hour ->
       (∀ k, ∃ delta,
          (readings k).1.1 = start + Z.of_nat k * Hour + delta
          ∧ 0 ≤ delta ∧ (start + tz) mod Hour + delta < Hour) ->
       ∀ rounds first last,
         summaryLoop readings first rounds last
         = (replicate rounds false, last)).
Proof.
  split.
  - intros now since after last. unfold summaryTick.
    rewrite <- summary_window.
    destruct (bool_decide (clock_Hour now = 0)
              && bool_decide (0 ≤ clock_Minute now)
              && bool_decide (clock_Minute now < 5));
      [| cbn [fst]; split; [discriminate | intros [? _]; discriminate]].
    assert (Hsub : 12 * Hour < Sub since last ↔ 12 * Hour < since - last).
    { unfold Sub, min_int, max_int, Hour, Second, Nanosecond. lia. }
    case_bool_decide as Hguard; cbn [fst]; rewrite Hsub in Hguard.
    + split; [intros _; by split | reflexivity].
    + split; [discriminate | intros [_ ?]; contradiction].
  - intros start readings Hphase Hticks rounds.
    induction rounds as [|rounds IH]; intros first last; [reflexivity |].
    cbn [summaryLoop replicate].
    destruct (Hticks first) as (delta & Hnow & Hd & Hlt).
    destruct (readings first) as [[now since] after]. cbn [fst] in Hnow.
    assert (Hquiet : summaryTick now since after last = (false, last)).
    { unfold summaryTick.
      destruct (bool_decide (clock_Hour now = 0)
                && bool_decide (0 ≤ clock_Minute now)
                && bool_decide (clock_Minute now < 5)) eqn:Hwin;
        [| reflexivity].
      apply summary_window in Hwin. exfalso.
      assert (HH : 0 < Hour) by reflexivity.
      assert (HD : 0 < Day) by reflexivity.
      pose proof (Z.mod_pos_bound (now + tz) Day HD) as Hm.
      assert (Hmod : ((now + tz) mod Day) mod Hour = (now + tz) mod Day).
      { apply Z.mod_small. assert (5 * Minute < Hour) by reflexivity. lia. }
      rewrite mod_Day_mod_Hour in Hmod.
      rewrite Hnow in Hmod at 1.
      rewrite (tick_phase start (Z.of_nat first) delta Hd Hlt) in Hmod.
      lia. }
    rewrite Hquiet. by rewrite IH.
Qed.

End SchedulerFacts.

(** * The root of a hostname *)

Lemma append_assoc (a b c : string) : (a +:+ b) +:+ c = a +:+ (b +:+ c).
Proof.
  induction a as [|x a IH]; [reflexivity |].
  change (String x ((a +:+ b) +:+ c) = String x (a +:+ (b +:+ c))).
  by rewrite IH.
Qed.

Lemma Split_dot_nonempty s : Split_dot s ≠ [].
Proof.
  destruct s as [|c s]; cbn [Split_dot]; [discriminate |].
  destruct (Ascii.eqb c "."); [discriminate |].
  destruct (Split_dot s); discriminate.
Qed.

Lemma Join_dot_cons part rest :
  rest ≠ [] -> Join_dot (part :: rest) = part +:+ "." +:+ Join_dot rest.
Proof. destruct rest; [done | reflexivity]. Qed.

(** Joining what was split gives the string back. *)
Lemma Join_Split_dot s : Join_dot (Split_dot s) = s.
Proof.
  induction s as [|c s IH]; [reflexivity |].
  cbn [Split_dot]. destruct (Ascii.eqb_spec c ".") as [-> | Hc].
  - rewrite Join_dot_cons by apply Split_dot_nonempty. by rewrite IH.
  - pose proof (Split_dot_nonempty s) as Hne.
    destruct (Split_dot s) as [|part parts]; [done |].
    destruct parts as [|next parts].
    + cbn [Join_dot] in IH |- *. by rewrite IH.
    + rewrite Join_dot_cons in IH |- * by discriminate.
      rewrite <- IH. reflexivity.
Qed.

(** A label: a string without a dot. *)
Lemma Split_dot_labels s :
  Forall (fun part => Split_dot part = [part]) (Split_dot s).
Proof.
  induction s as [|c s IH]; [by constructor |].
  cbn [Split_dot]. destruct (Ascii.eqb c ".") eqn:Hc.
  - by constructor.
  - pose proof (Split_dot_nonempty s) as Hne.
    destruct (Split_dot s) as [|part parts]; [done |].
    apply Forall_cons in IH as [Hpart Hparts].
    constructor; [| exact Hparts].
    cbn [Split_dot]. by rewrite Hc, Hpart.
Qed.

Lemma Split_dot_label_dot a s :
  Split_dot a = [a] -> Split_dot (a +:+ "." +:+ s) = a :: Split_dot s.
Proof.
  revert s. induction a as [|c a IH]; intros s Ha; [reflexivity |].
  change (String c a +:+ "." +:+ s) with (String c (a +:+ "." +:+ s)).
  cbn [Split_dot] in Ha |- *. destruct (Ascii.eqb c "."); [discriminate |].
  pose proof (Split_dot_nonempty a) as Hne.
  destruct (Split_dot a) as [|part parts] eqn:Hsplit; [done |].
  injection Ha as -> ->. by rewrite IH.
Qed.

Lemma Join_dot_app pre rest :
  pre ≠ [] -> rest ≠ [] ->
  Join_dot (pre ++ rest) = Join_dot pre +:+ "." +:+ Join_dot rest.
Proof.
  induction pre as [|part pre IH]; intros Hpre Hrest; [done |].
  destruct pre as [|next pre].
  - cbn [app]. by rewrite Join_dot_cons.
  - rewrite <- app_comm_cons.
    rewrite Join_dot_cons by (cbn; discriminate).
    rewrite IH by done.
    rewrite (Join_dot_cons part (next :: pre)) by discriminate.
    by rewrite !append_assoc.
Qed.

Lemma last_two {A : Type} (l : list A) :
  (2 ≤ length l)%nat -> ∃ pre a b, l = pre ++ [a; b].
Proof.
  intros Hlen.
  destruct (rev l) as [|b [|a rest]] eqn:Hrev.
  - apply (f_equal length) in Hrev. rewrite length_rev in Hrev.
    cbn in Hrev. lia.
  - apply (f_equal length) in Hrev. rewrite length_rev in Hrev.
    cbn in Hrev. lia.
  - exists (rev rest), a, b. rewrite <- (rev_involutive l), Hrev.
    cbn [rev]. by rewrite <- app_assoc.
Qed.

(** The root in terms of the labels of the hostname. *)
Lemma extractRootDomain_labels domain pre a b :
  Split_dot domain = pre ++ [a; b] ->
  extractRootDomain domain = a +:+ "." +:+ b.
Proof.
  intros Hsplit. unfold extractRootDomain. cbn zeta. rewrite Hsplit.
  rewrite length_app. cbn [length].
  rewrite bool_decide_eq_true_2 by lia.
  rewrite !lookup_app_r by lia.
  replace (length pre + 2 - 2 - length pre)%nat with 0%nat by lia.
  replace (length pre + 2 - 1 - length pre)%nat with 1%nat by lia.
  reflexivity.
Qed.

(** X30. [extractRootDomain] returns the last two labels of the
    hostname joined by a dot (so the root of ["a.b.co.uk"] is
    ["co.uk"]), and the hostname itself when it has no dot. The hostname
    is its root or ends with a dot followed by its root, the root of a
    hostname with a dot has exactly two labels, and the root of a root
    is the root. *)
Theorem extractRootDomain_last_two_labels domain :
  let root := extractRootDomain domain in
  (Split_dot domain = [domain] -> root = domain)
  ∧ (domain = root ∨ ∃ sub, domain = sub +:+ "." +:+ root)
  ∧ ((2 ≤ length (Split_dot domain))%nat -> length (Split_dot root) = 2%nat)
  ∧ extractRootDomain root = root.
Proof.
  intros root.
  destruct (decide (2 ≤ length (Split_dot domain))%nat) as [Hlen | Hlen].
  - destruct (last_two _ Hlen) as (pre & a & b & Hsplit).
    pose proof (Split_dot_labels domain) as Hlabels.
    rewrite Hsplit in Hlabels. apply Forall_app in Hlabels as [_ Hlabels].
    apply Forall_cons in Hlabels as [Ha Hlabels].
    apply Forall_cons in Hlabels as [Hb _].
    assert (Hroot : root = a +:+ "." +:+ b)
      by (by apply extractRootDomain_labels with pre).
    assert (Hparts : Split_dot root = [a; b]).
    { rewrite Hroot, Split_dot_label_dot by exact Ha. by rewrite Hb. }
    split; [| split; [| split]].
    + intros Hone. rewrite Hone in Hlen. cbn in Hlen. lia.
    + pose proof (Join_Split_dot domain) as Hjoin. rewrite Hsplit in Hjoin.
      destruct pre as [|p pre].
      * left. rewrite <- Hjoin, Hroot. reflexivity.
      * right. exists (Join_dot (p :: pre)).
        rewrite <- Hjoin, Hroot. by rewrite Join_dot_app.
    + intros _. by rewrite Hparts.
    + rewrite (extractRootDomain_labels root [] a b Hparts). by rewrite Hroot.
  - assert (Hroot : root = domain).
    { unfold root, extractRootDomain. cbn zeta.
      by rewrite bool_decide_eq_false_2. }
    split; [done |]. split; [by left |]. split; [done |].
    rewrite Hroot. exact Hroot.
Qed.

(** * The properties on the sample runs *)

(** ** C1 *)

Lemma cooldown_gate_witness :
  (ShouldNotifyDomain 0 ToLowerASCII (sample_start + 8 * Day) sample_host
     sample_tracker).1 = true
  ∧ (ShouldNotifyDomain 0 ToLowerASCII (sample_start + 14 * Day)
       "a.example.com"
       (run 0 ToLowerASCII
          [(sample_start + 9 * Day, OpRecordDomainIssuer sample_host "R3");
           (sample_start + 10 * Day, OpClearOldEntries (30 * Day))]
          (ShouldNotifyDomain 0 ToLowerASCII (sample_start + 8 * Day)
             sample_host sample_tracker).2)).1 = false.
Proof.
  destruct (ShouldNotifyDomain_cooldown_gate 0 ToLowerASCII
              (sample_start + 8 * Day) sample_host sample_tracker
              (first_entry 0 sample_start "a.example.com"))
    as (Hiff & _ & Hlater).
  - vm_compute. reflexivity.
  - reflexivity.
  - assert (Htrue : (ShouldNotifyDomain 0 ToLowerASCII
                       (sample_start + 8 * Day) sample_host
                       sample_tracker).1 = true).
    { apply Hiff. vm_compute. split; discriminate. }
    split; [exact Htrue |].
    destruct (Hlater
                [(sample_start + 9 * Day, OpRecordDomainIssuer sample_host "R3");
                 (sample_start + 10 * Day, OpClearOldEntries (30 * Day))]
                (sample_start + 14 * Day) "a.example.com") as [Hwindow _].
    + exact Htrue.
    + vm_compute. reflexivity.
    + vm_compute. discriminate.
    + repeat constructor; vm_compute; discriminate.
    + apply Hwindow. vm_compute. reflexivity.
Defined.

(** ** C2 *)

(** C2 as stated fails: thirty-one days after its first sighting the
    hostname is swept by [ClearOldEntries] with the program's retention
    of thirty days, and the next call is a first sighting again. *)
Lemma first_sighting_twice :
  let key := "a.example.com" in
  let later := sample_start + 31 * Day in
  let swept := (ClearOldEntries later (30 * Day) sample_tracker).2 in
  let again := ShouldNotifyDomain 0 ToLowerASCII later sample_host swept in
  (ShouldNotifyDomain 0 ToLowerASCII sample_start sample_host
     empty_tracker).1 = true
  ∧ domains swept !! key = None
  ∧ again.1 = true
  ∧ domains again.2 !! key = Some (first_entry 0 later key).
Proof. vm_compute. repeat split; reflexivity. Qed.

Lemma first_sighting_until_evicted_witness :
  ∃ e,
    domains
      (ShouldNotifyDomain 0 ToLowerASCII (sample_start + 40 * Day)
         "a.example.com"
         (run 0 ToLowerASCII
            [(sample_start + Day, OpShouldNotifyDomain sample_host);
             (sample_start + 2 * Day, OpClearOldEntries (30 * Day))]
            sample_tracker)).2 !! "a.example.com" = Some e
    ∧ FirstSeen e = sample_start.
Proof.
  destruct (first_sighting_until_evicted 0 ToLowerASCII sample_start
              sample_host empty_tracker) as (_ & _ & Hlater & _).
  - reflexivity.
  - destruct (Hlater
                [(sample_start + Day, OpShouldNotifyDomain sample_host);
                 (sample_start + 2 * Day, OpClearOldEntries (30 * Day))]
                (sample_start + 40 * Day) "a.example.com")
      as (e2 & e3 & _ & H3 & _ & F3 & _).
    + reflexivity.
    + vm_compute. repeat split; eexists; reflexivity.
    + exists e3. split; [exact H3 | exact F3].
Defined.

(** ** C3 *)


(** ** C4 *)

(** C4 as stated fails: a hostname blacklisted by the automatic rule and
    not seen for more than thirty days is swept by [ClearOldEntries];
    [IsBlacklisted] then answers [false] and the next call to
    [ShouldNotifyDomain] answers [true]. *)
Lemma blacklisted_then_notified_again :
  let later := sample_start + 40 * Day in
  let swept := (ClearOldEntries later (30 * Day) noisy_tracker).2 in
  IsBlacklisted ToLowerASCII "noisy.example.com" noisy_tracker = true
  ∧ (ShouldNotifyDomain 0 ToLowerASCII (sample_start + 3 * Day)
       "noisy.example.com" noisy_tracker).1 = false
  ∧ IsBlacklisted ToLowerASCII "noisy.example.com" swept = false
  ∧ (ShouldNotifyDomain 0 ToLowerASCII later "noisy.example.com" swept).1
    = true.
Proof. vm_compute. repeat split; reflexivity. Qed.

Lemma blacklisted_until_evicted_witness :
  (ShouldNotifyDomain 0 ToLowerASCII (sample_start + 20 * Day)
     "Noisy.Example.com."
     (run 0 ToLowerASCII
        [(sample_start + 3 * Day, OpForceNotifyDomain "noisy.example.com");
         (sample_start + 4 * Day, OpClearOldEntries (30 * Day))]
        noisy_tracker)).1 = false.
Proof.
  destruct (domains noisy_tracker !! "noisy.example.com") as [e|] eqn:He;
    [| vm_compute in He; discriminate He].
  destruct (blacklisted_until_evicted 0 ToLowerASCII
              (sample_start + 3 * Day) "noisy.example.com" noisy_tracker e)
    as (_ & _ & _ & _ & Hlater & _).
  - exact He.
  - vm_compute in He. injection He as <-. reflexivity.
  - apply (Hlater
             [(sample_start + 3 * Day, OpForceNotifyDomain "noisy.example.com");
              (sample_start + 4 * Day, OpClearOldEntries (30 * Day))]).
    + reflexivity.
    + vm_compute. repeat split; eexists; reflexivity.
Defined.

(** ** C5 *)

Lemma unsaved_first_sighting_witness :
  let r := ShouldNotifyDomain 0 ToLowerASCII sample_start sample_host
             empty_tracker in
  is_Some (domains r.2 !! "a.example.com")
  ∧ disk r.2 !! "a.example.com" = None
  ∧ disk r.2 ≠ domains r.2.
Proof.
  destruct (ShouldNotifyDomain_unsaved_branches 0 ToLowerASCII sample_start
              sample_host empty_tracker) as (Hnew & _).
  - reflexivity.
  - destruct Hnew as (H1 & H2 & H3); [reflexivity |].
    split; [eexists; exact H1 | split; [exact H2 | exact H3]].
Defined.

(** ** C6 *)

Lemma calculateRisk_score_witness :
  RiskScore
    (calculateRisk
       (mkDomainEntry "*.example.com" 60 0 0 0 false false 0 ∅ 0 None 0 50 0 0
                      [] 0 "R3" "E1" [200; 404; 500] false)) = 100
  ∧ RiskScore
      (calculateRisk
         (mkDomainEntry "www.example.com" 3 0 0 0 false false 0 ∅ 0 None 0
                        5000 0 0 [] 0 "R3" "" [200; 200; 404] false)) = 0.
Proof.
  split.
  - rewrite (proj1 (calculateRisk_score _)). vm_compute. reflexivity.
  - rewrite (proj1 (calculateRisk_score _)). vm_compute. reflexivity.
Defined.

(** ** C7 *)

(** The add that fills the batch in [orphan_state] hands over the 25
    items and stops timer 2, the one on record; timer 1 stays armed,
    and when it fires it flushes the next discovery at once. *)
Lemma full_batch_witness :
  let n' := Notifier.add "acme.com" "full.acme.com" orphan_state in
  Notifier.sent n'
  = Notifier.sent orphan_state
    ++ [Notifier.mkDispatch Notifier.Go "acme.com"
          (acme_items "b" 24 ++ ["full.acme.com"])]
  ∧ Notifier.pending n' !! "acme.com" = None
  ∧ Notifier.timers n' !! "acme.com" = None
  ∧ Notifier.timers orphan_state !! "acme.com" = Some 2%nat
  ∧ Notifier.armed n' = {[1%nat]}
  ∧ last (Notifier.sent
            (Notifier.fire "acme.com" 1
               (Notifier.add "acme.com" "next.acme.com" n')))
    = Some (Notifier.mkDispatch Notifier.Call "acme.com" ["next.acme.com"]).
Proof.
  destruct (add_flushes_full_batch "acme.com" "full.acme.com" orphan_state)
    as (H1 & _ & H3 & H4 & _ & H6 & _).
  - vm_compute. reflexivity.
  - split; [rewrite H1; vm_compute; reflexivity |].
    split; [exact H3 |]. split; [exact H4 |].
    split; [vm_compute; reflexivity |].
    split; [rewrite H6; vm_compute; reflexivity |].
    vm_compute. reflexivity.
Defined.

(** ** C8 *)

Lemma scenario_E_witness :
  Sink.sendDiscord sample_config busy_sink (Some "payload") "acme.com"
    ["a.acme.com"]
  = ([Sink.Post "https://discord.example/hook" "payload";
      Sink.Sleep (2 * Second);
      Sink.Post "https://discord.example/hook" "payload";
      Sink.Sleep (4 * Second);
      Sink.Post "https://discord.example/hook" "payload"],
     Sink.Delivered).
Proof.
  destruct (delivery_retry_contract sample_config busy_sink busy_sink
              "payload" "acme.com" ["a.acme.com"])
    as ((_ & _ & Hk & _) & _).
  - discriminate.
  - discriminate.
  - specialize (Hk 2%nat). simpl in Hk. apply Hk.
    + unfold Sink.maxRetries. lia.
    + intros j Hj. destruct j as [|[|j]]; [reflexivity | reflexivity | lia].
Defined.

(** ** C9 *)

Lemma shallow_copy_witness :
  let h := sample_heap.1 in
  let table := sample_heap.2 in
  ∃ q h1,
    Aliasing.GetDomainInfo ToLowerASCII sample_host h table = (Some q, h1)
    ∧ (DailyHits <$> Aliasing.internal h1 table "a.example.com")
      = Some {[ 20000 := 1 ]}
    ∧ (DailyHits
         <$> Aliasing.internal
               (Aliasing.mutate q (Aliasing.MapStore 20000 99) h1) table
               "a.example.com")
      = Some {[ 20000 := 99 ]}.
Proof.
  intros h table.
  destruct (Aliasing.structs h !! 1%nat) as [c|] eqn:Hc;
    [| vm_compute in Hc; discriminate Hc].
  destruct (GetDomainInfo_copy_is_shallow ToLowerASCII sample_host h table
              1%nat c) as (q & Hget & _ & Hsame & _ & _ & Hmap & _).
  - reflexivity.
  - exact Hc.
  - vm_compute. lia.
  - exists q, (Aliasing.new_struct c h).2.
    split; [exact Hget |]. split.
    + change (ToLowerASCII (TrimSuffix sample_host ".")) with "a.example.com"
        in Hsame.
      rewrite Hsame. vm_compute in Hc. injection Hc as <-. reflexivity.
    + change (ToLowerASCII (TrimSuffix sample_host ".")) with "a.example.com"
        in Hmap.
      rewrite (Hmap 0%nat 20000 99).
      * vm_compute in Hc. injection Hc as <-. vm_compute. reflexivity.
      * vm_compute in Hc. injection Hc as <-. reflexivity.
Defined.

(** ** C10 *)

Lemma stale_label_witness :
  ∃ e,
    domains (run 0 ToLowerASCII probe_trace empty_tracker)
      !! "probe.example.com" = Some e
    ∧ NoDup (RiskLabels e)
    ∧ RiskLabels e = ["status-anomaly"]
    ∧ StatusCodeHistory e = replicate 10 200
    ∧ RiskScore e = 0.
Proof.
  destruct (domains (run 0 ToLowerASCII probe_trace empty_tracker)
              !! "probe.example.com") as [e|] eqn:He;
    [| vm_compute in He; discriminate He].
  exists e. split; [reflexivity |]. split.
  - destruct (risk_labels_append_only 0 ToLowerASCII) as (_ & _ & _ & Hrun).
    exact (Hrun probe_trace "probe.example.com" e He).
  - vm_compute in He. injection He as <-. repeat split; reflexivity.
Defined.

(** ** Scenarios of the specification *)

(** Scenario A: one sighting, hit count 1. *)
Example scenario_A :
  (ShouldNotifyDomain 0 ToLowerASCII sample_start "a.example.com"
     empty_tracker).1 = true
  ∧ GetDomainHitCount ToLowerASCII "a.example.com" sample_tracker = 1.
Proof. vm_compute. split; reflexivity. Qed.

(** Scenario B: fifteen sightings on one day count 15 for that day and
    do not blacklist. *)
Example scenario_B :
  let dt :=
    run 0 ToLowerASCII
      (map (fun t => (t, OpShouldNotifyDomain "b.example.com"))
           (hours_on 0 0 15))
      empty_tracker in
  (fun e => (DailyHits e !! 20000, HighHitDays e, Blacklisted e))
    <$> domains dt !! "b.example.com"
  = Some (Some 15, 1, false).
Proof. vm_compute. reflexivity. Qed.

(** Scenario C: the noisy hostname is blacklisted on the third day, at
    its eleventh sighting of that day. *)
Example scenario_C :
  (fun e => (Blacklisted e, BlacklistedDate e, HighHitDays e))
    <$> domains noisy_tracker !! "noisy.example.com"
  = Some (true, sample_start + 2 * Day + 10 * Hour, 3).
Proof. vm_compute. reflexivity. Qed.

(** Scenario D: three items, then the timer fires: one hand-over of
    exactly these items, in order; no buffer and no timer remain. *)
Example scenario_D :
  let n :=
    Notifier.fire "acme.com" 0
      (Notifier.add_all "acme.com" ["a.acme.com"; "b.acme.com"; "c.acme.com"]
         Notifier.empty_buffer) in
  Notifier.sent n
  = [Notifier.mkDispatch Notifier.Call "acme.com"
       ["a.acme.com"; "b.acme.com"; "c.acme.com"]]
  ∧ Notifier.pending n !! "acme.com" = None
  ∧ Notifier.timers n !! "acme.com" = None
  ∧ Notifier.armed n = ∅.
Proof. vm_compute. repeat split; reflexivity. Qed.

(** [GetAllDomains] shares the map in the same way as [GetDomainInfo]. *)
Example GetAllDomains_shares_DailyHits :
  let h := sample_heap.1 in
  let table := sample_heap.2 in
  let snapshot := Aliasing.GetAllDomains h table in
  ∃ q,
    snapshot.1 !! "a.example.com" = Some q
    ∧ table !! "a.example.com" ≠ Some q
    ∧ (DailyHits
         <$> Aliasing.internal
               (Aliasing.mutate q (Aliasing.MapStore 20000 99) snapshot.2)
               table "a.example.com")
      = Some {[ 20000 := 99 ]}.
Proof.
  exists 2%nat. vm_compute. repeat split; try reflexivity. discriminate.
Qed.

(** * The further properties on the sample runs *)

(** ** The tracker *)

Lemma tracker_key_set_witness :
  RecordDomainIssuer ToLowerASCII "ghost.example.com" "R3" sample_tracker
  = sample_tracker.
Proof.
  refine (proj2 (tracker_key_set 0 ToLowerASCII sample_start
                   (OpRecordDomainIssuer "ghost.example.com" "R3")
                   sample_tracker) _).
  vm_compute. reflexivity.
Defined.

Lemma keys_are_normalized_witness :
  Domain (first_entry 0 sample_start "a.example.com") = "a.example.com"
  ∧ ∃ now o domain,
      (now, o) ∈ [(sample_start, OpShouldNotifyDomain sample_host)]
      ∧ creates ToLowerASCII "a.example.com" o = true
      ∧ op_domain o = Some domain
      ∧ normalize ToLowerASCII domain = "a.example.com".
Proof.
  apply (keys_are_normalized 0 ToLowerASCII
           [(sample_start, OpShouldNotifyDomain sample_host)]).
  vm_compute. reflexivity.
Defined.

Lemma other_keys_untouched_witness :
  domains (step 0 ToLowerASCII (sample_start + Day)
             (OpForceNotifyDomain "b.example.com") sample_tracker)
    !! "a.example.com"
  = domains sample_tracker !! "a.example.com".
Proof.
  apply (other_keys_untouched 0 ToLowerASCII _ _ _ "b.example.com");
    [reflexivity | vm_compute; discriminate].
Defined.

Lemma status_history_bounded_witness :
  ∃ e',
    domains (RecordDomainMetadata ToLowerASCII "probe.example.com" 503 5000
               10 100 (run 0 ToLowerASCII probe_trace empty_tracker))
      !! "probe.example.com" = Some e'
    ∧ last (StatusCodeHistory e') = Some 503
    ∧ (length (StatusCodeHistory e') ≤ 10)%nat.
Proof.
  destruct (domains (run 0 ToLowerASCII probe_trace empty_tracker)
              !! "probe.example.com") as [e|] eqn:He;
    [| vm_compute in He; discriminate He].
  destruct (status_history_bounded 0 ToLowerASCII) as [Hrec _].
  destruct (Hrec "probe.example.com" 503 5000 10 100 _ e He)
    as (e' & He' & _ & Hlast & Hlen & _).
  exists e'. split; [exact He' |]. split; [exact Hlast | exact Hlen].
Defined.

Lemma hit_count_counts_sightings_witness :
  GetDomainHitCount ToLowerASCII "noisy.example.com" noisy_tracker = 33.
Proof.
  destruct (hit_count_counts_sightings 0 ToLowerASCII "noisy.example.com"
              noisy_trace empty_tracker) as [_ Hcount].
  - repeat constructor.
  - unfold noisy_tracker. rewrite Hcount.
    + vm_compute. reflexivity.
    + vm_compute. discriminate.
    + vm_compute. discriminate.
Defined.

Lemma issuer_change_recorded_witness :
  ∃ e',
    domains (RecordDomainIssuer ToLowerASCII sample_host "E1"
               (Pipeline.tracker sample_world)) !! "a.example.com" = Some e'
    ∧ CertIssuer e' = "E1" ∧ PreviousIssuer e' = "R3"
    ∧ "issuer-change" ∈ RiskLabels e'.
Proof.
  destruct (issuer_change_recorded 0 ToLowerASCII) as [Hrec _].
  destruct (Hrec sample_host "E1" (Pipeline.tracker sample_world) sample_entry)
    as (e' & He' & Hissuer & Hprevious & Hlabel).
  - vm_compute. reflexivity.
  - exists e'. split; [exact He' |]. split; [exact Hissuer |].
    split; [rewrite Hprevious; vm_compute; reflexivity |].
    apply Hlabel. vm_compute. reflexivity.
Defined.

Lemma duplicate_flag_sticky_witness :
  IsDuplicate
    (seen_entry 0 (sample_start + Hour)
       (set_IsDuplicate true (first_entry 0 sample_start "dup.example.com")))
  = true.
Proof.
  destruct (duplicate_flag_sticky 0 ToLowerASCII) as [_ Hkept].
  apply (Hkept (sample_start + Hour) (OpShouldNotifyDomain "dup.example.com")
           duplicate_tracker "dup.example.com"
           (set_IsDuplicate true
              (first_entry 0 sample_start "dup.example.com"))).
  - vm_compute. reflexivity.
  - vm_compute. reflexivity.
  - reflexivity.
Defined.

Lemma ForceNotifyDomain_restarts_cooldown_witness :
  (ShouldNotifyDomain 0 ToLowerASCII (sample_start + 6 * Day) sample_host
     (ForceNotifyDomain 0 ToLowerASCII (sample_start + Day) sample_host
        sample_tracker)).1 = false.
Proof.
  destruct (ForceNotifyDomain_restarts_cooldown 0 ToLowerASCII
              (sample_start + Day) sample_host sample_tracker)
    as (_ & _ & Hlater).
  apply (Hlater [] (sample_start + 6 * Day) sample_host).
  - reflexivity.
  - vm_compute. split; [discriminate | reflexivity].
  - constructor.
Defined.

Lemma resolution_record_witness :
  (ShouldNotifyDomain 0 ToLowerASCII (sample_start + Day) "new.example.com"
     (RecordDomainResolution ToLowerASCII sample_start "new.example.com" true
        empty_tracker)).1 = true.
Proof.
  destruct (resolution_record_keeps_first_notification 0 ToLowerASCII
              sample_start (sample_start + Day) true "new.example.com"
              empty_tracker) as (_ & _ & Hnew).
  - vm_compute. discriminate.
  - destruct Hnew as (_ & _ & Hfirst & _); [reflexivity | exact Hfirst].
Defined.

Lemma saved_except_two_branches_witness :
  disk (step 0 ToLowerASCII (sample_start + Hour)
          (OpShouldNotifyDomain sample_host) (Pipeline.tracker sample_world))
  = domains (step 0 ToLowerASCII (sample_start + Hour)
               (OpShouldNotifyDomain sample_host)
               (Pipeline.tracker sample_world)).
Proof.
  apply saved_except_two_branches.
  - vm_compute. reflexivity.
  - intros domain [= <-]. exists sample_entry.
    split; [vm_compute; reflexivity | reflexivity].
Defined.

Lemma blacklisting_needs_streak_witness :
  ∃ e e',
    domains noisy_before !! "noisy.example.com" = Some e
    ∧ domains (step 0 ToLowerASCII noisy_last
                 (OpShouldNotifyDomain "noisy.example.com") noisy_before)
        !! "noisy.example.com" = Some e'
    ∧ Blacklisted e = false ∧ Blacklisted e' = true
    ∧ HighHitDays e' = incr (HighHitDays e)
    ∧ BlacklistedDate e' = noisy_last.
Proof.
  destruct (domains noisy_before !! "noisy.example.com") as [e|] eqn:He;
    [| vm_compute in He; discriminate He].
  destruct (domains (step 0 ToLowerASCII noisy_last
                       (OpShouldNotifyDomain "noisy.example.com") noisy_before)
              !! "noisy.example.com") as [e'|] eqn:He';
    [| vm_compute in He'; discriminate He'].
  assert (Hb : Blacklisted e = false).
  { vm_compute in He. injection He as <-. reflexivity. }
  assert (Hb' : Blacklisted e' = true).
  { vm_compute in He'. injection He' as <-. reflexivity. }
  pose proof (blacklisting_needs_streak 0 ToLowerASCII noisy_last
                (OpShouldNotifyDomain "noisy.example.com") noisy_before
                "noisy.example.com" e' He' Hb') as Hrule.
  rewrite He in Hrule.
  destruct Hrule as [Hwas | (_ & Hstreak & Hdate & _)]; [congruence |].
  exists e, e'. auto 10.
Defined.

Lemma ClearOldEntries_sweep_witness :
  (ClearOldEntries (sample_start + Day) (30 * Day) sample_tracker).2
  = sample_tracker.
Proof.
  destruct (ClearOldEntries_sweep ToLowerASCII (sample_start + Day) (30 * Day)
              sample_tracker) as (_ & _ & Hnone & _).
  apply Hnone. vm_compute. reflexivity.
Defined.

(** ** The delivery and the enumeration *)


Lemma triggerEnumeration_choice_witness :
  "*.dev.example.com" = "*." +:+ ExtractBaseDomain "*.dev.example.com"
  ∧ triggerEnumeration "*.dev.example.com" "example.com"
    = Puredns (ExtractBaseDomain "*.dev.example.com") "example.com".
Proof.
  destruct (triggerEnumeration_choice "*.dev.example.com" "example.com")
    as (Hwild & _).
  destruct Hwild as (Hshape & _ & Hscan); [reflexivity |].
  split; [exact Hshape | exact Hscan].
Defined.

(** ** The resolver and the pipeline *)

Lemma resolver_answer_kept_witness :
  Resolver.ResolveDomain ToLowerASCII (sample_start + Hour - 1)
    (sample_start + Hour) nxdomain "a.example.com"
    (Resolver.ResolveDomain ToLowerASCII sample_start sample_start resolvable
       sample_host ∅).2
  = (true, false,
     (Resolver.ResolveDomain ToLowerASCII sample_start sample_start resolvable
        sample_host ∅).2).
Proof.
  destruct (resolver_answer_kept_one_hour ToLowerASCII sample_start
              sample_start resolvable sample_host ∅)
    as (_ & _ & _ & Hlater); [reflexivity |].
  destruct (Hlater (sample_start + Hour - 1) (sample_start + Hour) nxdomain
              "a.example.com") as (Hfresh & _); [reflexivity |].
  apply Hfresh. vm_compute. reflexivity.
Defined.

Lemma unmatched_hostnames_ignored_witness :
  Pipeline.processEntry 0 ToLowerASCII sample_settings
    (fun _ => (resolvable, sample_clock sample_start)) foreign_cert
    sample_world
  = sample_world.
Proof.
  destruct (unmatched_hostnames_ignored 0 ToLowerASCII) as [_ Hnone].
  apply Hnone. intros domain target Hd Ht.
  repeat (apply elem_of_cons in Hd as [-> | Hd]);
    try (by apply elem_of_nil in Hd);
    repeat (apply elem_of_cons in Ht as [-> | Ht]);
    try (by apply elem_of_nil in Ht);
    vm_compute; reflexivity.
Defined.

Lemma unresolved_sighting_witness :
  Pipeline.launched
    (Pipeline.processDomain 0 ToLowerASCII sample_settings nxdomain "R3"
       (sample_clock sample_start) sample_host empty_world) = []
  ∧ ∃ e,
      domains
        (Pipeline.tracker
           (Pipeline.processDomain 0 ToLowerASCII sample_settings nxdomain
              "R3" (sample_clock sample_start) sample_host empty_world))
        !! "a.example.com" = Some e
      ∧ Resolved e = false ∧ LastNotified e = sample_start.
Proof.
  destruct (unresolved_sighting_spends_cooldown 0 ToLowerASCII sample_settings
              nxdomain "R3" (sample_clock sample_start) sample_host
              empty_world "Example.com.") as (Hquiet & Hentry & _).
  - vm_compute. reflexivity.
  - reflexivity.
  - reflexivity.
  - split; [exact Hquiet | exact Hentry].
Defined.

Lemma pipeline_saves_sightings_witness :
  disk (Pipeline.tracker sample_world) = domains (Pipeline.tracker sample_world).
Proof.
  destruct (pipeline_saves_sightings 0 ToLowerASCII sample_settings resolvable
              "R3" (sample_clock sample_start) sample_host empty_world
              "Example.com.") as (Hsaved & _).
  - vm_compute. reflexivity.
  - apply Hsaved. left. reflexivity.
Defined.

Lemma pipeline_never_reuses_answer_witness :
  (Resolver.ResolveDomain ToLowerASCII (sample_start + 8 * Day + Second)
     (sample_start + 8 * Day + 2 * Second) nxdomain sample_host
     (Pipeline.resolveCache sample_world)).1
  = (false, true).
Proof.
  assert (Hfeed : Forall (fun s => Pipeline.in_order (Pipeline.s_clock s))
                    [sample_sighting resolvable sample_start]).
  { constructor; [| constructor]. vm_compute. split; discriminate. }
  assert (Hclock : Pipeline.in_order
                     (Pipeline.s_clock
                        (sample_sighting nxdomain (sample_start + 8 * Day)))).
  { vm_compute. split; discriminate. }
  assert (Hpassed :
            (ShouldNotifyDomain 0 ToLowerASCII
               (Pipeline.at_sighting
                  (Pipeline.s_clock
                     (sample_sighting nxdomain (sample_start + 8 * Day))))
               (Pipeline.s_domain
                  (sample_sighting nxdomain (sample_start + 8 * Day)))
               (Pipeline.tracker
                  (Pipeline.pipeline 0 ToLowerASCII sample_settings
                     [sample_sighting resolvable sample_start] empty_world))).1
            = true).
  { vm_compute. reflexivity. }
  exact (f_equal fst
           (pipeline_never_reuses_answer 0 ToLowerASCII sample_settings
              [sample_sighting resolvable sample_start] empty_world
              (sample_sighting nxdomain (sample_start + 8 * Day))
              eq_refl Hfeed Hclock Hpassed)).
Defined.

Lemma pipeline_notifies_once_witness :
  ∃ e,
    domains
      (Pipeline.tracker
         (Pipeline.processDomain 0 ToLowerASCII sample_settings resolvable
            "R3" (sample_clock sample_start) sample_host empty_world))
      !! "a.example.com" = Some e
    ∧ Resolved e = true ∧ LastNotified e = sample_start.
Proof.
  destruct (pipeline_notifies_once_per_week 0 ToLowerASCII sample_settings
              resolvable "R3" (sample_clock sample_start) sample_host
              empty_world "Example.com.") as (_ & Hentry & _).
  - vm_compute. reflexivity.
  - exact Hentry.
Defined.

(** ** The blacklist handlers *)

Lemma addBlacklist_mutes_witness :
  (ShouldNotifyDomain 0 ToLowerASCII (sample_start + 8 * Day) sample_host
     (Admin.addBlacklist (sample_start + Day) (Some "a.example.com")
        (Pipeline.tracker sample_world)).2).1 = false.
Proof.
  destruct (addBlacklist_mutes 0 ToLowerASCII (sample_start + Day)
              (Some "a.example.com") (Pipeline.tracker sample_world))
    as (_ & _ & Hdone).
  destruct (Hdone "a.example.com" sample_entry eq_refl) as (_ & _ & Hmuted).
  - discriminate.
  - vm_compute. reflexivity.
  - apply (Hmuted []); [reflexivity |].
    vm_compute. eexists. reflexivity.
Defined.



(** ** The chunks *)

Lemma chunkResults_partition_witness :
  ∃ chunks,
    chunkResults 66 sample_results 30 = Returned chunks
    ∧ concat chunks = sample_results.
Proof.
  destruct (chunkResults_partition sample_results 30) as (Hpos & _).
  - vm_compute. discriminate.
  - destruct Hpos as (chunks & Hreturns & Hconcat & _); [reflexivity |].
    exists chunks. split; [| exact Hconcat].
    apply Hreturns. vm_compute. lia.
Defined.

(** ** The scheduler *)

Lemma daily_summary_never_sent_witness :
  summaryLoop 0 late_readings 0 48 zero_time = (replicate 48 false, zero_time).
Proof.
  destruct (daily_summary_needs_lucky_start 0) as [_ Hnever].
  apply (Hnever late_start late_readings).
  - vm_compute. discriminate.
  - intros k. exists Second. split; [reflexivity |].
    split; [vm_compute; discriminate | vm_compute; reflexivity].
Defined.

(** ** The root of a hostname *)

Lemma extractRootDomain_witness :
  length (Split_dot (extractRootDomain "www.api.example.co.uk")) = 2%nat
  ∧ extractRootDomain (extractRootDomain "www.api.example.co.uk")
    = extractRootDomain "www.api.example.co.uk".
Proof.
  destruct (extractRootDomain_last_two_labels "www.api.example.co.uk")
    as (_ & _ & Htwo & Hagain).
  split; [apply Htwo; vm_compute; lia | exact Hagain].
Defined.
